(** * Lifecycle reconcilers of the Relay namespace and Machine Learning
      workspace resources

    A shallow embedding of
      - internal/services/relay/relay_namespace_resource.go
      - the Machine Learning workspace resource (package machinelearning)
    and the properties of their create / read / delete operations.

    The remote API is a collaborator: every call of a client method is
    recorded in a request trace together with the instant of the logical
    clock at which it was made, and is answered from a script held by the
    client (the n-th call of a method gets the n-th answer). *)

From Stdlib Require Import ZArith Lia Ascii String.
From stdpp Require Import base option list strings gmap.

Set Default Proof Using "Type".

(** ** Go values *)

(** [time.Duration]: a count of nanoseconds. Instants of the logical clock
    are counted in the same unit. The durations of the resources are minutes
    and seconds, far from the bounds of an int64, and are added as integers. *)
Definition Duration := Z.
Definition Time := Z.
Definition Second : Duration := 1000000000%Z.
Definition Minute : Duration := (60 * Second)%Z.

(** An [interface{}] holding a scalar of a configuration block.
    [SIsolationMode] is a value of the named type [workspaces.IsolationMode]:
    its underlying type is string, and a type assertion to string fails on
    it. *)
Inductive Scalar :=
| SNil
| SBool (b : bool)
| SString (s : string)
| SIsolationMode (mode : string).

(** An attribute of a resource as the schema types it. *)
Inductive Value :=
| VNull
| VBool (b : bool)
| VString (s : string)
| VList (l : list (option (gmap string Scalar)))
| VMap (m : gmap string Scalar).

(** Typed resource identifiers (their parsers and formatters belong to the
    SDK and are taken as collaborators below). *)
Record NamespaceId := {
  ns_SubscriptionId : string;
  ns_ResourceGroup : string;
  ns_Name : string }.

Record AuthorizationRuleId := {
  ar_SubscriptionId : string;
  ar_ResourceGroup : string;
  ar_NamespaceName : string;
  ar_Name : string }.

Record WorkspaceId := {
  ws_SubscriptionId : string;
  ws_ResourceGroupName : string;
  ws_WorkspaceName : string }.

(** Arguments of a format string. *)
Inductive FmtArg :=
| ArgString (s : string)
| ArgNamespaceId (id : NamespaceId)
| ArgWorkspaceId (id : WorkspaceId).

(** Go [error] values. [Errorf format args cause] is
    [fmt.Errorf(format, args..., cause)], the cause being the argument of the
    trailing [%+v]; [ErrorfMsg] is a [fmt.Errorf] without a cause. *)
Inductive error :=
| SdkError (msg : string)
| Errorf (format : string) (args : list FmtArg) (cause : error)
| ErrorfMsg (format : string)
| ImportAsExistsError (resourceName : string) (id : string)
| TimeoutError (timeout : Duration).

(** [*http.Response], of which only the status code is read. *)
Record HttpResponse := { StatusCode : Z }.

(** Modelled from the spec: [response.WasNotFound], a helper of another
    package: a response is a NotFound response when it is present and its
    status is 404. *)
Definition WasNotFound (resp : option HttpResponse) : bool :=
  match resp with
  | Some r => (StatusCode r =? 404)%Z
  | None => false
  end.

(** ** Runs *)

(** Outcome of running a piece of Go code: it returns, it panics (a failed
    type assertion or a nil dereference), or the model's fuel ran out. *)
Inductive Res (A : Type) :=
| Ret (a : A)
| Panic (msg : string)
| OutOfFuel.
Arguments Ret {A} a.
Arguments Panic {A} msg.
Arguments OutOfFuel {A}.

(** State-passing computations over a state [S]. *)
Definition M (S A : Type) : Type := S → Res A * S.

#[global] Instance M_ret {S} : MRet (M S) := λ A a s, (Ret a, s).
#[global] Instance M_bind {S} : MBind (M S) := λ A B f m s,
  match m s with
  | (Ret a, s') => f a s'
  | (Panic msg, s') => (Panic msg, s')
  | (OutOfFuel, s') => (OutOfFuel, s')
  end.

Definition outOfFuel {S A} : M S A := λ s, (OutOfFuel, s).
Definition liftRes {S A} (r : Res A) : M S A := λ s, (r, s).

(** ** Resource data *)

(** [*pluginsdk.ResourceData], the handle of the plugin SDK on one resource
    instance; of it is written out what the resources use: the stored id,
    the new-resource mark, the attributes that [d.Get] reads and [d.Set]
    writes (a flat map from keys to scalars and lists of nested blocks), the
    attributes of the prior state (the old side of [d.GetChange]) and the
    configured timeouts. *)
Record ResourceData := {
  rd_Id : string;
  rd_IsNewResource : bool;
  rd_attrs : gmap string Value;
  rd_prior : gmap string Value;
  rd_timeouts : gmap string Duration }.

Definition SetId (id : string) (d : ResourceData) : ResourceData :=
  {| rd_Id := id; rd_IsNewResource := rd_IsNewResource d;
     rd_attrs := rd_attrs d; rd_prior := rd_prior d;
     rd_timeouts := rd_timeouts d |}.

Definition Set_ (key : string) (v : Value) (d : ResourceData) : ResourceData :=
  {| rd_Id := rd_Id d; rd_IsNewResource := rd_IsNewResource d;
     rd_attrs := <[key := v]> (rd_attrs d); rd_prior := rd_prior d;
     rd_timeouts := rd_timeouts d |}.

(** [d.Get(key).(string)] and its siblings. The framework keeps every
    attribute at the type its schema declares and hands out the zero value
    of that type for an attribute that is not set. *)
Definition asString (v : option Value) : string :=
  match v with Some (VString s) => s | _ => "" end.
Definition asBool (v : option Value) : bool :=
  match v with Some (VBool b) => b | _ => false end.
Definition asList (v : option Value) : list (option (gmap string Scalar)) :=
  match v with Some (VList l) => l | _ => [] end.
Definition asMap (v : option Value) : gmap string Scalar :=
  match v with Some (VMap m) => m | _ => ∅ end.

Definition GetString (d : ResourceData) (key : string) : string :=
  asString (rd_attrs d !! key).
Definition GetBool (d : ResourceData) (key : string) : bool :=
  asBool (rd_attrs d !! key).
Definition GetList (d : ResourceData) (key : string) :=
  asList (rd_attrs d !! key).
Definition GetMap (d : ResourceData) (key : string) :=
  asMap (rd_attrs d !! key).

(** [d.GetOk(key)]: the value, and whether it is set to something other
    than the zero value. *)
Definition GetOkString (d : ResourceData) (key : string) : string * bool :=
  let s := GetString d key in (s, negb (String.eqb s "")).
Definition GetOkBool (d : ResourceData) (key : string) : bool * bool :=
  let b := GetBool d key in (b, b).

(** [d.GetOkExists(key)]: the value, and whether it is set at all. *)
Definition GetOkExistsBool (d : ResourceData) (key : string) : bool * bool :=
  match rd_attrs d !! key with
  | Some (VBool b) => (b, true)
  | _ => (false, false)
  end.

(** Pointers to scalars handed to [d.Set]. *)
Definition ofStringPtr (p : option string) : Value :=
  match p with Some s => VString s | None => VNull end.
Definition ofBoolPtr (p : option bool) : Value :=
  match p with Some b => VBool b | None => VNull end.

(** Timeout keys of [pluginsdk]. *)
Definition TimeoutCreate : string := "create".
Definition TimeoutRead : string := "read".
Definition TimeoutUpdate : string := "update".
Definition TimeoutDelete : string := "delete".

(** [pluginsdk.ResourceTimeout]: the defaults a resource declares. *)
Record ResourceTimeout := {
  rt_Create : Duration;
  rt_Read : Duration;
  rt_Update : Duration;
  rt_Delete : Duration }.

Definition defaultTimeout (t : ResourceTimeout) (key : string) : Duration :=
  if String.eqb key TimeoutCreate then rt_Create t
  else if String.eqb key TimeoutRead then rt_Read t
  else if String.eqb key TimeoutUpdate then rt_Update t
  else rt_Delete t.

(** [d.Timeout(key)]: the configured timeout, else the resource's default. *)
Definition ResourceData_Timeout (t : ResourceTimeout) (d : ResourceData)
    (key : string) : Duration :=
  match rd_timeouts d !! key with
  | Some v => v
  | None => defaultTimeout t key
  end.

(** [context.Context]: the deadline it carries. *)
Record Context := { ctx_deadline : Time }.

(** Splitting a path at its slashes (used by the sample id parsers). *)
Fixpoint splitSlash (s : string) : list string :=
  match s with
  | EmptyString => [""]
  | String a rest =>
      if Ascii.eqb a "/"%char then "" :: splitSlash rest
      else match splitSlash rest with
           | seg :: segs => String a seg :: segs
           | [] => [String a ""]
           end
  end.

(** ** The state of a run *)

(** A run threads the resource data, the logical clock and the trace of the
    requests sent to the API, oldest first, each with the instant at which
    it was sent. *)
Record State (Req : Type) := {
  st_d : ResourceData;
  st_clock : Time;
  st_trace : list (Time * Req) }.
Arguments st_d {Req} s.
Arguments st_clock {Req} s.
Arguments st_trace {Req} s.

Section StateOps.
Context {Req : Type}.

Definition getData : M (State Req) ResourceData := λ s, (Ret (st_d s), s).

Definition modifyData (f : ResourceData → ResourceData) : M (State Req) unit :=
  λ s, (Ret tt, {| st_d := f (st_d s); st_clock := st_clock s;
                   st_trace := st_trace s |}).

Definition now : M (State Req) Time := λ s, (Ret (st_clock s), s).

(** Suspend until instant [t]; the clock never runs backwards. *)
Definition sleepUntil (t : Time) : M (State Req) unit :=
  λ s, (Ret tt, {| st_d := st_d s; st_clock := Z.max (st_clock s) t;
                   st_trace := st_trace s |}).

(** How many requests of a kind the trace holds. *)
Definition countReq (p : Req → bool) (tr : list (Time * Req)) : nat :=
  length (filter (λ e, p e.2 = true) tr).

(** Instants of the requests of a kind, oldest first. *)
Definition instantsOf (p : Req → bool) (tr : list (Time * Req)) : list Time :=
  fst <$> filter (λ e, p e.2 = true) tr.

(** Send [req]: it is appended to the trace, and the answer is the one the
    script holds for the number of earlier requests of the same kind. *)
Definition send {A} (kind : Req → bool) (req : Req) (script : nat → A)
    : M (State Req) A :=
  λ s, (Ret (script (countReq kind (st_trace s))),
        {| st_d := st_d s; st_clock := st_clock s;
           st_trace := st_trace s ++ [(st_clock s, req)] |}).

(** A computation that adds only requests of the kind [p] to the trace. *)
Definition sendsOnly (p : Req → bool) {A} (m : M (State Req) A) : Prop :=
  ∀ s, ∃ reqs, st_trace (m s).2 = st_trace s ++ reqs
               ∧ Forall (λ e, p e.2 = true) reqs.
End StateOps.

(** ** Waiting for a state (package pluginsdk) *)

Section Pluginsdk.
Context {Req R : Type}.

(** [pluginsdk.StateRefreshFunc]: the probed object, the name of the
    state it is in, and an error. *)
Definition StateRefreshFunc : Type :=
  M (State Req) (option R * string * option error).

(** [pluginsdk.StateChangeConf], with the fields the resources set. *)
Record StateChangeConf := {
  Pending : list string;
  Target : list string;
  Refresh : StateRefreshFunc;
  MinTimeout : Duration;
  Timeout : Duration }.

Definition inStates (st : string) (l : list string) : bool :=
  existsb (String.eqb st) l.

(** Modelled from the spec: the polling loop of
    [StateChangeConf.WaitForStateContext], which belongs to the plugin SDK
    and not to the sources of the resources. One iteration is one tick. The deadline is checked
    before every probe: once it has elapsed the loop stops with
    [TimeoutError]. Otherwise [Refresh] is called; an error stops the loop
    and is surfaced; a state among [Target] stops the loop with success;
    anything else leaves the loop pending, and it suspends for the fixed
    minimum interval [MinTimeout], or until the deadline when that comes
    first. *)
Fixpoint waitLoop (fuel : nat) (conf : StateChangeConf) (deadline : Time)
    : M (State Req) (option R * option error) :=
  match fuel with
  | O => outOfFuel
  | S fuel' =>
      t ← now;
      if (deadline <=? t)%Z then mret (None, Some (TimeoutError (Timeout conf)))
      else
        '(res, currentState, err) ← Refresh conf;
        match err with
        | Some e => mret (None, Some e)
        | None =>
            if inStates currentState (Target conf) then mret (res, None)
            else
              sleepUntil (Z.min (t + MinTimeout conf) deadline);;
              waitLoop fuel' conf deadline
        end
  end.

(** Ticks that fit before the deadline, and one more to see it elapse. *)
Definition pollBudget (conf : StateChangeConf) : nat :=
  S (S (Z.to_nat (Timeout conf / MinTimeout conf))).

(** Modelled from the spec: [StateChangeConf.WaitForStateContext]. The
    deadline is the instant of the call plus [Timeout]. *)
Definition WaitForStateContext (conf : StateChangeConf) (ctx : Context)
    : M (State Req) (option R * option error) :=
  t ← now;
  waitLoop (pollBudget conf) conf (t + Timeout conf)%Z.
End Pluginsdk.
Arguments StateRefreshFunc : clear implicits.
Arguments StateChangeConf : clear implicits.

(** The state with its resource data changed by [f]. *)
Definition withData {Req} (f : ResourceData → ResourceData) (s : State Req)
    : State Req :=
  {| st_d := f (st_d s); st_clock := st_clock s; st_trace := st_trace s |}.

(** * The Relay namespace resource *)

Module Relay.

(** ** SDK types (package namespaces) *)

Record Sku := {
  Sku_Name : string;
  Sku_Tier : option string }.

Record RelayNamespaceProperties := {
  MetricId : option string }.

Record RelayNamespace := {
  Location : string;
  Sku_ : option Sku;
  Properties : option RelayNamespaceProperties;
  Tags : option (gmap string string) }.

Record GetResponse := {
  get_HttpResponse : option HttpResponse;
  get_Model : option RelayNamespace }.

Record AccessKeys := {
  PrimaryConnectionString : option string;
  PrimaryKey : option string;
  SecondaryConnectionString : option string;
  SecondaryKey : option string }.

Record ListKeysResponse := {
  keys_HttpResponse : option HttpResponse;
  keys_Model : option AccessKeys }.

(** The status handle of the long-running delete operation: what polling
    it would report. *)
Record Poller := {
  poller_outcome : option error }.

Record DeleteResponse := {
  del_HttpResponse : option HttpResponse;
  del_Poller : Poller }.

(** The requests the resource sends. *)
Inductive Request :=
| ReqGet (id : NamespaceId)
| ReqDelete (id : NamespaceId)
| ReqCreateOrUpdateThenPoll (id : NamespaceId) (parameters : RelayNamespace)
| ReqListKeys (id : AuthorizationRuleId).

Definition isGet (r : Request) : bool :=
  match r with ReqGet _ => true | _ => false end.
Definition isDelete (r : Request) : bool :=
  match r with ReqDelete _ => true | _ => false end.
Definition isCreateOrUpdate (r : Request) : bool :=
  match r with ReqCreateOrUpdateThenPoll _ _ => true | _ => false end.
Definition isListKeys (r : Request) : bool :=
  match r with ReqListKeys _ => true | _ => false end.

(** [*namespaces.NamespacesClient]: the answers of the API, per method and
    per call number. *)
Record NamespacesClient := {
  onGet : nat → GetResponse * option error;
  onDelete : nat → DeleteResponse * option error;
  onCreateOrUpdateThenPoll : nat → option error;
  onListKeys : nat → ListKeysResponse * option error }.

(** [*clients.Client], the [meta] argument of the operations. *)
Record Client := {
  Relay_NamespacesClient : NamespacesClient;
  Account_SubscriptionId : string;
  StopContext : Context }.

Abbreviation Run := (State Request).

Definition client_Get (c : NamespacesClient) (ctx : Context) (id : NamespaceId)
    : M Run (GetResponse * option error) :=
  send isGet (ReqGet id) (onGet c).

Definition client_Delete (c : NamespacesClient) (ctx : Context) (id : NamespaceId)
    : M Run (DeleteResponse * option error) :=
  send isDelete (ReqDelete id) (onDelete c).

Definition client_CreateOrUpdateThenPoll (c : NamespacesClient) (ctx : Context)
    (id : NamespaceId) (parameters : RelayNamespace) : M Run (option error) :=
  send isCreateOrUpdate (ReqCreateOrUpdateThenPoll id parameters)
       (onCreateOrUpdateThenPoll c).

Definition client_ListKeys (c : NamespacesClient) (ctx : Context)
    (id : AuthorizationRuleId) : M Run (ListKeysResponse * option error) :=
  send isListKeys (ReqListKeys id) (onListKeys c).

Definition NewNamespaceID (subscriptionId resourceGroup name : string)
    : NamespaceId :=
  {| ns_SubscriptionId := subscriptionId; ns_ResourceGroup := resourceGroup;
     ns_Name := name |}.

Definition NewAuthorizationRuleID
    (subscriptionId resourceGroup namespaceName name : string)
    : AuthorizationRuleId :=
  {| ar_SubscriptionId := subscriptionId; ar_ResourceGroup := resourceGroup;
     ar_NamespaceName := namespaceName; ar_Name := name |}.

(** The functions of other packages that the resource calls and whose
    results it only passes on. *)
Class Collaborators := {
  ParseNamespaceID : string → NamespaceId + error;
  NamespaceId_ID : NamespaceId → string;
  NormalizeLocation : string → string;
  location_Normalize : string → string;
  expandTags : gmap string Scalar → option (gmap string string);
  flattenTags : option (gmap string string) → gmap string (option string);
  tags_FlattenAndSet :
    gmap string (option string) → ResourceData → ResourceData * option error;
  (* package timeouts: the context of an operation, made from the parent
     context, the resource data and the instant of the call *)
  timeouts_ForCreateUpdate : Context → ResourceData → Time → Context;
  timeouts_ForRead : Context → ResourceData → Time → Context;
  timeouts_ForDelete : Context → ResourceData → Time → Context }.

(** The timeouts declared by [resourceRelayNamespace]. *)
Definition resourceRelayNamespace_Timeouts : ResourceTimeout :=
  {| rt_Create := (30 * Minute)%Z;
     rt_Read := (5 * Minute)%Z;
     rt_Update := (30 * Minute)%Z;
     rt_Delete := (60 * Minute)%Z |}.

Definition d_Timeout (d : ResourceData) (key : string) : Duration :=
  ResourceData_Timeout resourceRelayNamespace_Timeouts d key.

(** The context that a function of package timeouts derives. *)
Definition deriveContext (f : Context → ResourceData → Time → Context)
    (parent : Context) : M Run Context :=
  d ← getData;
  t ← now;
  mret (f parent d t).

Section Resource.
Context `{!Collaborators}.

(** ** relayNamespaceDeleteRefreshFunc *)
Definition relayNamespaceDeleteRefreshFunc (ctx : Context)
    (client : NamespacesClient) (id : NamespaceId)
    : StateRefreshFunc Request GetResponse :=
  '(res, err) ← client_Get client ctx id;
  match err with
  | Some err =>
      if WasNotFound (get_HttpResponse res) then
        mret (Some res, "Deleted", None)
      else
        mret (None, "Error",
              Some (Errorf "retrieving %s: %+v" [ArgNamespaceId id] err))
  | None => mret (Some res, "Pending", None)
  end.

(** The [StateChangeConf] that [resourceRelayNamespaceDelete] builds. *)
Definition deleteStateConf (ctx : Context) (client : NamespacesClient)
    (id : NamespaceId) (d : ResourceData)
    : StateChangeConf Request GetResponse :=
  {| Pending := ["Pending"];
     Target := ["Deleted"];
     Refresh := relayNamespaceDeleteRefreshFunc ctx client id;
     MinTimeout := (15 * Second)%Z;
     Timeout := d_Timeout d TimeoutDelete |}.

(** ** resourceRelayNamespaceDelete *)
Definition resourceRelayNamespaceDelete (meta : Client)
    : M Run (option error) :=
  let client := Relay_NamespacesClient meta in
  ctx ← deriveContext timeouts_ForDelete (StopContext meta);
  d ← getData;
  match ParseNamespaceID (rd_Id d) with
  | inr err => mret (Some err)
  | inl id =>
      '(_, err) ← client_Delete client ctx id;
      match err with
      | Some err =>
          mret (Some (Errorf "deleting %s: %+v" [ArgNamespaceId id] err))
      | None =>
          let stateConf := deleteStateConf ctx client id d in
          '(_, err) ← WaitForStateContext stateConf ctx;
          match err with
          | Some err =>
              mret (Some (Errorf "waiting for deletion of %s: %+v"
                                 [ArgNamespaceId id] err))
          | None => mret None
          end
      end
  end.

(** ** resourceRelayNamespaceRead *)
Definition resourceRelayNamespaceRead (meta : Client)
    : M Run (option error) :=
  let client := Relay_NamespacesClient meta in
  ctx ← deriveContext timeouts_ForRead (StopContext meta);
  d ← getData;
  match ParseNamespaceID (rd_Id d) with
  | inr err => mret (Some err)
  | inl id =>
      '(resp, err) ← client_Get client ctx id;
      match err with
      | Some err =>
          if WasNotFound (get_HttpResponse resp) then
            modifyData (SetId "");;
            mret None
          else
            mret (Some (Errorf "retrieving %s: %+v" [ArgNamespaceId id] err))
      | None =>
          let authRuleId :=
            NewAuthorizationRuleID (ns_SubscriptionId id) (ns_ResourceGroup id)
              (ns_Name id) "RootManageSharedAccessKey" in
          '(keysResp, err) ← client_ListKeys client ctx authRuleId;
          match err with
          | Some err =>
              mret (Some (Errorf "listing keys for %s: %+v"
                                 [ArgNamespaceId id] err))
          | None =>
              modifyData (Set_ "name" (VString (ns_Name id)));;
              modifyData (Set_ "resource_group_name"
                               (VString (ns_ResourceGroup id)));;
              err ← match get_Model resp with
                    | Some model =>
                        modifyData (Set_ "location"
                          (VString (location_Normalize (Location model))));;
                        match Sku_ model with
                        | Some sku =>
                            modifyData (Set_ "sku_name" (VString (Sku_Name sku)))
                        | None => mret tt
                        end;;
                        match Properties model with
                        | Some props =>
                            modifyData (Set_ "metric_id"
                                             (ofStringPtr (MetricId props)))
                        | None => mret tt
                        end;;
                        d ← getData;
                        let '(d', err) :=
                          tags_FlattenAndSet (flattenTags (Tags model)) d in
                        modifyData (λ _, d');;
                        mret err
                    | None => mret None
                    end;
              match err with
              | Some err => mret (Some err)
              | None =>
                  match keys_Model keysResp with
                  | Some model =>
                      modifyData (Set_ "primary_connection_string"
                        (ofStringPtr (PrimaryConnectionString model)));;
                      modifyData (Set_ "primary_key"
                        (ofStringPtr (PrimaryKey model)));;
                      modifyData (Set_ "secondary_connection_string"
                        (ofStringPtr (SecondaryConnectionString model)));;
                      modifyData (Set_ "secondary_key"
                        (ofStringPtr (SecondaryKey model)))
                  | None => mret tt
                  end;;
                  mret None
              end
          end
      end
  end.

(** ** resourceRelayNamespaceCreateUpdate *)
Definition resourceRelayNamespaceCreateUpdate (meta : Client)
    : M Run (option error) :=
  let client := Relay_NamespacesClient meta in
  let subscriptionId := Account_SubscriptionId meta in
  ctx ← deriveContext timeouts_ForCreateUpdate (StopContext meta);
  d ← getData;
  let id := NewNamespaceID subscriptionId
              (GetString d "resource_group_name") (GetString d "name") in
  guard ←
    (if rd_IsNewResource d then
       '(existing, err) ← client_Get client ctx id;
       match (match err with
              | Some err =>
                  if negb (WasNotFound (get_HttpResponse existing)) then
                    Some (Errorf "checking for presence of existing %s: %+v"
                                 [ArgNamespaceId id] err)
                  else None
              | None => None
              end) with
       | Some failure => mret (Some failure)
       | None =>
           if negb (WasNotFound (get_HttpResponse existing)) then
             mret (Some (ImportAsExistsError "azurerm_relay_namespace"
                                             (NamespaceId_ID id)))
           else mret None
       end
     else mret None);
  match guard with
  | Some err => mret (Some err)
  | None =>
      let skuTier := GetString d "sku_name" in
      let parameters :=
        {| Location := NormalizeLocation (GetString d "location");
           Sku_ := Some {| Sku_Name := GetString d "sku_name";
                           Sku_Tier := Some skuTier |};
           Properties := Some {| MetricId := None |};
           Tags := expandTags (GetMap d "tags") |} in
      err ← client_CreateOrUpdateThenPoll client ctx id parameters;
      match err with
      | Some err =>
          mret (Some (Errorf "creating/updating %s: %+v"
                             [ArgNamespaceId id] err))
      | None =>
          modifyData (SetId (NamespaceId_ID id));;
          resourceRelayNamespaceRead meta
      end
  end.
End Resource.

(** ** Vocabulary of the properties *)

(** What an answer to [Get] reports: the resource exists (no error), it is
    not found (an error whose response has status 404), or the request
    failed (any other error). *)
Definition reportsExists (a : GetResponse * option error) : bool :=
  match a.2 with None => true | Some _ => false end.
Definition reportsNotFound (a : GetResponse * option error) : bool :=
  match a.2 with
  | Some _ => WasNotFound (get_HttpResponse a.1)
  | None => false
  end.
Definition reportsFailure (a : GetResponse * option error) : bool :=
  match a.2 with
  | Some _ => negb (WasNotFound (get_HttpResponse a.1))
  | None => false
  end.

Definition numGets (s : Run) : nat := countReq isGet (st_trace s).
Definition numDeletes (s : Run) : nat := countReq isDelete (st_trace s).
Definition numCreates (s : Run) : nat := countReq isCreateOrUpdate (st_trace s).

(** The state after a request was sent. *)
Definition sent (req : Request) (s : Run) : Run :=
  {| st_d := st_d s; st_clock := st_clock s;
     st_trace := st_trace s ++ [(st_clock s, req)] |}.

(** Probes of the identity [id] sent at the instants [ts]. *)
Definition probesAt (id : NamespaceId) (ts : list Time) : list (Time * Request) :=
  (λ t, (t, ReqGet id)) <$> ts.

(** Consecutive instants are at least [m] apart. *)
Definition separatedBy (m : Duration) (ts : list Time) : Prop :=
  ∀ (i : nat) (t t' : Time),
    ts !! i = Some t → ts !! S i = Some t' → (t + m ≤ t')%Z.

(** The error that the refresh function makes of a failed probe, and the
    one that the delete operation makes of a failed wait. *)
Definition retrievingError (id : NamespaceId) (e : error) : error :=
  Errorf "retrieving %s: %+v" [ArgNamespaceId id] e.
Definition waitingError (id : NamespaceId) (e : error) : error :=
  Errorf "waiting for deletion of %s: %+v" [ArgNamespaceId id] e.

(** Big-step view of the confirmation poll of one delete: started when
    [n] probes were answered and the clock shows [t], it sends the probes
    at the instants [ts], ends with the result [r] and leaves the clock at
    [t']. [D] is the deadline, [m] the tick interval and [T] the timeout
    reported on expiry. *)
Inductive Polls (c : NamespacesClient) (id : NamespaceId)
    (D : Time) (m T : Duration)
    : nat → Time → list Time → Res (option GetResponse * option error)
      → Time → Prop :=
| polls_expired n t :
    (D ≤ t)%Z →
    Polls c id D m T n t [] (Ret (None, Some (TimeoutError T))) t
| polls_deleted n t :
    (t < D)%Z →
    reportsNotFound (onGet c n) = true →
    Polls c id D m T n t [t] (Ret (Some (onGet c n).1, None)) t
| polls_failed n t e :
    (t < D)%Z →
    (onGet c n).2 = Some e →
    reportsFailure (onGet c n) = true →
    Polls c id D m T n t [t] (Ret (None, Some (retrievingError id e))) t
| polls_pending n t ts r t' :
    (t < D)%Z →
    reportsExists (onGet c n) = true →
    Polls c id D m T (S n) (Z.min (t + m) D) ts r t' →
    Polls c id D m T n t (t :: ts) r t'
| polls_exhausted n t :
    Polls c id D m T n t [] OutOfFuel t.

(** What the delete operation returns for a result of its poll. *)
Definition deleteResult (id : NamespaceId)
    (r : Res (option GetResponse * option error)) : Res (option error) :=
  match r with
  | Ret (_, Some e) => Ret (Some (waitingError id e))
  | Ret (_, None) => Ret None
  | Panic msg => Panic msg
  | OutOfFuel => OutOfFuel
  end.



(** The instants of the probes that a run adds to those of the state [s]
    it started from. *)
Definition probeInstants (s run : Run) : list Time :=
  drop (numGets s) (instantsOf isGet (st_trace run)).

(** ** A sample environment, on which the operations are run *)

Definition sampleParse (input : string) : NamespaceId + error :=
  match splitSlash input with
  | [""; "subscriptions"; sub; "resourceGroups"; rg; "providers";
     "Microsoft.Relay"; "namespaces"; name] =>
      inl (NewNamespaceID sub rg name)
  | _ => inr (SdkError "parsing the Namespace ID")
  end.

Definition sampleID (id : NamespaceId) : string :=
  "/subscriptions/" +:+ ns_SubscriptionId id +:+ "/resourceGroups/"
    +:+ ns_ResourceGroup id +:+ "/providers/Microsoft.Relay/namespaces/"
    +:+ ns_Name id.

Definition sampleCollaborators : Collaborators :=
  {| ParseNamespaceID := sampleParse;
     NamespaceId_ID := sampleID;
     NormalizeLocation := λ l, l;
     location_Normalize := λ l, l;
     expandTags := λ _, None;
     flattenTags := λ _, ∅;
     tags_FlattenAndSet := λ _ d, (d, None);
     timeouts_ForCreateUpdate := λ parent d t,
       {| ctx_deadline := (t + d_Timeout d TimeoutCreate)%Z |};
     timeouts_ForRead := λ parent d t,
       {| ctx_deadline := (t + d_Timeout d TimeoutRead)%Z |};
     timeouts_ForDelete := λ parent d t,
       {| ctx_deadline := (t + d_Timeout d TimeoutDelete)%Z |} |}.

Definition sampleNamespace : NamespaceId :=
  NewNamespaceID "sub" "rg" "relay-ns".

Definition answerExists : GetResponse * option error :=
  ({| get_HttpResponse := Some {| StatusCode := 200 |}; get_Model := None |},
   None).
Definition answerNotFound : GetResponse * option error :=
  ({| get_HttpResponse := Some {| StatusCode := 404 |}; get_Model := None |},
   Some (SdkError "ResourceNotFound")).
Definition answerFailure : GetResponse * option error :=
  ({| get_HttpResponse := Some {| StatusCode := 500 |}; get_Model := None |},
   Some (SdkError "InternalServerError")).

Definition deleteAccepted : DeleteResponse * option error :=
  ({| del_HttpResponse := Some {| StatusCode := 202 |};
      del_Poller := {| poller_outcome := None |} |}, None).
Definition deleteRejected : DeleteResponse * option error :=
  ({| del_HttpResponse := Some {| StatusCode := 404 |};
      del_Poller := {| poller_outcome := None |} |},
   Some (SdkError "ResourceNotFound")).

(** A client that answers the probes from [gets], then with [rest]. *)
Definition sampleClient (onDel : DeleteResponse * option error)
    (gets : list (GetResponse * option error))
    (rest : GetResponse * option error) : Client :=
  {| Relay_NamespacesClient :=
       {| onGet := λ n, nth n gets rest;
          onDelete := λ _, onDel;
          onCreateOrUpdateThenPoll := λ _, None;
          onListKeys := λ _,
            ({| keys_HttpResponse := Some {| StatusCode := 200 |};
                keys_Model := None |}, None) |};
     Account_SubscriptionId := "sub";
     StopContext := {| ctx_deadline := 0%Z |} |}.

(** Resource data of the sample namespace with the delete timeout
    [timeout], and the state of a run that starts with it. *)
Definition sampleData (isNew : bool) (timeout : Duration) : ResourceData :=
  {| rd_Id := sampleID sampleNamespace;
     rd_IsNewResource := isNew;
     rd_attrs := {[ "name" := VString "relay-ns";
                    "resource_group_name" := VString "rg";
                    "location" := VString "westeurope";
                    "sku_name" := VString "Standard" ]};
     rd_prior := ∅;
     rd_timeouts := {[ TimeoutDelete := timeout ]} |}.

Definition sampleStart (isNew : bool) (timeout : Duration) : Run :=
  {| st_d := sampleData isNew timeout; st_clock := 0%Z; st_trace := [] |}.

(** The API of a namespace that is gone: deletes are accepted and every
    probe reports NotFound. *)
Definition goneApi : Client := sampleClient deleteAccepted [] answerNotFound.

(** The API of a namespace that never goes away. *)
Definition stuckApi : Client := sampleClient deleteAccepted [] answerExists.

(** The namespace is seen twice, then it is gone. *)
Definition slowApi : Client :=
  sampleClient deleteAccepted [answerExists; answerExists] answerNotFound.

(** The namespace is seen once, then the probe fails. *)
Definition failingApi : Client :=
  sampleClient deleteAccepted [answerExists; answerFailure] answerExists.

(** [resourceRelayNamespaceDelete] with the sample collaborators. *)
Definition sampleDelete (meta : Client) (s : Run) : Res (option error) * Run :=
  @resourceRelayNamespaceDelete sampleCollaborators meta s.

(** Sample runs: a delete with a timeout of an hour, and one with a timeout
    of twenty seconds. *)
Definition hourStart : Run := sampleStart false (60 * Minute)%Z.
Definition shortStart : Run := sampleStart false (20 * Second)%Z.

(** The read and the create with the sample collaborators, and the start of
    the create of a namespace marked new. *)
Definition sampleRead (meta : Client) (s : Run) : Res (option error) * Run :=
  @resourceRelayNamespaceRead sampleCollaborators meta s.
Definition sampleCreate (meta : Client) (s : Run) : Res (option error) * Run :=
  @resourceRelayNamespaceCreateUpdate sampleCollaborators meta s.
Definition newStart : Run := sampleStart true (60 * Minute)%Z.

(** ** Vocabulary and samples of the read and the create *)

Definition numListKeys (s : Run) : nat := countReq isListKeys (st_trace s).

(** The requests that a run added to the trace of the state it started
    from. *)
Definition requestsOf (s run : Run) : list Request :=
  snd <$> drop (length (st_trace s)) (st_trace run).

(** The authorization rule whose keys the read lists. *)
Definition rootRule (id : NamespaceId) : AuthorizationRuleId :=
  NewAuthorizationRuleID (ns_SubscriptionId id) (ns_ResourceGroup id)
    (ns_Name id) "RootManageSharedAccessKey".

(** The identity that a create or update addresses, and the namespace that
    it sends. *)
Definition createId (meta : Client) (d : ResourceData) : NamespaceId :=
  NewNamespaceID (Account_SubscriptionId meta)
    (GetString d "resource_group_name") (GetString d "name").
Definition createParameters `{!Collaborators} (d : ResourceData)
    : RelayNamespace :=
  {| Location := NormalizeLocation (GetString d "location");
     Sku_ := Some {| Sku_Name := GetString d "sku_name";
                     Sku_Tier := Some (GetString d "sku_name") |};
     Properties := Some {| MetricId := None |};
     Tags := expandTags (GetMap d "tags") |}.

(** The guard of a create lets the run go on when the resource is not new,
    or when the response to the up-front Get is a NotFound response. *)
Definition guardPasses (meta : Client) (s : Run) : bool :=
  negb (rd_IsNewResource (st_d s))
  || WasNotFound (get_HttpResponse
                    (onGet (Relay_NamespacesClient meta) (numGets s)).1).

(** The state in which the guard leaves the run. *)
Definition afterGuard (meta : Client) (s : Run) : Run :=
  if rd_IsNewResource (st_d s) then sent (ReqGet (createId meta (st_d s))) s
  else s.

(** The attributes that a read takes from the model of the ListKeys
    response, and those that it takes from the model of the Get response. *)
Definition keyAttributes : list string :=
  ["primary_connection_string"; "primary_key";
   "secondary_connection_string"; "secondary_key"].
Definition modelAttributes : list string :=
  ["location"; "sku_name"; "metric_id"; "tags"].

(** A client with scripted answers to every method. *)
Definition scriptedClient (create : option error)
    (keys : ListKeysResponse * option error)
    (onDel : DeleteResponse * option error)
    (gets : list (GetResponse * option error))
    (rest : GetResponse * option error) : Client :=
  {| Relay_NamespacesClient :=
       {| onGet := λ n, nth n gets rest;
          onDelete := λ _, onDel;
          onCreateOrUpdateThenPoll := λ _, create;
          onListKeys := λ _, keys |};
     Account_SubscriptionId := "sub";
     StopContext := {| ctx_deadline := 0%Z |} |}.

Definition sampleKeys : AccessKeys :=
  {| PrimaryConnectionString := Some "Endpoint=sb://relay-ns/;SharedAccessKey=primary";
     PrimaryKey := Some "primary";
     SecondaryConnectionString := None;
     SecondaryKey := Some "secondary" |}.
Definition keysListed : ListKeysResponse * option error :=
  ({| keys_HttpResponse := Some {| StatusCode := 200 |};
      keys_Model := Some sampleKeys |}, None).
(** The API of a namespace that is gone after the first delete: every
    probe reports NotFound, the first delete request is accepted and every
    later one is refused with a 404. *)
Definition goneTwiceApi : Client :=
  {| Relay_NamespacesClient :=
       {| onGet := λ _, answerNotFound;
          onDelete := λ n, match n with
                           | O => deleteAccepted
                           | S _ => deleteRejected
                           end;
          onCreateOrUpdateThenPoll := λ _, None;
          onListKeys := λ _,
            ({| keys_HttpResponse := Some {| StatusCode := 200 |};
                keys_Model := None |}, None) |};
     Account_SubscriptionId := "sub";
     StopContext := {| ctx_deadline := 0%Z |} |}.

Definition keysDenied : ListKeysResponse * option error :=
  ({| keys_HttpResponse := Some {| StatusCode := 403 |}; keys_Model := None |},
   Some (SdkError "AuthorizationFailed")).
End Relay.

(** * The Machine Learning workspace resource *)

Module MachineLearning.

(** ** SDK types (packages workspaces and identity) *)

Record Sku := {
  Sku_Name : string;
  Sku_Tier : option string }.

Record IdentityForCmk := {
  UserAssignedIdentity : option string }.

Record EncryptionKeyVaultProperties := {
  KeyVaultArmId : string;
  KeyIdentifier : string }.

Record EncryptionProperty := {
  enc_Identity : option IdentityForCmk;
  KeyVaultProperties : EncryptionKeyVaultProperties;
  Status : string }.

Definition EncryptionStatusEnabled : string := "Enabled".
Definition PublicNetworkAccessEnabled : string := "Enabled".
Definition PublicNetworkAccessDisabled : string := "Disabled".

Record ComputeRuntimeDto := {
  SparkRuntimeVersion : option string }.

Record FeatureStoreSettings := {
  ComputeRuntime : option ComputeRuntimeDto;
  OfflineStoreConnectionName : option string;
  OnlineStoreConnectionName : option string }.

Record ManagedNetworkSettings := {
  IsolationMode : option string }.

Record ServerlessComputeSettings := {
  ServerlessComputeNoPublicIP : option bool;
  ServerlessComputeCustomSubnet : option string }.

Record UserAssignedIdentityDetails := {
  ClientId : option string;
  PrincipalId : option string }.

(** [identity.LegacySystemAndUserAssignedMap] and
    [identity.SystemAndUserAssignedMap] have the same fields; a nil map of
    identity ids is [None]. *)
Record IdentityMap := {
  id_Type : string;
  id_PrincipalId : string;
  id_TenantId : string;
  id_IdentityIds : option (gmap string UserAssignedIdentityDetails) }.

Definition TypeSystemAssignedUserAssigned : string :=
  "SystemAssigned, UserAssigned".

Record WorkspaceProperties := {
  ApplicationInsights : option string;
  Encryption : option EncryptionProperty;
  KeyVault : option string;
  ManagedNetwork : option ManagedNetworkSettings;
  PublicNetworkAccess : option string;
  StorageAccount : option string;
  V1LegacyMode : option bool;
  ServerlessComputeSettings_ : option ServerlessComputeSettings;
  Description : option string;
  FriendlyName : option string;
  ContainerRegistry : option string;
  HbiWorkspace : option bool;
  ImageBuildCompute : option string;
  PrimaryUserAssignedIdentity : option string;
  FeatureStoreSettings_ : option FeatureStoreSettings;
  DiscoveryUrl : option string;
  WorkspaceId_ : option string;
  AllowPublicAccessWhenBehindVnet : option bool }.

Record Workspace := {
  Name : option string;
  Location : option string;
  Tags : option (gmap string string);
  Sku_ : option Sku;
  Kind : option string;
  Identity : option IdentityMap;
  Properties : option WorkspaceProperties }.

Record GetResponse := {
  get_HttpResponse : option HttpResponse;
  get_Model : option Workspace }.

(** The poller of a long-running operation: what [PollUntilDone] returns. *)
Record Poller := {
  PollUntilDone : option error }.

Record OperationResponse := {
  op_HttpResponse : option HttpResponse;
  op_Poller : Poller }.

Record DeleteOperationOptions := {
  ForceToPurge : option bool }.

Definition DefaultDeleteOperationOptions : DeleteOperationOptions :=
  {| ForceToPurge := None |}.

(** ** Go primitives on configuration blocks *)

#[global] Instance Res_ret : MRet Res := λ A a, Ret a.
#[global] Instance Res_bind : MBind Res := λ A B f r,
  match r with
  | Ret a => f a
  | Panic msg => Panic msg
  | OutOfFuel => OutOfFuel
  end.

(** [x.(string)] and [x.(bool)]: the assertion panics unless the interface
    holds a value of that type. *)
Definition assertString (x : option Scalar) : Res string :=
  match x with
  | Some (SString s) => Ret s
  | _ => Panic "interface conversion: interface {} is not string"
  end.
Definition assertBool (x : option Scalar) : Res bool :=
  match x with
  | Some (SBool b) => Ret b
  | _ => Panic "interface conversion: interface {} is not bool"
  end.

(** [s, ok := x.(string)]: the zero value and [false] instead of a panic. *)
Definition tryString (x : option Scalar) : string * bool :=
  match x with
  | Some (SString s) => (s, true)
  | _ => ("", false)
  end.

(** [*p]: dereferencing nil panics. *)
Definition deref {A} (p : option A) : Res A :=
  match p with
  | Some a => Ret a
  | None => Panic "invalid memory address or nil pointer dereference"
  end.

Definition isEmpty (s : string) : bool := String.eqb s "".

(** [strings.EqualFold] against a word of ASCII letters none of which is k
    or s: the only characters that fold to such a letter are its two ASCII
    cases, so the comparison is that of the ASCII lower-case forms. *)
Definition toLowerAscii (a : ascii) : ascii :=
  let n := nat_of_ascii a in
  if (65 <=? n)%nat && (n <=? 90)%nat then ascii_of_nat (n + 32) else a.
Fixpoint toLower (s : string) : string :=
  match s with
  | EmptyString => EmptyString
  | String a rest => String (toLowerAscii a) (toLower rest)
  end.
Definition EqualFold (s t : string) : bool :=
  String.eqb (toLower s) (toLower t).

(** ** Expanding and flattening the configuration blocks *)

Definition expandMachineLearningWorkspaceEncryption
    (input : list (option (gmap string Scalar))) : Res (option EncryptionProperty) :=
  match input with
  | [] => Ret None
  | None :: _ => Ret None
  | Some raw :: _ =>
      keyVaultId ← assertString (raw !! "key_vault_id");
      keyId ← assertString (raw !! "key_id");
      userAssignedIdentityId ← assertString (raw !! "user_assigned_identity_id");
      Ret (Some
        {| enc_Identity := Some
             {| UserAssignedIdentity :=
                  if negb (isEmpty userAssignedIdentityId)
                  then Some userAssignedIdentityId else None |};
           KeyVaultProperties :=
             {| KeyVaultArmId := keyVaultId; KeyIdentifier := keyId |};
           Status := EncryptionStatusEnabled |})
  end.

Definition expandMachineLearningWorkspaceFeatureStore
    (input : list (option (gmap string Scalar))) : Res (option FeatureStoreSettings) :=
  match input with
  | [] => Ret None
  | None :: _ => Ret None
  | Some raw :: _ =>
      sparkVersion ← assertString (raw !! "computer_spark_runtime_version");
      offline ← assertString (raw !! "offline_connection_name");
      online ← assertString (raw !! "online_connection_name");
      Ret (Some
        {| ComputeRuntime :=
             if negb (isEmpty sparkVersion)
             then Some {| SparkRuntimeVersion := Some sparkVersion |} else None;
           OfflineStoreConnectionName :=
             if negb (isEmpty offline) then Some offline else None;
           OnlineStoreConnectionName :=
             if negb (isEmpty online) then Some online else None |})
  end.

Definition flattenMachineLearningWorkspaceFeatureStore
    (input : option FeatureStoreSettings) : list (option (gmap string Scalar)) :=
  match input with
  | None => []
  | Some input =>
      let computerSparkRunTimeVersion :=
        match ComputeRuntime input with
        | Some rt => match SparkRuntimeVersion rt with Some v => v | None => "" end
        | None => ""
        end in
      let offlineConnectionName :=
        match OfflineStoreConnectionName input with Some v => v | None => "" end in
      let onlineConnectionName :=
        match OnlineStoreConnectionName input with Some v => v | None => "" end in
      [Some {[ "computer_spark_runtime_version" := SString computerSparkRunTimeVersion;
               "offline_connection_name" := SString offlineConnectionName;
               "online_connection_name" := SString onlineConnectionName ]}]
  end.

Definition expandMachineLearningWorkspaceManagedNetwork
    (i : list (option (gmap string Scalar))) : Res (option ManagedNetworkSettings) :=
  match i with
  | [] => Ret None
  | None :: _ => Ret None
  | Some v :: _ =>
      mode ← assertString (v !! "isolation_mode");
      Ret (Some {| IsolationMode := Some mode |})
  end.

Definition flattenMachineLearningWorkspaceManagedNetwork
    (i : option ManagedNetworkSettings) : list (option (gmap string Scalar)) :=
  match i with
  | None => []
  | Some i =>
      let out : gmap string Scalar := ∅ in
      let out := match IsolationMode i with
                 | Some mode => <["isolation_mode" := SIsolationMode mode]> out
                 | None => out
                 end in
      [Some out]
  end.

Definition expandMachineLearningWorkspaceServerlessCompute
    (i : list (option (gmap string Scalar))) : Res (option ServerlessComputeSettings) :=
  match i with
  | [] => Ret None
  | None :: _ => Ret None
  | Some v :: _ =>
      publicIpEnabled ← assertBool (v !! "public_ip_enabled");
      let serverlessCompute :=
        {| ServerlessComputeNoPublicIP := Some (negb publicIpEnabled);
           ServerlessComputeCustomSubnet := None |} in
      let '(subnetId, ok) := tryString (v !! "subnet_id") in
      if ok && negb (isEmpty subnetId) then
        Ret (Some {| ServerlessComputeNoPublicIP :=
                       ServerlessComputeNoPublicIP serverlessCompute;
                     ServerlessComputeCustomSubnet := Some subnetId |})
      else Ret (Some serverlessCompute)
  end.

Definition flattenMachineLearningWorkspaceServerlessCompute
    (i : option ServerlessComputeSettings) : list (option (gmap string Scalar)) :=
  match i with
  | None => []
  | Some i =>
      let out : gmap string Scalar := ∅ in
      let out := match ServerlessComputeCustomSubnet i with
                 | Some subnet => <["subnet_id" := SString subnet]> out
                 | None => out
                 end in
      let out := match ServerlessComputeNoPublicIP i with
                 | Some noPublicIp =>
                     <["public_ip_enabled" := SBool (negb noPublicIp)]> out
                 | None => out
                 end in
      [Some out]
  end.

(** ** The client *)

Inductive Request :=
| ReqGet (id : WorkspaceId)
| ReqCreateOrUpdate (id : WorkspaceId) (workspace : Workspace)
| ReqDelete (id : WorkspaceId) (options : DeleteOperationOptions).

Definition isGet (r : Request) : bool :=
  match r with ReqGet _ => true | _ => false end.
Definition isCreateOrUpdate (r : Request) : bool :=
  match r with ReqCreateOrUpdate _ _ => true | _ => false end.
Definition isDelete (r : Request) : bool :=
  match r with ReqDelete _ _ => true | _ => false end.

(** [*workspaces.WorkspacesClient]: the answers of the API, per method and
    per call number. *)
Record WorkspacesClient := {
  onGet : nat → GetResponse * option error;
  onCreateOrUpdate : nat → OperationResponse * option error;
  onDelete : nat → OperationResponse * option error }.

Record Features := {
  PurgeSoftDeletedWorkspaceOnDestroy : bool }.

(** [*clients.Client], the [meta] argument of the operations. *)
Record Client := {
  MachineLearning_Workspaces : WorkspacesClient;
  Account_SubscriptionId : string;
  Features_MachineLearning : Features;
  StopContext : Context }.

Abbreviation Run := (State Request).

Definition client_Get (c : WorkspacesClient) (ctx : Context) (id : WorkspaceId)
    : M Run (GetResponse * option error) :=
  send isGet (ReqGet id) (onGet c).

Definition client_CreateOrUpdate (c : WorkspacesClient) (ctx : Context)
    (id : WorkspaceId) (workspace : Workspace)
    : M Run (OperationResponse * option error) :=
  send isCreateOrUpdate (ReqCreateOrUpdate id workspace) (onCreateOrUpdate c).

Definition client_Delete (c : WorkspacesClient) (ctx : Context)
    (id : WorkspaceId) (options : DeleteOperationOptions)
    : M Run (OperationResponse * option error) :=
  send isDelete (ReqDelete id options) (onDelete c).

Definition NewWorkspaceID (subscriptionId resourceGroupName workspaceName : string)
    : WorkspaceId :=
  {| ws_SubscriptionId := subscriptionId;
     ws_ResourceGroupName := resourceGroupName;
     ws_WorkspaceName := workspaceName |}.

(** The functions of other packages that the resource calls and whose
    results it only passes on. The parsers of the ids that are re-formatted
    at once are taken together with their formatter. *)
Class Collaborators := {
  ParseWorkspaceID : string → WorkspaceId + error;
  WorkspaceId_ID : WorkspaceId → string;
  NormalizeLocation : string → string;
  tags_Expand : gmap string Scalar → option (gmap string string);
  tags_FlattenAndSet :
    option (gmap string string) → ResourceData → ResourceData * option error;
  ExpandSystemAndUserAssignedMap :
    list (option (gmap string Scalar)) → IdentityMap + error;
  FlattenSystemAndUserAssignedMap : option IdentityMap → Value + error;
  ParseComponentIDInsensitively : string → string + error;
  ParseKeyVaultIDInsensitively : string → string + error;
  ParseUserAssignedIdentityIDInsensitively : string → string + error;
  FourPointOhBeta : bool;
  (* the error of a [d.Set] whose result the resource checks *)
  setError : string → Value → option error;
  timeouts_ForCreate : Context → ResourceData → Time → Context;
  timeouts_ForRead : Context → ResourceData → Time → Context;
  timeouts_ForDelete : Context → ResourceData → Time → Context }.

Definition deriveContext (f : Context → ResourceData → Time → Context)
    (parent : Context) : M Run Context :=
  d ← getData;
  t ← now;
  mret (f parent d t).

(** A step that may return an error, followed by the rest of the function:
    [if err := step; err != nil { return err }; rest]. *)
Definition orReturn {S} (step : M S (option error)) (rest : M S (option error))
    : M S (option error) :=
  e ← step;
  match e with
  | Some err => mret (Some err)
  | None => rest
  end.

(** [d.GetChange] of a boolean inside the i-th block of a list attribute:
    its value in the prior state and in the new one. *)
Definition blockBoolAt (attrs : gmap string Value) (attribute : string)
    (i : nat) (key : string) : bool :=
  match asList (attrs !! attribute) !! i with
  | Some (Some block) =>
      match block !! key with Some (SBool b) => b | _ => false end
  | _ => false
  end.
Definition GetChangeBlockBool (d : ResourceData) (attribute : string)
    (i : nat) (key : string) : bool * bool :=
  (blockBoolAt (rd_prior d) attribute i key,
   blockBoolAt (rd_attrs d) attribute i key).

Section Resource.
Context `{!Collaborators}.

Definition expandMachineLearningWorkspaceIdentity
    (input : list (option (gmap string Scalar))) : IdentityMap + error :=
  match ExpandSystemAndUserAssignedMap input with
  | inr err => inr err
  | inl expanded =>
      let ids := default ∅ (id_IdentityIds expanded) in
      inl {| id_Type := id_Type expanded;
             id_PrincipalId := "";
             id_TenantId := "";
             id_IdentityIds :=
               if (0 <? size ids)%nat then
                 Some ((λ _, {| ClientId := None; PrincipalId := None |}) <$> ids)
               else None |}
  end.

Definition flattenMachineLearningWorkspaceIdentity (input : option IdentityMap)
    : Value + error :=
  let transform :=
    match input with
    | None => None
    | Some input =>
        Some {| id_Type :=
                  if String.eqb (id_Type input) "SystemAssigned,UserAssigned"
                  then TypeSystemAssignedUserAssigned else id_Type input;
                id_PrincipalId :=
                  if negb (isEmpty (id_PrincipalId input))
                  then id_PrincipalId input else "";
                id_TenantId :=
                  if negb (isEmpty (id_TenantId input))
                  then id_TenantId input else "";
                id_IdentityIds :=
                  Some (match id_IdentityIds input with
                        | Some ids =>
                            (λ v, {| ClientId := ClientId v;
                                     PrincipalId := PrincipalId v |}) <$> ids
                        | None => ∅
                        end) |}
    end in
  FlattenSystemAndUserAssignedMap transform.

Definition flattenMachineLearningWorkspaceEncryption
    (input : option EncryptionProperty)
    : list (option (gmap string Scalar)) + error :=
  match input with
  | None => inl []
  | Some input =>
      if negb (String.eqb (Status input) EncryptionStatusEnabled) then inl []
      else
        let keyVaultKeyId :=
          if negb (isEmpty (KeyIdentifier (KeyVaultProperties input)))
          then KeyIdentifier (KeyVaultProperties input) else "" in
        let keyVaultId :=
          if negb (isEmpty (KeyVaultArmId (KeyVaultProperties input)))
          then KeyVaultArmId (KeyVaultProperties input) else "" in
        let parsed :=
          match enc_Identity input with
          | Some cmk =>
              match UserAssignedIdentity cmk with
              | Some uai =>
                  match ParseUserAssignedIdentityIDInsensitively uai with
                  | inr err =>
                      inr (Errorf "parsing userAssignedIdentityId %q: %+v"
                                  [ArgString uai] err)
                  | inl id => inl id
                  end
              | None => inl ""
              end
          | None => inl ""
          end in
        match parsed with
        | inr err => inr err
        | inl userAssignedIdentityId =>
            inl [Some {[ "user_assigned_identity_id" := SString userAssignedIdentityId;
                         "key_vault_id" := SString keyVaultId;
                         "key_id" := SString keyVaultKeyId ]}]
        end
  end.

(** [d.Set] where the resource checks the result. *)
Definition checkedSet (key : string) (v : Value) (wrap : error → error)
    : M Run (option error) :=
  match setError key v with
  | Some err => mret (Some (wrap err))
  | None => modifyData (Set_ key v);; mret None
  end.

(** The part of [resourceMachineLearningWorkspaceRead] that stores the
    properties of the model. *)
Definition readProperties (props : WorkspaceProperties) : M Run (option error) :=
  match (match ApplicationInsights props with
         | Some ai => ParseComponentIDInsensitively ai
         | None => inl ""
         end) with
  | inr err => mret (Some err)
  | inl appInsightsId =>
      modifyData (Set_ "application_insights_id" (VString appInsightsId));;
      modifyData (Set_ "storage_account_id" (ofStringPtr (StorageAccount props)));;
      modifyData (Set_ "container_registry_id" (ofStringPtr (ContainerRegistry props)));;
      modifyData (Set_ "description" (ofStringPtr (Description props)));;
      modifyData (Set_ "friendly_name" (ofStringPtr (FriendlyName props)));;
      modifyData (Set_ "high_business_impact" (ofBoolPtr (HbiWorkspace props)));;
      modifyData (Set_ "image_build_compute_name"
                       (ofStringPtr (ImageBuildCompute props)));;
      modifyData (Set_ "discovery_url" (ofStringPtr (DiscoveryUrl props)));;
      modifyData (Set_ "primary_user_assigned_identity"
                       (ofStringPtr (PrimaryUserAssignedIdentity props)));;
      access ← liftRes (deref (PublicNetworkAccess props));
      modifyData (Set_ "public_network_access_enabled"
                       (VBool (String.eqb access PublicNetworkAccessEnabled)));;
      modifyData (Set_ "v1_legacy_mode_enabled" (ofBoolPtr (V1LegacyMode props)));;
      modifyData (Set_ "workspace_id" (ofStringPtr (WorkspaceId_ props)));;
      modifyData (Set_ "managed_network"
        (VList (flattenMachineLearningWorkspaceManagedNetwork (ManagedNetwork props))));;
      modifyData (Set_ "serverless_compute"
        (VList (flattenMachineLearningWorkspaceServerlessCompute
                  (ServerlessComputeSettings_ props))));;
      keyVault ← liftRes (deref (KeyVault props));
      match ParseKeyVaultIDInsensitively keyVault with
      | inr err => mret (Some err)
      | inl kvId =>
          modifyData (Set_ "key_vault_id" (VString kvId));;
          (if negb FourPointOhBeta then
             modifyData (Set_ "public_access_behind_virtual_network_enabled"
                              (ofBoolPtr (AllowPublicAccessWhenBehindVnet props)))
           else mret tt);;
          mret None
      end
  end.

(** ** resourceMachineLearningWorkspaceRead *)
Definition resourceMachineLearningWorkspaceRead (meta : Client)
    : M Run (option error) :=
  let client := MachineLearning_Workspaces meta in
  ctx ← deriveContext timeouts_ForRead (StopContext meta);
  d ← getData;
  match ParseWorkspaceID (rd_Id d) with
  | inr err =>
      mret (Some (Errorf "parsing Machine Learning Workspace ID `%q`: %+v"
                         [ArgString (rd_Id d)] err))
  | inl id =>
      '(resp, err) ← client_Get client ctx id;
      match err with
      | Some err =>
          if WasNotFound (get_HttpResponse resp) then
            modifyData (SetId "");;
            mret None
          else
            mret (Some (Errorf
              "making Read request on Workspace %q (Resource Group %q): %+v"
              [ArgString (ws_WorkspaceName id); ArgString (ws_ResourceGroupName id)]
              err))
      | None =>
          modifyData (Set_ "name" (VString (ws_WorkspaceName id)));;
          modifyData (Set_ "resource_group_name"
                           (VString (ws_ResourceGroupName id)));;
          model ← liftRes (deref (get_Model resp));
          match Location model with
          | Some location =>
              modifyData (Set_ "location" (VString (NormalizeLocation location)))
          | None => mret tt
          end;;
          match Sku_ model with
          | Some sku => modifyData (Set_ "sku_name" (VString (Sku_Name sku)))
          | None => mret tt
          end;;
          modifyData (Set_ "kind" (ofStringPtr (Kind model)));;
          orReturn
            (match Properties model with
             | Some props => readProperties props
             | None => mret None
             end)
            (match flattenMachineLearningWorkspaceIdentity (Identity model) with
             | inr err =>
                 mret (Some (Errorf "flattening `identity`: %+v" [] err))
             | inl flattenedIdentity =>
                 orReturn
                   (checkedSet "identity" flattenedIdentity
                      (Errorf "setting `identity`: %+v" []))
                   (props ← liftRes (deref (Properties model));
                    let featureStoreSettings :=
                      flattenMachineLearningWorkspaceFeatureStore
                        (FeatureStoreSettings_ props) in
                    orReturn
                      (checkedSet "feature_store" (VList featureStoreSettings)
                         (Errorf "setting `feature_store`: %+v" []))
                      (match flattenMachineLearningWorkspaceEncryption
                               (Encryption props) with
                       | inr err =>
                           mret (Some (Errorf "flattening `encryption`: %+v"
                                              [] err))
                       | inl flattenedEncryption =>
                           orReturn
                             (checkedSet "encryption" (VList flattenedEncryption)
                                (Errorf
                                   "flattening encryption on Workspace %q (Resource Group %q): %+v"
                                   [ArgString (ws_WorkspaceName id);
                                    ArgString (ws_ResourceGroupName id)]))
                             (d ← getData;
                              let '(d', err) := tags_FlattenAndSet (Tags model) d in
                              modifyData (λ _, d');;
                              mret err)
                       end))
             end)
      end
  end.

(** The value and presence that [d.GetOk] reports, as the pointer the
    resource makes of them. *)
Definition okString (r : string * bool) : option string :=
  let '(v, ok) := r in if ok then Some v else None.
Definition okBool (r : bool * bool) : option bool :=
  let '(v, ok) := r in if ok then Some v else None.

Definition isNil {A} (p : option A) : bool :=
  match p with None => true | Some _ => false end.

(** The check of [kind] against [feature_store] in
    [resourceMachineLearningWorkspaceCreateOrUpdate]. *)
Definition checkFeatureStore (kind : string)
    (featureStore : option FeatureStoreSettings) : option error :=
  if EqualFold kind "Default" then
    if negb (isNil featureStore) then
      Some (ErrorfMsg "`feature_store` can only be set when `kind` is `FeatureStore`")
    else None
  else
    if isNil featureStore then
      Some (ErrorfMsg "`feature_store` can not be empty when `kind` is `FeatureStore`")
    else None.

(** The checks of the serverless compute settings in
    [resourceMachineLearningWorkspaceCreateOrUpdate]. *)
Definition checkServerlessCompute (d : ResourceData)
    (networkAccessBehindVnetEnabled : bool)
    (serverlessCompute : option ServerlessComputeSettings)
    : Res (option error) :=
  match serverlessCompute with
  | Some sc =>
      noPublicIp ← deref (ServerlessComputeNoPublicIP sc);
      if noPublicIp && isNil (ServerlessComputeCustomSubnet sc)
         && negb networkAccessBehindVnetEnabled then
        Ret (Some (ErrorfMsg
          "`public_ip_enabled` must be set to  `true` if `subnet_id` is not set and `public_network_access_enabled` is `false`"))
      else if isNil (ServerlessComputeCustomSubnet sc) then
        let '(oldVal, newVal) :=
          GetChangeBlockBool d "serverless_compute" 0 "public_ip_enabled" in
        if oldVal && negb newVal then
          Ret (Some (ErrorfMsg
            " Not supported to update `public_ip_enabled` from `true` to `false` when `subnet_id` is null or empty"))
        else Ret None
      else Ret None
  | None => Ret None
  end.

(** The part of [resourceMachineLearningWorkspaceCreateOrUpdate] between
    the guard on new resources and the request: it reads the configuration,
    expands its blocks and checks them, and ends with the error that the
    operation returns at that point or with the workspace to send. *)
Definition prepareWorkspace (id : WorkspaceId) (d : ResourceData)
    : Res (error + Workspace) :=
  match expandMachineLearningWorkspaceIdentity (GetList d "identity") with
  | inr err => Ret (inl (Errorf "expanding `identity`: %+v" [] err))
  | inl expandedIdentity =>
      expandedEncryption ←
        expandMachineLearningWorkspaceEncryption (GetList d "encryption");
      let networkAccessBehindVnetEnabled :=
        let '(v, ok) := GetOkExistsBool d "public_network_access_enabled" in
        if ok then v else false in
      managedNetwork ←
        expandMachineLearningWorkspaceManagedNetwork (GetList d "managed_network");
      let kind := GetString d "kind" in
      serverlessCompute ←
        expandMachineLearningWorkspaceServerlessCompute
          (GetList d "serverless_compute");
      check ← checkServerlessCompute d networkAccessBehindVnetEnabled
                                     serverlessCompute;
      match check with
      | Some err => Ret (inl err)
      | None =>
          featureStore ←
            expandMachineLearningWorkspaceFeatureStore (GetList d "feature_store");
          match checkFeatureStore kind featureStore with
          | Some err => Ret (inl err)
          | None =>
              Ret (inr
                {| Name := Some (ws_WorkspaceName id);
                   Location := Some (NormalizeLocation (GetString d "location"));
                   Tags := tags_Expand (GetMap d "tags");
                   Sku_ := Some {| Sku_Name := GetString d "sku_name";
                                   Sku_Tier := Some (GetString d "sku_name") |};
                   Kind := Some kind;
                   Identity := Some expandedIdentity;
                   Properties := Some
                     {| ApplicationInsights :=
                          Some (GetString d "application_insights_id");
                        Encryption := expandedEncryption;
                        KeyVault := Some (GetString d "key_vault_id");
                        ManagedNetwork := managedNetwork;
                        PublicNetworkAccess :=
                          Some (if networkAccessBehindVnetEnabled
                                then PublicNetworkAccessEnabled
                                else PublicNetworkAccessDisabled);
                        StorageAccount := Some (GetString d "storage_account_id");
                        V1LegacyMode := Some (GetBool d "v1_legacy_mode_enabled");
                        ServerlessComputeSettings_ := serverlessCompute;
                        Description := okString (GetOkString d "description");
                        FriendlyName := okString (GetOkString d "friendly_name");
                        ContainerRegistry :=
                          okString (GetOkString d "container_registry_id");
                        HbiWorkspace := okBool (GetOkBool d "high_business_impact");
                        ImageBuildCompute :=
                          okString (GetOkString d "image_build_compute_name");
                        PrimaryUserAssignedIdentity :=
                          okString (GetOkString d "primary_user_assigned_identity");
                        FeatureStoreSettings_ :=
                          if EqualFold kind "Default" then None else featureStore;
                        DiscoveryUrl := None;
                        WorkspaceId_ := None;
                        AllowPublicAccessWhenBehindVnet := None |} |})
          end
      end
  end.

(** The end of [resourceMachineLearningWorkspaceCreateOrUpdate]: the
    request, the wait on its poller, and the read that stores the result. *)
Definition sendWorkspace (meta : Client) (ctx : Context) (id : WorkspaceId)
    (workspace : Workspace) : M Run (option error) :=
  let client := MachineLearning_Workspaces meta in
  '(future, err) ← client_CreateOrUpdate client ctx id workspace;
  match err with
  | Some err =>
      mret (Some (Errorf "creating/updating %s: %+v" [ArgWorkspaceId id] err))
  | None =>
      match PollUntilDone (op_Poller future) with
      | Some err =>
          mret (Some (Errorf "waiting for the creation of %s: %+v"
                             [ArgWorkspaceId id] err))
      | None =>
          modifyData (SetId (WorkspaceId_ID id));;
          resourceMachineLearningWorkspaceRead meta
      end
  end.

(** ** resourceMachineLearningWorkspaceCreateOrUpdate *)
Definition resourceMachineLearningWorkspaceCreateOrUpdate (meta : Client)
    : M Run (option error) :=
  let client := MachineLearning_Workspaces meta in
  let subscriptionId := Account_SubscriptionId meta in
  ctx ← deriveContext timeouts_ForCreate (StopContext meta);
  d ← getData;
  let id := NewWorkspaceID subscriptionId
              (GetString d "resource_group_name") (GetString d "name") in
  orReturn
    (if rd_IsNewResource d then
       '(existing, err) ← client_Get client ctx id;
       match (match err with
              | Some err =>
                  if negb (WasNotFound (get_HttpResponse existing)) then
                    Some (Errorf "checking for presence of existing %s: %+v"
                                 [ArgWorkspaceId id] err)
                  else None
              | None => None
              end) with
       | Some failure => mret (Some failure)
       | None =>
           if negb (WasNotFound (get_HttpResponse existing)) then
             mret (Some (ImportAsExistsError "azurerm_machine_learning_workspace"
                                             (WorkspaceId_ID id)))
           else mret None
       end
     else mret None)
    (prepared ← liftRes (prepareWorkspace id d);
     match prepared with
     | inl err => mret (Some err)
     | inr workspace => sendWorkspace meta ctx id workspace
     end).

(** ** resourceMachineLearningWorkspaceDelete *)
Definition resourceMachineLearningWorkspaceDelete (meta : Client)
    : M Run (option error) :=
  let client := MachineLearning_Workspaces meta in
  ctx ← deriveContext timeouts_ForDelete (StopContext meta);
  d ← getData;
  match ParseWorkspaceID (rd_Id d) with
  | inr err =>
      mret (Some (Errorf "parsing Machine Learning Workspace ID `%q`: %+v"
                         [ArgString (rd_Id d)] err))
  | inl id =>
      let options :=
        if PurgeSoftDeletedWorkspaceOnDestroy (Features_MachineLearning meta)
        then {| ForceToPurge := Some true |}
        else DefaultDeleteOperationOptions in
      '(future, err) ← client_Delete client ctx id options;
      match err with
      | Some err =>
          mret (Some (Errorf
            "deleting Machine Learning Workspace %q (Resource Group %q): %+v"
            [ArgString (ws_WorkspaceName id); ArgString (ws_ResourceGroupName id)]
            err))
      | None =>
          match PollUntilDone (op_Poller future) with
          | Some err =>
              mret (Some (Errorf
                "waiting for deletion of Machine Learning Workspace %q (Resource Group %q): %+v"
                [ArgString (ws_WorkspaceName id);
                 ArgString (ws_ResourceGroupName id)]
                err))
          | None => mret None
          end
      end
  end.
End Resource.

(** ** Vocabulary of the properties *)

Definition reportsExists (a : GetResponse * option error) : bool :=
  match a.2 with None => true | Some _ => false end.
Definition reportsNotFound (a : GetResponse * option error) : bool :=
  match a.2 with
  | Some _ => WasNotFound (get_HttpResponse a.1)
  | None => false
  end.
Definition reportsFailure (a : GetResponse * option error) : bool :=
  match a.2 with
  | Some _ => negb (WasNotFound (get_HttpResponse a.1))
  | None => false
  end.

Definition numGets (s : Run) : nat := countReq isGet (st_trace s).
Definition numCreates (s : Run) : nat := countReq isCreateOrUpdate (st_trace s).

Definition sent (req : Request) (s : Run) : Run :=
  {| st_d := st_d s; st_clock := st_clock s;
     st_trace := st_trace s ++ [(st_clock s, req)] |}.

(** The requests that a run added to the trace of the state it started
    from. *)
Definition requestsOf (s run : Run) : list Request :=
  snd <$> drop (length (st_trace s)) (st_trace run).

(** An entry of the trace that is a Get. *)
Definition getEvent (e : Time * Request) : Prop := isGet e.2 = true.

(** The identity that the create operation addresses. *)
Definition createId (meta : Client) (d : ResourceData) : WorkspaceId :=
  NewWorkspaceID (Account_SubscriptionId meta)
    (GetString d "resource_group_name") (GetString d "name").

(** A [feature_store] block is supplied when the list holds a first block
    that is not nil. *)
Definition featureStoreSupplied (d : ResourceData) : bool :=
  match GetList d "feature_store" with
  | Some _ :: _ => true
  | _ => false
  end.

(** The first block of each list attribute holds, at the type the schema
    declares, the keys that the expanders read with a type assertion. *)
Definition hasString (key : string) (block : gmap string Scalar) : bool :=
  match block !! key with Some (SString _) => true | _ => false end.
Definition hasBool (key : string) (block : gmap string Scalar) : bool :=
  match block !! key with Some (SBool _) => true | _ => false end.
Definition firstBlock (check : gmap string Scalar → bool)
    (l : list (option (gmap string Scalar))) : bool :=
  match l with
  | Some block :: _ => check block
  | _ => true
  end.
Definition blocksTyped (d : ResourceData) : bool :=
  firstBlock (λ b, hasString "key_vault_id" b && hasString "key_id" b
                   && hasString "user_assigned_identity_id" b)
             (GetList d "encryption")
  && firstBlock (hasString "isolation_mode") (GetList d "managed_network")
  && firstBlock (hasBool "public_ip_enabled") (GetList d "serverless_compute")
  && firstBlock (λ b, hasString "computer_spark_runtime_version" b
                      && hasString "offline_connection_name" b
                      && hasString "online_connection_name" b)
                (GetList d "feature_store").

(** ** A sample environment, on which the operations are run *)

Definition sampleParse (input : string) : WorkspaceId + error :=
  match splitSlash input with
  | [""; "subscriptions"; sub; "resourceGroups"; rg; "providers";
     "Microsoft.MachineLearningServices"; "workspaces"; name] =>
      inl (NewWorkspaceID sub rg name)
  | _ => inr (SdkError "parsing the Workspace ID")
  end.

Definition sampleID (id : WorkspaceId) : string :=
  "/subscriptions/" +:+ ws_SubscriptionId id +:+ "/resourceGroups/"
    +:+ ws_ResourceGroupName id
    +:+ "/providers/Microsoft.MachineLearningServices/workspaces/"
    +:+ ws_WorkspaceName id.

Definition sampleCollaborators : Collaborators :=
  {| ParseWorkspaceID := sampleParse;
     WorkspaceId_ID := sampleID;
     NormalizeLocation := λ l, l;
     tags_Expand := λ _, None;
     tags_FlattenAndSet := λ _ d, (d, None);
     ExpandSystemAndUserAssignedMap := λ _,
       inl {| id_Type := "SystemAssigned"; id_PrincipalId := "";
              id_TenantId := ""; id_IdentityIds := None |};
     FlattenSystemAndUserAssignedMap := λ _, inl (VList []);
     ParseComponentIDInsensitively := λ x, inl x;
     ParseKeyVaultIDInsensitively := λ x, inl x;
     ParseUserAssignedIdentityIDInsensitively := λ x, inl x;
     FourPointOhBeta := false;
     setError := λ _ _, None;
     timeouts_ForCreate := λ parent d t, parent;
     timeouts_ForRead := λ parent d t, parent;
     timeouts_ForDelete := λ parent d t, parent |}.

Definition sampleWorkspace : WorkspaceId := NewWorkspaceID "sub" "rg" "mlw".

Definition answerExists : GetResponse * option error :=
  ({| get_HttpResponse := Some {| StatusCode := 200 |}; get_Model := None |},
   None).
Definition answerNotFound : GetResponse * option error :=
  ({| get_HttpResponse := Some {| StatusCode := 404 |}; get_Model := None |},
   Some (SdkError "ResourceNotFound")).
Definition answerFailure : GetResponse * option error :=
  ({| get_HttpResponse := Some {| StatusCode := 500 |}; get_Model := None |},
   Some (SdkError "InternalServerError")).

Definition operationAccepted : OperationResponse * option error :=
  ({| op_HttpResponse := Some {| StatusCode := 202 |};
      op_Poller := {| PollUntilDone := None |} |}, None).

(** A client that answers every Get with [get]. *)
Definition sampleClient (get : GetResponse * option error) : Client :=
  {| MachineLearning_Workspaces :=
       {| onGet := λ _, get;
          onCreateOrUpdate := λ _, operationAccepted;
          onDelete := λ _, operationAccepted |};
     Account_SubscriptionId := "sub";
     Features_MachineLearning := {| PurgeSoftDeletedWorkspaceOnDestroy := false |};
     StopContext := {| ctx_deadline := 0%Z |} |}.

Definition sampleFeatureStoreBlock : gmap string Scalar :=
  {[ "computer_spark_runtime_version" := SString "3.3";
     "offline_connection_name" := SString "offline";
     "online_connection_name" := SString "" ]}.

(** A workspace configuration of the given kind and feature store. *)
Definition sampleData (isNew : bool) (kind : string)
    (featureStore : list (option (gmap string Scalar))) : ResourceData :=
  {| rd_Id := sampleID sampleWorkspace;
     rd_IsNewResource := isNew;
     rd_attrs := {[ "name" := VString "mlw";
                    "resource_group_name" := VString "rg";
                    "location" := VString "westeurope";
                    "sku_name" := VString "Basic";
                    "kind" := VString kind;
                    "public_network_access_enabled" := VBool true;
                    "feature_store" := VList featureStore ]};
     rd_prior := ∅;
     rd_timeouts := ∅ |}.

Definition sampleStart (isNew : bool) (kind : string)
    (featureStore : list (option (gmap string Scalar))) : Run :=
  {| st_d := sampleData isNew kind featureStore; st_clock := 0%Z;
     st_trace := [] |}.

Definition sampleCreate (meta : Client) (s : Run) : Res (option error) * Run :=
  @resourceMachineLearningWorkspaceCreateOrUpdate sampleCollaborators meta s.
Definition sampleRead (meta : Client) (s : Run) : Res (option error) * Run :=
  @resourceMachineLearningWorkspaceRead sampleCollaborators meta s.

(** The API of a workspace that does not exist yet, and three
    configurations: kind default with a feature store, kind FeatureStore
    with a feature store, kind Default with an empty block. *)
Definition freshApi : Client := sampleClient answerNotFound.
Definition mismatchStart : Run :=
  sampleStart true "default" [Some sampleFeatureStoreBlock].
Definition featureStoreStart : Run :=
  sampleStart false "FeatureStore" [Some sampleFeatureStoreBlock].
Definition emptyBlockStart : Run := sampleStart false "Default" [None].

(** A serverless compute block with a public IP and a custom subnet. *)
Definition sampleServerlessBlock : gmap string Scalar :=
  {[ "public_ip_enabled" := SBool true;
     "subnet_id" := SString "/subscriptions/sub/resourceGroups/rg/providers/Microsoft.Network/virtualNetworks/vnet/subnets/default" ]}.

(** ** Vocabulary and samples of the blocks *)

(** A configuration list without a first block: empty, or led by nil. *)
Definition noBlock (l : list (option (gmap string Scalar))) : bool :=
  match l with
  | Some _ :: _ => false
  | _ => true
  end.

(** The blocks of the schema, as the flatteners build them. *)
Definition featureStoreBlock (spark offline online : string) : gmap string Scalar :=
  {[ "computer_spark_runtime_version" := SString spark;
     "offline_connection_name" := SString offline;
     "online_connection_name" := SString online ]}.
Definition encryptionBlock (uai keyVaultId keyId : string) : gmap string Scalar :=
  {[ "user_assigned_identity_id" := SString uai;
     "key_vault_id" := SString keyVaultId;
     "key_id" := SString keyId ]}.

(** An identity with the given type and user assigned identities. *)
Definition identityOf (type : string)
    (ids : option (gmap string UserAssignedIdentityDetails)) (principal tenant : string)
    : IdentityMap :=
  {| id_Type := type; id_PrincipalId := principal; id_TenantId := tenant;
     id_IdentityIds := ids |}.

Definition sampleEncryptionBlock : gmap string Scalar :=
  {[ "key_vault_id" := SString "/subscriptions/sub/resourceGroups/rg/providers/Microsoft.KeyVault/vaults/kv";
     "key_id" := SString "https://kv.vault.azure.net/keys/key/1";
     "user_assigned_identity_id" := SString "" ]}.
Definition sampleManagedNetworkBlock : gmap string Scalar :=
  {[ "isolation_mode" := SString "AllowInternetOutbound" ]}.
Definition sampleIdentity : IdentityMap :=
  identityOf "SystemAssigned, UserAssigned"
    (Some {[ "uai" := {| ClientId := Some "client"; PrincipalId := Some "principal" |} ]})
    "p" "t".

(** ** Vocabulary and samples of the runs *)

Definition numDeletes (s : Run) : nat := countReq isDelete (st_trace s).

(** The guard of a create lets the run go on when the resource is not new,
    or when the response to the up-front Get is a NotFound response. *)
Definition guardPasses (meta : Client) (s : Run) : bool :=
  negb (rd_IsNewResource (st_d s))
  || WasNotFound (get_HttpResponse
                    (onGet (MachineLearning_Workspaces meta) (numGets s)).1).

(** The state in which the guard leaves the run. *)
Definition afterGuard (meta : Client) (s : Run) : Run :=
  if rd_IsNewResource (st_d s) then sent (ReqGet (createId meta (st_d s))) s
  else s.

(** A serverless compute block names a custom subnet when its [subnet_id]
    is a string that is not empty. *)
Definition customSubnet (v : gmap string Scalar) : bool :=
  let '(subnetId, ok) := tryString (v !! "subnet_id") in
  ok && negb (isEmpty subnetId).

(** The serverless compute block of the configuration expands and passes
    the two checks of the create. *)
Definition serverlessAccepted (d : ResourceData) : bool :=
  match expandMachineLearningWorkspaceServerlessCompute
          (GetList d "serverless_compute") with
  | Ret serverlessCompute =>
      match checkServerlessCompute d
              (GetBool d "public_network_access_enabled") serverlessCompute with
      | Ret None => true
      | _ => false
      end
  | _ => false
  end.

(** The errors of the checks on the serverless compute settings. *)
Definition publicIpRequiredError : error :=
  ErrorfMsg "`public_ip_enabled` must be set to  `true` if `subnet_id` is not set and `public_network_access_enabled` is `false`".
Definition publicIpDowngradeError : error :=
  ErrorfMsg " Not supported to update `public_ip_enabled` from `true` to `false` when `subnet_id` is null or empty".

(** Collaborators that differ from [C] in the expansion of the identity
    block. *)
Definition withExpandIdentity
    (f : list (option (gmap string Scalar)) → IdentityMap + error)
    (C : Collaborators) : Collaborators :=
  {| ParseWorkspaceID := @ParseWorkspaceID C;
     WorkspaceId_ID := @WorkspaceId_ID C;
     NormalizeLocation := @NormalizeLocation C;
     tags_Expand := @tags_Expand C;
     tags_FlattenAndSet := @tags_FlattenAndSet C;
     ExpandSystemAndUserAssignedMap := f;
     FlattenSystemAndUserAssignedMap := @FlattenSystemAndUserAssignedMap C;
     ParseComponentIDInsensitively := @ParseComponentIDInsensitively C;
     ParseKeyVaultIDInsensitively := @ParseKeyVaultIDInsensitively C;
     ParseUserAssignedIdentityIDInsensitively :=
       @ParseUserAssignedIdentityIDInsensitively C;
     FourPointOhBeta := @FourPointOhBeta C;
     setError := @setError C;
     timeouts_ForCreate := @timeouts_ForCreate C;
     timeouts_ForRead := @timeouts_ForRead C;
     timeouts_ForDelete := @timeouts_ForDelete C |}.

(** A client whose create-or-update and delete operations are answered
    with [op], and whose Gets are answered from [gets], then with [rest]. *)
Definition scriptedClient (op : OperationResponse * option error)
    (gets : list (GetResponse * option error))
    (rest : GetResponse * option error) (purge : bool) : Client :=
  {| MachineLearning_Workspaces :=
       {| onGet := λ n, nth n gets rest;
          onCreateOrUpdate := λ _, op;
          onDelete := λ _, op |};
     Account_SubscriptionId := "sub";
     Features_MachineLearning := {| PurgeSoftDeletedWorkspaceOnDestroy := purge |};
     StopContext := {| ctx_deadline := 0%Z |} |}.

Definition operationRejected : OperationResponse * option error :=
  ({| op_HttpResponse := Some {| StatusCode := 409 |};
      op_Poller := {| PollUntilDone := None |} |}, Some (SdkError "Conflict")).
Definition operationFailing : OperationResponse * option error :=
  ({| op_HttpResponse := Some {| StatusCode := 202 |};
      op_Poller := {| PollUntilDone := Some (SdkError "polling failed") |} |},
   None).

(** A workspace configuration with a serverless compute block, the public
    network access [access] and the serverless compute block [prior] of the
    prior state. *)
Definition serverlessData (access : bool) (block : gmap string Scalar)
    (prior : list (option (gmap string Scalar))) : ResourceData :=
  {| rd_Id := sampleID sampleWorkspace;
     rd_IsNewResource := false;
     rd_attrs := {[ "name" := VString "mlw";
                    "resource_group_name" := VString "rg";
                    "location" := VString "westeurope";
                    "sku_name" := VString "Basic";
                    "kind" := VString "Default";
                    "public_network_access_enabled" := VBool access;
                    "serverless_compute" := VList [Some block] ]};
     rd_prior := {[ "serverless_compute" := VList prior ]};
     rd_timeouts := ∅ |}.
Definition serverlessStart (access : bool) (block : gmap string Scalar)
    (prior : list (option (gmap string Scalar))) : Run :=
  {| st_d := serverlessData access block prior; st_clock := 0%Z;
     st_trace := [] |}.
Definition noPublicIpBlock : gmap string Scalar :=
  {[ "public_ip_enabled" := SBool false ]}.
Definition publicIpBlock : gmap string Scalar :=
  {[ "public_ip_enabled" := SBool true ]}.

(** A workspace whose properties are missing, and one whose properties
    lack the public network access. *)
Definition bareWorkspace : Workspace :=
  {| Name := Some "mlw"; Location := Some "westeurope"; Tags := None;
     Sku_ := None; Kind := Some "Default"; Identity := None;
     Properties := None |}.
Definition bareProperties : WorkspaceProperties :=
  {| ApplicationInsights := None; Encryption := None; KeyVault := Some "kv";
     ManagedNetwork := None; PublicNetworkAccess := None;
     StorageAccount := None; V1LegacyMode := None;
     ServerlessComputeSettings_ := None; Description := None;
     FriendlyName := None; ContainerRegistry := None; HbiWorkspace := None;
     ImageBuildCompute := None; PrimaryUserAssignedIdentity := None;
     FeatureStoreSettings_ := None; DiscoveryUrl := None; WorkspaceId_ := None;
     AllowPublicAccessWhenBehindVnet := None |}.
Definition withProperties (props : WorkspaceProperties) (w : Workspace)
    : Workspace :=
  {| Name := Name w; Location := Location w; Tags := Tags w; Sku_ := Sku_ w;
     Kind := Kind w; Identity := Identity w; Properties := Some props |}.
Definition answerModel (w : Workspace) : GetResponse * option error :=
  ({| get_HttpResponse := Some {| StatusCode := 200 |}; get_Model := Some w |},
   None).

Definition sampleDeleteRun (meta : Client) (s : Run) : Res (option error) * Run :=
  @resourceMachineLearningWorkspaceDelete sampleCollaborators meta s.
End MachineLearning.

(** * Properties *)

(** ** Which requests a computation sends *)

Section SendsOnly.
Context {Req : Type} (p : Req → bool).

Lemma sendsOnly_ret {A} (a : A) : sendsOnly p (mret a : M (State Req) A).
Proof. intros s. exists []. by rewrite app_nil_r. Qed.

Lemma sendsOnly_bind {A B} (m : M (State Req) A) (k : A → M (State Req) B) :
  sendsOnly p m → (∀ a, sendsOnly p (k a)) → sendsOnly p (m ≫= k).
Proof.
  intros Hm Hk s. unfold mbind, M_bind.
  destruct (Hm s) as (r1 & Ht1 & Hf1).
  destruct (m s) as [[a|msg|] s1]; simpl in *; [|by exists r1..].
  destruct (Hk a s1) as (r2 & Ht2 & Hf2).
  exists (r1 ++ r2). rewrite Ht2, Ht1, app_assoc. split; [done|].
  by apply Forall_app.
Qed.

Lemma sendsOnly_getData : sendsOnly p (getData : M (State Req) _).
Proof. intros s. exists []. by rewrite app_nil_r. Qed.

Lemma sendsOnly_now : sendsOnly p (now : M (State Req) _).
Proof. intros s. exists []. by rewrite app_nil_r. Qed.

Lemma sendsOnly_modifyData f : sendsOnly p (modifyData f : M (State Req) _).
Proof. intros s. exists []. by rewrite app_nil_r. Qed.

Lemma sendsOnly_liftRes {A} (r : Res A) : sendsOnly p (liftRes r : M (State Req) A).
Proof. intros s. exists []. by rewrite app_nil_r. Qed.

Lemma sendsOnly_send {A} (kind : Req → bool) (req : Req) (script : nat → A) :
  p req = true → sendsOnly p (send kind req script).
Proof. intros Hp s. exists [(st_clock s, req)]. split; [done|]. by constructor. Qed.
End SendsOnly.

Create HintDb sends.
#[local] Hint Resolve sendsOnly_ret sendsOnly_getData sendsOnly_now
  sendsOnly_modifyData sendsOnly_liftRes : sends.
#[local] Hint Extern 1 (sendsOnly _ (mret _)) => apply sendsOnly_ret : sends.
#[local] Hint Extern 2 (sendsOnly _ (mbind _ _)) =>
  apply sendsOnly_bind; [|intros ?] : sends.
#[local] Hint Extern 3 (sendsOnly _ (match ?x with _ => _ end)) =>
  destruct x : sends.
#[local] Hint Extern 3 (sendsOnly _ (let '(_, _) := ?x in _)) =>
  destruct x : sends.


Section RelayProperties.
Import Relay.
Context `{!Collaborators}.
Implicit Types (s : Run) (c : NamespacesClient) (id : NamespaceId).

Lemma countReq_snoc {Req} (p : Req → bool) (tr : list (Time * Req)) e :
  countReq p (tr ++ [e]) = (countReq p tr + (if p e.2 then 1 else 0))%nat.
Proof.
  unfold countReq. rewrite filter_app, length_app. f_equal.
  destruct (p e.2) eqn:E.
  - rewrite filter_cons_True; [done | by rewrite E].
  - rewrite filter_cons_False; [done | by rewrite E].
Qed.

Lemma numGets_sent_get id s : numGets (sent (ReqGet id) s) = S (numGets s).
Proof. unfold numGets, sent; simpl. rewrite countReq_snoc; simpl. lia. Qed.

(** One call of the refresh function sends one probe and classifies its
    answer. *)
Lemma refresh_run ctx c id s :
  let a := onGet c (numGets s) in
  relayNamespaceDeleteRefreshFunc ctx c id s =
    (Ret (match a.2 with
          | Some e =>
              if WasNotFound (get_HttpResponse a.1) then (Some a.1, "Deleted", None)
              else (None, "Error", Some (retrievingError id e))
          | None => (Some a.1, "Pending", None)
          end),
     sent (ReqGet id) s).
Proof.
  unfold relayNamespaceDeleteRefreshFunc, client_Get, send, numGets, sent.
  unfold mbind, M_bind, mret, M_ret; simpl.
  destruct (onGet c (countReq isGet (st_trace s))) as [res [e|]]; simpl;
    [destruct (WasNotFound (get_HttpResponse res))|]; reflexivity.
Qed.

(** One iteration of the polling loop, written out on states. *)
Lemma waitLoop_S {Req R} fuel (conf : StateChangeConf Req R) D (s : State Req) :
  waitLoop (S fuel) conf D s =
    if (D <=? st_clock s)%Z then
      (Ret (None, Some (TimeoutError (Timeout conf))), s)
    else
      match Refresh conf s with
      | (Ret (res, currentState, err), s1) =>
          match err with
          | Some e => (Ret (None, Some e), s1)
          | None =>
              if inStates currentState (Target conf) then (Ret (res, None), s1)
              else
                waitLoop fuel conf D
                  {| st_d := st_d s1;
                     st_clock :=
                       Z.max (st_clock s1) (Z.min (st_clock s + MinTimeout conf) D);
                     st_trace := st_trace s1 |}
          end
      | (Panic msg, s1) => (Panic msg, s1)
      | (OutOfFuel, s1) => (OutOfFuel, s1)
      end.
Proof.
  cbn [waitLoop]. unfold mbind, M_bind, now, mret, M_ret, sleepUntil.
  destruct (D <=? st_clock s)%Z; [reflexivity|].
  destruct (Refresh conf s) as [[[[res st] [e|]]| |] s1]; try reflexivity.
  destruct (inStates st (Target conf)); reflexivity.
Qed.

Lemma WaitForStateContext_unfold {Req R} (conf : StateChangeConf Req R) ctx
    (st : State Req) :
  WaitForStateContext conf ctx st =
    waitLoop (pollBudget conf) conf (st_clock st + Timeout conf)%Z st.
Proof. reflexivity. Qed.

(** The polling loop of a delete follows the big-step view. *)
Lemma waitLoop_polls ctx c id d fuel D s :
  let conf := deleteStateConf ctx c id d in
  let run := waitLoop fuel conf D s in
  ∃ ts,
    Polls c id D (15 * Second)%Z (Timeout conf) (numGets s) (st_clock s) ts
          run.1 (st_clock run.2)
    ∧ st_trace run.2 = st_trace s ++ probesAt id ts
    ∧ st_d run.2 = st_d s.
Proof.
  intros conf. revert s. induction fuel as [|fuel IH]; intros s run.
  - exists []. subst run. simpl. rewrite app_nil_r. repeat split. constructor.
  - subst run. rewrite waitLoop_S.
    destruct (D <=? st_clock s)%Z eqn:HD.
    + exists []. simpl. rewrite app_nil_r. repeat split.
      constructor. lia.
    + assert (Hlt : (st_clock s < D)%Z) by lia.
      change (Refresh conf) with (relayNamespaceDeleteRefreshFunc ctx c id).
      rewrite refresh_run.
      destruct (onGet c (numGets s)) as [res [e|]] eqn:Ha; simpl.
      * destruct (WasNotFound (get_HttpResponse res)) eqn:Hnf; simpl.
        -- exists [st_clock s]. repeat split.
           replace res with (onGet c (numGets s)).1 by (by rewrite Ha).
           apply polls_deleted; [done|]. unfold reportsNotFound. by rewrite Ha.
        -- exists [st_clock s]. repeat split.
           apply polls_failed; [done| by rewrite Ha |].
           unfold reportsFailure. rewrite Ha. simpl. by rewrite Hnf.
      * assert (Hmax : (Z.max (st_clock s) (Z.min (st_clock s + 15 * Second) D)
                        = Z.min (st_clock s + 15 * Second) D)%Z)
          by (unfold Second; lia).
        rewrite Hmax.
        match goal with |- context [waitLoop fuel conf D ?s1] =>
          destruct (IH s1) as (ts & HP & Htr & Hd) end.
        exists (st_clock s :: ts). simpl in *.
        rewrite Htr, Hd, <- app_assoc. repeat split.
        apply polls_pending; [done| unfold reportsExists; by rewrite Ha |].
        unfold numGets, sent in HP |- *; simpl in HP.
        rewrite countReq_snoc in HP; simpl in HP.
        by rewrite Nat.add_1_r in HP.
Qed.

(** *** Facts about the big-step view *)

Section PollFacts.
Variables (c : NamespacesClient) (id : NamespaceId) (D : Time) (m T : Duration).
Hypothesis m_pos : (0 < m)%Z.

(** The three reports exclude one another. *)
Lemma reports_cases (a : GetResponse * option error) :
  (reportsExists a = true ∧ reportsNotFound a = false ∧ reportsFailure a = false)
  ∨ (reportsExists a = false ∧ reportsNotFound a = true ∧ reportsFailure a = false)
  ∨ (reportsExists a = false ∧ reportsNotFound a = false ∧ reportsFailure a = true).
Proof.
  unfold reportsExists, reportsNotFound, reportsFailure.
  destruct a as [res [e|]]; simpl; [|tauto].
  destruct (WasNotFound (get_HttpResponse res)); simpl; tauto.
Qed.

(** The i-th probe is sent i intervals after the first, before the
    deadline. *)
Lemma Polls_lookup n t ts r t' :
  Polls c id D m T n t ts r t' →
  ∀ (i : nat) (x : Time), ts !! i = Some x →
    (x = t + Z.of_nat i * m ∧ x < D)%Z.
Proof using m_pos.
  induction 1 as [n t Hd | n t Hd Ha | n t e Hd He Ha
                  | n t ts r t' Hd Ha HP IH | n t]; intros i x Hi.
  - done.
  - destruct i; simplify_eq/=; lia.
  - destruct i; simplify_eq/=; lia.
  - destruct i as [|i]; simplify_eq/=; [lia|].
    destruct (IH _ _ Hi) as [-> Hx]. split; [|done]. nia.
  - done.
Qed.

(** Every probe but the last found the resource. *)
Lemma Polls_prefix n t ts r t' :
  Polls c id D m T n t ts r t' →
  ∀ i : nat, S i < length ts → reportsExists (onGet c (n + i)) = true.
Proof.
  induction 1 as [n t Hd | n t Hd Ha | n t e Hd He Ha
                  | n t ts r t' Hd Ha HP IH | n t]; intros i Hi;
    simpl in Hi; try lia.
  destruct i as [|i]; [by rewrite Nat.add_0_r|].
  replace (n + S i)%nat with (S n + i)%nat by lia. apply IH. lia.
Qed.

(** A probe that does not find the resource is the last one, it decides
    the result, and the poll ends at the instant of that probe. *)
Lemma Polls_terminal n t ts r t' :
  Polls c id D m T n t ts r t' →
  ∀ j : nat, j < length ts → reportsExists (onGet c (n + j)) = false →
    length ts = S j
    ∧ ts !! j = Some t'
    ∧ ((reportsNotFound (onGet c (n + j)) = true
        ∧ r = Ret (Some (onGet c (n + j)).1, None))
       ∨ (∃ e, (onGet c (n + j)).2 = Some e
               ∧ reportsFailure (onGet c (n + j)) = true
               ∧ r = Ret (None, Some (retrievingError id e)))).
Proof.
  induction 1 as [n t Hd | n t Hd Ha | n t e Hd He Ha
                  | n t ts r t' Hd Ha HP IH | n t]; intros j Hj Hne;
    simpl in Hj; try lia.
  - assert (j = 0) as -> by lia. rewrite Nat.add_0_r. eauto.
  - assert (j = 0) as -> by lia. rewrite Nat.add_0_r. eauto 10.
  - destruct j as [|j]; [rewrite Nat.add_0_r in Hne; congruence|].
    replace (n + S j)%nat with (S n + j)%nat in * by lia.
    destruct (IH j) as (Hl & Ht & Hr); [lia | done |].
    simpl. by rewrite Hl.
Qed.

(** A poll that ends without an error saw its last probe report that the
    resource is not found. *)
Lemma Polls_success n t ts r t' res :
  Polls c id D m T n t ts r t' →
  r = Ret (res, None) →
  ∃ j : nat, length ts = S j ∧ reportsNotFound (onGet c (n + j)) = true.
Proof.
  induction 1 as [n t Hd | n t Hd Ha | n t e Hd He Ha
                  | n t ts r t' Hd Ha HP IH | n t]; intros Hr;
    try discriminate.
  - exists 0. by rewrite Nat.add_0_r.
  - destruct (IH Hr) as (j & Hl & Hj). exists (S j). simpl.
    replace (n + S j)%nat with (S n + j)%nat by lia. by rewrite Hl.
Qed.

(** While every probe finds the resource, the poll can only end by the
    deadline, and it ends at the deadline. *)
Lemma Polls_all_exist n t ts r t' :
  Polls c id D m T n t ts r t' →
  (∀ i : nat, reportsExists (onGet c (n + i)) = true) →
  r = OutOfFuel
  ∨ (r = Ret (None, Some (TimeoutError T)) ∧ t' = Z.max t D).
Proof using m_pos.
  intros HP.
  induction HP as [n t Hd | n t Hd Ha | n t e Hd He Ha
                  | n t ts r t' Hd Ha HP IH | n t]; intros Hall.
  - right. split; [done | lia].
  - specialize (Hall 0). rewrite Nat.add_0_r in Hall.
    destruct (reports_cases (onGet c n)) as [?|[?|?]]; intuition congruence.
  - specialize (Hall 0). rewrite Nat.add_0_r in Hall.
    destruct (reports_cases (onGet c n)) as [?|[?|?]]; intuition congruence.
  - destruct IH as [->|[-> ->]]; [| by left |].
    + intros i. replace (S n + i)%nat with (n + S i)%nat by lia. apply Hall.
    + right. split; [done | lia].
  - by left.
Qed.

(** While the probes find the resource and the deadline is further than k
    intervals away, a poll that ends by itself sends more than k probes. *)
Lemma Polls_reaches n t ts r t' :
  Polls c id D m T n t ts r t' →
  r ≠ OutOfFuel →
  ∀ k : nat,
    (∀ i : nat, i < k → reportsExists (onGet c (n + i)) = true) →
    (t + Z.of_nat k * m < D)%Z →
    k < length ts.
Proof using m_pos.
  induction 1 as [n t Hd | n t Hd Ha | n t e Hd He Ha
                  | n t ts r t' Hd Ha HP IH | n t]; intros Hr k Hex Hk.
  - nia.
  - destruct k as [|k]; [simpl; lia|].
    specialize (Hex 0 (Nat.lt_0_succ k)). rewrite Nat.add_0_r in Hex.
    destruct (reports_cases (onGet c n)) as [?|[?|?]]; intuition congruence.
  - destruct k as [|k]; [simpl; lia|].
    specialize (Hex 0 (Nat.lt_0_succ k)). rewrite Nat.add_0_r in Hex.
    destruct (reports_cases (onGet c n)) as [?|[?|?]]; intuition congruence.
  - destruct k as [|k]; [simpl; lia|]. simpl.
    apply -> Nat.succ_lt_mono. apply IH; [done | |].
    + intros i Hi. replace (S n + i)%nat with (n + S i)%nat by lia.
      apply Hex. lia.
    + nia.
  - done.
Qed.
End PollFacts.

(** *** The delete operation *)

(** The budget of the polling loop is never used up: the loop of a delete
    always ends by itself. *)
Lemma waitLoop_total ctx c id d fuel D s :
  (D - st_clock s ≤ (Z.of_nat fuel - 1) * (15 * Second))%Z →
  1 ≤ fuel →
  (waitLoop fuel (deleteStateConf ctx c id d) D s).1 ≠ OutOfFuel.
Proof.
  revert s. induction fuel as [|fuel IH]; intros s Hb Hf; [lia|].
  rewrite waitLoop_S.
  destruct (D <=? st_clock s)%Z eqn:HD; [done|].
  change (Refresh (deleteStateConf ctx c id d))
    with (relayNamespaceDeleteRefreshFunc ctx c id).
  rewrite refresh_run.
  destruct (onGet c (numGets s)) as [res [e|]]; simpl.
  - by destruct (WasNotFound (get_HttpResponse res)).
  - apply IH; simpl; unfold Second in *; lia.
Qed.

Lemma pollBudget_enough {Req R} (conf : StateChangeConf Req R) :
  (0 < MinTimeout conf)%Z →
  (Timeout conf ≤ (Z.of_nat (pollBudget conf) - 1) * MinTimeout conf)%Z.
Proof.
  intros Hm. unfold pollBudget.
  pose proof (Z.mul_succ_div_gt (Timeout conf) (MinTimeout conf) Hm).
  destruct (Z.le_gt_cases 0 (Timeout conf / MinTimeout conf)); nia.
Qed.

Lemma count_sent_delete id s :
  numGets (sent (ReqDelete id) s) = numGets s
  ∧ numDeletes (sent (ReqDelete id) s) = S (numDeletes s).
Proof.
  unfold numGets, numDeletes, sent; simpl. rewrite !countReq_snoc; simpl. lia.
Qed.

(** The delete operation, written out on states. *)
Lemma delete_unfold meta s :
  let c := Relay_NamespacesClient meta in
  let T := d_Timeout (st_d s) TimeoutDelete in
  let ctx := timeouts_ForDelete (StopContext meta) (st_d s) (st_clock s) in
  resourceRelayNamespaceDelete meta s =
    match ParseNamespaceID (rd_Id (st_d s)) with
    | inr err => (Ret (Some err), s)
    | inl id =>
        match (onDelete c (numDeletes s)).2 with
        | Some e =>
            (Ret (Some (Errorf "deleting %s: %+v" [ArgNamespaceId id] e)),
             sent (ReqDelete id) s)
        | None =>
            let conf := deleteStateConf ctx c id (st_d s) in
            let w := waitLoop (pollBudget conf) conf (st_clock s + T)%Z
                              (sent (ReqDelete id) s) in
            (deleteResult id w.1, w.2)
        end
    end.
Proof.
  intros c T ctx.
  cbv beta iota delta
    [resourceRelayNamespaceDelete deriveContext getData now
     client_Delete send mbind M_bind mret M_ret].
  cbn [st_d st_clock st_trace]. fold c T ctx.
  destruct (ParseNamespaceID (rd_Id (st_d s))) as [id|err]; [|done].
  fold (numDeletes s).
  destruct (onDelete c (numDeletes s)) as [resp [e|]]; cbn [snd]; [done|].
  rewrite WaitForStateContext_unfold. cbn [st_clock Timeout deleteStateConf].
  fold (sent (ReqDelete id) s). fold T.
  match goal with |- context [waitLoop ?f ?cf ?D ?s1] =>
    destruct (waitLoop f cf D s1) as [[[res [e|]]| |] s'] end; done.
Qed.

(** An accepted delete request is followed by a poll that starts at once
    and whose deadline is the timeout of the delete. *)
Lemma delete_polls meta s id :
  let c := Relay_NamespacesClient meta in
  let T := d_Timeout (st_d s) TimeoutDelete in
  let run := resourceRelayNamespaceDelete meta s in
  ParseNamespaceID (rd_Id (st_d s)) = inl id →
  (onDelete c (numDeletes s)).2 = None →
  ∃ ts r,
    Polls c id (st_clock s + T)%Z (15 * Second)%Z T (numGets s) (st_clock s)
          ts r (st_clock run.2)
    ∧ r ≠ OutOfFuel
    ∧ run.1 = deleteResult id r
    ∧ st_trace run.2 = st_trace s ++ (st_clock s, ReqDelete id) :: probesAt id ts
    ∧ st_d run.2 = st_d s.
Proof.
  intros c T run Hid Hdel. subst run. rewrite delete_unfold.
  fold c T. rewrite Hid, Hdel. cbv zeta.
  set (ctx := timeouts_ForDelete (StopContext meta) (st_d s) (st_clock s)).
  set (conf := deleteStateConf ctx c id (st_d s)).
  destruct (waitLoop_polls ctx c id (st_d s) (pollBudget conf)
              (st_clock s + T)%Z (sent (ReqDelete id) s))
    as (ts & HP & Htr & Hd).
  fold conf in HP, Htr, Hd.
  exists ts, (waitLoop (pollBudget conf) conf (st_clock s + T)%Z
                       (sent (ReqDelete id) s)).1.
  destruct (count_sent_delete id s) as [Hg _]. rewrite Hg in HP.
  cbn [fst snd]. rewrite Htr, Hd. cbn [sent st_d st_trace st_clock] in *.
  rewrite <- app_assoc. repeat split; try done.
  apply waitLoop_total; [|unfold pollBudget; lia].
  pose proof (pollBudget_enough conf) as Hb.
  cbn [sent st_clock conf deleteStateConf MinTimeout Timeout] in *.
  fold T in Hb. unfold Second in *. lia.
Qed.

(** *** Counting over traces *)

Lemma countReq_app {Req} (p : Req → bool) (a b : list (Time * Req)) :
  countReq p (a ++ b) = (countReq p a + countReq p b)%nat.
Proof. unfold countReq. by rewrite filter_app, length_app. Qed.

Lemma countReq_cons {Req} (p : Req → bool) (e : Time * Req) tr :
  countReq p (e :: tr) = ((if p e.2 then 1 else 0) + countReq p tr)%nat.
Proof. change (e :: tr) with ([e] ++ tr). rewrite countReq_app. f_equal.
  change [e] with ([] ++ [e]). by rewrite countReq_snoc. Qed.

Lemma instantsOf_app {Req} (p : Req → bool) (a b : list (Time * Req)) :
  instantsOf p (a ++ b) = instantsOf p a ++ instantsOf p b.
Proof. unfold instantsOf. by rewrite filter_app, fmap_app. Qed.

Lemma length_instantsOf {Req} (p : Req → bool) (tr : list (Time * Req)) :
  length (instantsOf p tr) = countReq p tr.
Proof. unfold instantsOf, countReq. by rewrite length_fmap. Qed.

Lemma probes_counts id ts :
  countReq isGet (probesAt id ts) = length ts
  ∧ countReq isDelete (probesAt id ts) = 0
  ∧ instantsOf isGet (probesAt id ts) = ts.
Proof.
  induction ts as [|t ts (IHg & IHd & IHi)]; [done|].
  change (probesAt id (t :: ts)) with ((t, ReqGet id) :: probesAt id ts).
  rewrite !countReq_cons, IHg, IHd. simpl. repeat split.
  change ((t, ReqGet id) :: probesAt id ts)
    with ([(t, ReqGet id)] ++ probesAt id ts).
  rewrite instantsOf_app, IHi. reflexivity.
Qed.

(** What a trace that grew by a delete request and probes counts. *)
Lemma delete_trace_counts s s' t0 id ts :
  st_trace s' = st_trace s ++ (t0, ReqDelete id) :: probesAt id ts →
  numGets s' = (numGets s + length ts)%nat
  ∧ numDeletes s' = S (numDeletes s)
  ∧ probeInstants s s' = ts.
Proof.
  intros Htr. unfold probeInstants, numGets, numDeletes. rewrite Htr.
  destruct (probes_counts id ts) as (Hg & Hd & Hi).
  rewrite !countReq_app, !countReq_cons, Hg, Hd. simpl.
  repeat split; [lia|].
  change ((t0, ReqDelete id) :: probesAt id ts)
    with ([(t0, ReqDelete id)] ++ probesAt id ts).
  rewrite !instantsOf_app, Hi. simpl.
  rewrite drop_app_length'; [done|]. by rewrite length_instantsOf.
Qed.

(** The three ways a delete runs: the stored id does not parse; the
    delete request is rejected; the request is accepted and polled. *)
Lemma delete_cases meta s :
  let c := Relay_NamespacesClient meta in
  let T := d_Timeout (st_d s) TimeoutDelete in
  let run := resourceRelayNamespaceDelete meta s in
  (∃ err, ParseNamespaceID (rd_Id (st_d s)) = inr err
          ∧ run = (Ret (Some err), s))
  ∨ (∃ id e, ParseNamespaceID (rd_Id (st_d s)) = inl id
             ∧ (onDelete c (numDeletes s)).2 = Some e
             ∧ run = (Ret (Some (Errorf "deleting %s: %+v"
                                        [ArgNamespaceId id] e)),
                      sent (ReqDelete id) s))
  ∨ (∃ id ts r, ParseNamespaceID (rd_Id (st_d s)) = inl id
             ∧ (onDelete c (numDeletes s)).2 = None
             ∧ Polls c id (st_clock s + T)%Z (15 * Second)%Z T (numGets s)
                     (st_clock s) ts r (st_clock run.2)
             ∧ r ≠ OutOfFuel
             ∧ run.1 = deleteResult id r
             ∧ st_trace run.2
               = st_trace s ++ (st_clock s, ReqDelete id) :: probesAt id ts
             ∧ st_d run.2 = st_d s).
Proof.
  intros c T run.
  destruct (ParseNamespaceID (rd_Id (st_d s))) as [id|err] eqn:Hid.
  - destruct ((onDelete c (numDeletes s)).2) as [e|] eqn:Hdel.
    + right; left. exists id, e. repeat split. subst run.
      rewrite delete_unfold. fold c. by rewrite Hid, Hdel.
    + right; right.
      destruct (delete_polls meta s id Hid Hdel) as (ts & r & HP).
      exists id, ts, r. by repeat split; try apply HP.
  - left. exists err. split; [done|]. subst run.
    rewrite delete_unfold. by rewrite Hid.
Qed.

(** A delete whose run adds a probe had its delete request accepted. *)
Lemma delete_probe_reached meta s (j : nat) :
  let c := Relay_NamespacesClient meta in
  let T := d_Timeout (st_d s) TimeoutDelete in
  let run := resourceRelayNamespaceDelete meta s in
  numGets s + j < numGets run.2 →
  ∃ id ts r, ParseNamespaceID (rd_Id (st_d s)) = inl id
    ∧ Polls c id (st_clock s + T)%Z (15 * Second)%Z T (numGets s)
            (st_clock s) ts r (st_clock run.2)
    ∧ run.1 = deleteResult id r
    ∧ st_trace run.2
      = st_trace s ++ (st_clock s, ReqDelete id) :: probesAt id ts
    ∧ j < length ts.
Proof.
  intros c T run Hj.
  destruct (delete_cases meta s)
    as [(err & _ & Hrun) | [(id & e & _ & _ & Hrun)
                           | (id & ts & r & Hid & _ & HP & _ & Hr & Htr & _)]];
    fold run in Hrun || fold run in Htr.
  - rewrite Hrun in Hj. simpl in Hj. lia.
  - rewrite Hrun in Hj. simpl in Hj.
    destruct (count_sent_delete id s) as [Hg _]. lia.
  - exists id, ts, r. repeat split; try done.
    destruct (delete_trace_counts s run.2 _ id ts Htr) as (Hg & _). lia.
Qed.

Lemma tick_interval_pos : (0 < 15 * Second)%Z.
Proof. unfold Second. lia. Qed.

(** *** The claims on the delete operation *)

(** C1 (idempotent delete), as amended. Delete is called twice in sequence
    on the same identity and the first call succeeded, so the resource is
    gone. When the API accepts the delete request of the second call and the
    first read-check of that call reports NotFound, the second call returns
    success (a nil error): it has sent its one delete request and exactly
    that one probe, and it has not waited. (The request comes before the
    read-check: a second call whose request the API refuses ends with the
    deleting error, as the lemma after this theorem shows.) *)
Theorem delete_idempotent meta s :
  let c := Relay_NamespacesClient meta in
  let first := resourceRelayNamespaceDelete meta s in
  let second := resourceRelayNamespaceDelete meta first.2 in
  first.1 = Ret None →
  (onDelete c (numDeletes first.2)).2 = None →
  reportsNotFound (onGet c (numGets first.2)) = true →
  second.1 = Ret None
  ∧ numGets second.2 = S (numGets first.2)
  ∧ numDeletes second.2 = S (numDeletes first.2)
  ∧ st_clock second.2 = st_clock first.2.
Proof.
  intros c first second Hfirst Hdel Hnf.
  (* the first call succeeded: its id parses and its timeout is positive *)
  destruct (delete_cases meta s)
    as [(err & _ & Hrun) | [(id & e & _ & _ & Hrun)
                           | (id & ts & r & Hid & _ & HP & _ & Hr & _ & Hd)]];
    fold first in Hrun || fold first in HP, Hr, Hd;
    try (rewrite Hrun in Hfirst; discriminate Hfirst).
  rewrite Hfirst in Hr.
  assert (HT : (0 < d_Timeout (st_d s) TimeoutDelete)%Z).
  { destruct r as [[res [e|]]| |]; try discriminate Hr.
    destruct (Polls_success _ _ _ _ _ _ _ _ _ _ res HP eq_refl) as (j & Hl & _).
    destruct ts as [|x ts]; [discriminate Hl|].
    destruct (Polls_lookup _ _ _ _ _ tick_interval_pos _ _ _ _ _ HP 0 x eq_refl).
    lia. }
  (* the second call runs on the same data *)
  assert (Hid2 : ParseNamespaceID (rd_Id (st_d first.2)) = inl id)
    by (by rewrite Hd).
  destruct (delete_polls meta first.2 id Hid2 Hdel)
    as (ts2 & r2 & HP2 & Hfuel & Hr2 & Htr2 & _).
  fold second in HP2, Hr2, Htr2. fold c in HP2. rewrite Hd in HP2.
  assert (Hlen : 0 < length ts2).
  { apply (Polls_reaches _ _ _ _ _ tick_interval_pos _ _ _ _ _ HP2 Hfuel 0);
      [intros i Hi; lia | lia]. }
  assert (Hne : reportsExists (onGet c (numGets first.2 + 0)) = false).
  { rewrite Nat.add_0_r.
    destruct (reports_cases (onGet c (numGets first.2))) as [?|[?|?]];
      intuition congruence. }
  destruct (Polls_terminal _ _ _ _ _ _ _ _ _ _ HP2 0 Hlen Hne)
    as (Hl & Hlast & [[_ ->] | (e & _ & Hf & _)]).
  2:{ rewrite Nat.add_0_r in Hf.
      destruct (reports_cases (onGet c (numGets first.2))) as [?|[?|?]];
        intuition congruence. }
  destruct (delete_trace_counts _ _ _ _ _ Htr2) as (Hg & Hdl & _).
  split; [by rewrite Hr2|]. split; [lia|]. split; [exact Hdl|].
  destruct (Polls_lookup _ _ _ _ _ tick_interval_pos _ _ _ _ _ HP2 0 _ Hlast).
  lia.
Qed.

(** C1, as the claim states it, fails on the code: the first call succeeds
    and the read-check of the second call would report NotFound, but the
    API refuses the second delete request (the namespace is gone), and the
    second call returns the deleting error without any read-check. *)
Lemma delete_idempotent_refused :
  (sampleDelete goneTwiceApi hourStart).1 = Ret None
  ∧ reportsNotFound
      (onGet (Relay_NamespacesClient goneTwiceApi)
             (numGets (sampleDelete goneTwiceApi hourStart).2)) = true
  ∧ (sampleDelete goneTwiceApi (sampleDelete goneTwiceApi hourStart).2).1
    = Ret (Some (Errorf "deleting %s: %+v" [ArgNamespaceId sampleNamespace]
                        (SdkError "ResourceNotFound")))
  ∧ (sampleDelete goneTwiceApi (sampleDelete goneTwiceApi hourStart).2).1
    ≠ Ret None
  ∧ numGets (sampleDelete goneTwiceApi (sampleDelete goneTwiceApi hourStart).2).2
    = numGets (sampleDelete goneTwiceApi hourStart).2.
Proof. vm_compute. repeat split; done. Qed.

(** C2 (error short-circuit). When tick j of the poll of a Delete is
    performed and its probe fails with an error that is not NotFound, the
    run holds exactly j+1 probes: that probe is the last request of the
    run, the clock still shows its instant, and Delete returns that error
    wrapped with the identity (retrieving ..., waiting for deletion of
    ...). *)
Theorem delete_error_short_circuit meta s (j : nat) :
  let c := Relay_NamespacesClient meta in
  let run := resourceRelayNamespaceDelete meta s in
  numGets s + j < numGets run.2 →
  reportsFailure (onGet c (numGets s + j)) = true →
  numGets run.2 = (numGets s + j + 1)%nat
  ∧ ∃ id e ts,
      ParseNamespaceID (rd_Id (st_d s)) = inl id
      ∧ (onGet c (numGets s + j)).2 = Some e
      ∧ run.1 = Ret (Some (waitingError id (retrievingError id e)))
      ∧ st_trace run.2
        = st_trace s ++ (st_clock s, ReqDelete id)
            :: probesAt id (ts ++ [st_clock run.2])
      ∧ length ts = j.
Proof.
  intros c run Hreach Hfail.
  destruct (delete_probe_reached meta s j Hreach)
    as (id & ts & r & Hid & HP & Hr & Htr & Hlen).
  fold run in HP, Hr, Htr. fold c in HP.
  assert (Hne : reportsExists (onGet c (numGets s + j)) = false).
  { destruct (reports_cases (onGet c (numGets s + j))) as [?|[?|?]];
      intuition congruence. }
  destruct (Polls_terminal _ _ _ _ _ _ _ _ _ _ HP j Hlen Hne)
    as (Hl & Hlast & [[Hnf _] | (e & He & _ & ->)]).
  { destruct (reports_cases (onGet c (numGets s + j))) as [?|[?|?]];
      intuition congruence. }
  destruct (delete_trace_counts _ _ _ _ _ Htr) as (Hg & _).
  split; [lia|].
  exists id, e, (take j ts). repeat split; try done.
  - rewrite Htr. do 3 f_equal.
    rewrite <- (take_S_r _ _ _ Hlast). by rewrite take_ge by lia.
  - rewrite length_take. lia.
Qed.

(** C3 (deadline respected). When the delete request is accepted and every
    probe reports that the resource still exists, Delete returns the
    timeout error; it returns no later than the timeout plus one tick
    interval after the call began (the clock started at the instant of the
    call), it sends no probe at or after the deadline, and it does return:
    the polling loop does not run on. *)
Theorem delete_deadline_respected meta s id :
  let c := Relay_NamespacesClient meta in
  let T := d_Timeout (st_d s) TimeoutDelete in
  let run := resourceRelayNamespaceDelete meta s in
  ParseNamespaceID (rd_Id (st_d s)) = inl id →
  (onDelete c (numDeletes s)).2 = None →
  (∀ i : nat, reportsExists (onGet c (numGets s + i)) = true) →
  (0 ≤ T)%Z →
  run.1 = Ret (Some (waitingError id (TimeoutError T)))
  ∧ (st_clock run.2 ≤ st_clock s + T + 15 * Second)%Z
  ∧ Forall (λ t, (t < st_clock s + T)%Z) (probeInstants s run.2).
Proof.
  intros c T run Hid Hdel Hall HT.
  destruct (delete_polls meta s id Hid Hdel)
    as (ts & r & HP & Hfuel & Hr & Htr & _).
  fold run in HP, Hr, Htr. fold c T in HP.
  destruct (delete_trace_counts _ _ _ _ _ Htr) as (_ & _ & ->).
  destruct (Polls_all_exist _ _ _ _ _ tick_interval_pos _ _ _ _ _ HP Hall)
    as [->|[-> Hclock]]; [done|].
  repeat split; [done | unfold Second; lia |].
  apply Forall_lookup. intros i x Hx.
  by destruct (Polls_lookup _ _ _ _ _ tick_interval_pos _ _ _ _ _ HP i x Hx).
Qed.

(** C5 (poll floor and fetch count). Take a Delete call on a stored id
    that parses, whose delete request the API accepts, whose probes are
    answered with the resource present k times and then with NotFound, and
    whose timeout is longer than k tick intervals (so that these k+1 ticks
    fit before the deadline). The run sends exactly k+1 probes; the i-th is
    sent i times 15 seconds after the call began, so consecutive probes are
    at least 15 seconds apart; and the call succeeds. *)
Theorem delete_poll_floor meta s id (k : nat) :
  let c := Relay_NamespacesClient meta in
  let T := d_Timeout (st_d s) TimeoutDelete in
  let run := resourceRelayNamespaceDelete meta s in
  ParseNamespaceID (rd_Id (st_d s)) = inl id →
  (onDelete c (numDeletes s)).2 = None →
  (∀ i : nat, i < k → reportsExists (onGet c (numGets s + i)) = true) →
  reportsNotFound (onGet c (numGets s + k)) = true →
  (Z.of_nat k * (15 * Second) < T)%Z →
  numGets run.2 = (numGets s + k + 1)%nat
  ∧ length (probeInstants s run.2) = S k
  ∧ (∀ (i : nat) (t : Time), probeInstants s run.2 !! i = Some t →
       t = (st_clock s + Z.of_nat i * (15 * Second))%Z)
  ∧ separatedBy (15 * Second)%Z (probeInstants s run.2)
  ∧ run.1 = Ret None.
Proof.
  intros c T run Hid Hdel Hex Hnf HT.
  destruct (delete_polls meta s id Hid Hdel)
    as (ts & r & HP & Hfuel & Hr & Htr & _).
  fold run in HP, Hr, Htr. fold c T in HP.
  assert (Hlen : k < length ts).
  { apply (Polls_reaches _ _ _ _ _ tick_interval_pos _ _ _ _ _ HP Hfuel k Hex).
    lia. }
  assert (Hne : reportsExists (onGet c (numGets s + k)) = false).
  { destruct (reports_cases (onGet c (numGets s + k))) as [?|[?|?]];
      intuition congruence. }
  destruct (Polls_terminal _ _ _ _ _ _ _ _ _ _ HP k Hlen Hne)
    as (Hl & _ & [[_ ->] | (e & _ & Hf & _)]).
  2:{ destruct (reports_cases (onGet c (numGets s + k))) as [?|[?|?]];
        intuition congruence. }
  destruct (delete_trace_counts _ _ _ _ _ Htr) as (Hg & _ & ->).
  split; [lia|]. split; [done|]. split; [|split; [|by rewrite Hr]].
  - intros i t Hi.
    by destruct (Polls_lookup _ _ _ _ _ tick_interval_pos _ _ _ _ _ HP _ _ Hi).
  - intros i t t' Hi Hi'.
    destruct (Polls_lookup _ _ _ _ _ tick_interval_pos _ _ _ _ _ HP _ _ Hi)
      as [-> _].
    destruct (Polls_lookup _ _ _ _ _ tick_interval_pos _ _ _ _ _ HP _ _ Hi')
      as [-> _].
    lia.
Qed.


(** C4 (three-way case split of the refresh step). One call of the refresh
    function of the delete poll sends one Get and returns: state Deleted
    with no error exactly when the Get failed with a 404 response; a
    non-nil error, with state Error and the cause wrapped with the
    identity, exactly when the Get failed with any other response; state
    Pending with no error exactly when the Get succeeded. No other state
    is produced. Of these states Deleted is the one the wait of the delete
    targets and Pending the one it keeps waiting on; the two ends of a
    wait are thus the target Deleted and the non-nil error. *)
Theorem refresh_three_way ctx c id d s :
  let a := onGet c (numGets s) in
  let conf := deleteStateConf ctx c id d in
  ∃ res st err,
    relayNamespaceDeleteRefreshFunc ctx c id s
      = (Ret (res, st, err), sent (ReqGet id) s)
    ∧ ((st = "Deleted" ∧ err = None) ↔ reportsNotFound a = true)
    ∧ (err ≠ None ↔ reportsFailure a = true)
    ∧ ((st = "Pending" ∧ err = None) ↔ reportsExists a = true)
    ∧ (err ≠ None →
       st = "Error" ∧ res = None
       ∧ ∃ e, a.2 = Some e ∧ err = Some (retrievingError id e))
    ∧ (st = "Deleted" ∨ st = "Error" ∨ st = "Pending")
    ∧ (inStates st (Target conf) = true ↔ st = "Deleted")
    ∧ (inStates st (Pending conf) = true ↔ st = "Pending").
Proof.
  intros a conf. rewrite refresh_run. fold a.
  unfold reportsNotFound, reportsFailure, reportsExists.
  destruct a as [res [e|]]; simpl;
    [destruct (WasNotFound (get_HttpResponse res)); simpl|];
    eexists _, _, _; (split; [reflexivity|]);
    repeat split; try tauto; try congruence; try discriminate;
    try (intros [? ?]; congruence); eauto.
Qed.
End RelayProperties.

(** ** Read and create of the Relay namespace *)

Section RelayReadCreate.
Import Relay.
Context `{!Collaborators}.
Implicit Types (s : Run).

(** A read whose Get fails: a 404 clears the stored id and is no error, any
    other failure is returned with the identity and changes nothing. *)
Lemma relay_read_failed_get meta s id :
  let a := onGet (Relay_NamespacesClient meta) (numGets s) in
  let run := resourceRelayNamespaceRead meta s in
  ParseNamespaceID (rd_Id (st_d s)) = inl id →
  (reportsNotFound a = true →
     run.1 = Ret None
     ∧ st_d run.2 = SetId "" (st_d s)
     ∧ st_trace run.2 = st_trace s ++ [(st_clock s, ReqGet id)])
  ∧ (reportsFailure a = true →
     ∃ e, a.2 = Some e
          ∧ run = (Ret (Some (Errorf "retrieving %s: %+v" [ArgNamespaceId id] e)),
                   sent (ReqGet id) s)).
Proof.
  intros a run Hid. subst run.
  cbv beta iota delta
    [resourceRelayNamespaceRead deriveContext getData now client_Get send
     mbind M_bind mret M_ret modifyData].
  cbn [st_d st_clock st_trace]. rewrite Hid. fold (numGets s). fold a.
  unfold reportsNotFound, reportsFailure.
  destruct a as [resp [e|]]; cbn [fst snd]; [|by split].
  destruct (WasNotFound (get_HttpResponse resp)); cbn [fst snd negb st_d st_trace].
  - split; [done | discriminate].
  - split; [discriminate | eauto].
Qed.

(** The guard of a create against a resource that exists. *)
Lemma relay_create_guard meta s :
  let id := NewNamespaceID (Account_SubscriptionId meta)
              (GetString (st_d s) "resource_group_name")
              (GetString (st_d s) "name") in
  let a := onGet (Relay_NamespacesClient meta) (numGets s) in
  let run := resourceRelayNamespaceCreateUpdate meta s in
  rd_IsNewResource (st_d s) = true →
  WasNotFound (get_HttpResponse a.1) = false →
  run.2 = sent (ReqGet id) s
  ∧ run.1 = Ret (Some
      match a.2 with
      | None => ImportAsExistsError "azurerm_relay_namespace" (NamespaceId_ID id)
      | Some cause =>
          Errorf "checking for presence of existing %s: %+v"
                 [ArgNamespaceId id] cause
      end).
Proof.
  intros id a run Hnew Hnf. subst run.
  cbv beta iota delta
    [resourceRelayNamespaceCreateUpdate deriveContext getData now client_Get send
     mbind M_bind mret M_ret modifyData].
  cbn [st_d st_clock st_trace]. rewrite Hnew. fold (numGets s). fold id a.
  destruct a as [resp [e|]]; cbn [fst snd] in *; rewrite Hnf; done.
Qed.
End RelayReadCreate.

(** ** The Machine Learning workspace *)

Section MachineLearningProperties.
Import MachineLearning.
Context `{!Collaborators}.
Implicit Types (s : Run).

Lemma sendsOnly_orReturn (p : Request → bool) (step rest : M Run (option error)) :
  sendsOnly p step → sendsOnly p rest → sendsOnly p (orReturn step rest).
Proof.
  intros Hs Hr. unfold orReturn. apply sendsOnly_bind; [done|].
  intros [e|]; [apply sendsOnly_ret | done].
Qed.

Lemma sendsOnly_checkedSet (p : Request → bool) key v wrap :
  sendsOnly p (checkedSet key v wrap).
Proof. unfold checkedSet. destruct (setError key v); eauto 10 with sends. Qed.

Lemma sendsOnly_readProperties (p : Request → bool) props :
  sendsOnly p (readProperties props).
Proof. unfold readProperties. eauto 40 with sends. Qed.

(** One syntax-directed step of a proof that a computation sends only
    requests of one kind. *)
Ltac sends_step :=
  lazymatch goal with
  | |- sendsOnly _ (orReturn _ _) => apply sendsOnly_orReturn
  | |- sendsOnly _ (checkedSet _ _ _) => apply sendsOnly_checkedSet
  | |- sendsOnly _ (readProperties _) => apply sendsOnly_readProperties
  | |- sendsOnly _ (send _ _ _) => apply sendsOnly_send; reflexivity
  | |- sendsOnly _ (mbind _ _) => apply sendsOnly_bind; [|intros ?]
  | |- sendsOnly _ (match ?x with _ => _ end) => destruct x
  | |- sendsOnly _ _ => solve [auto with sends]
  end.

(** A read sends nothing but Gets. *)
Lemma read_sends_gets meta :
  sendsOnly isGet (resourceMachineLearningWorkspaceRead meta).
Proof.
  unfold resourceMachineLearningWorkspaceRead, deriveContext, client_Get.
  repeat sends_step.
Qed.

(** A read whose Get fails: a 404 clears the stored id and is no error, any
    other failure is returned with the name and the resource group of the
    workspace and changes nothing. *)
Lemma ml_read_failed_get meta s id :
  let a := onGet (MachineLearning_Workspaces meta) (numGets s) in
  let run := resourceMachineLearningWorkspaceRead meta s in
  ParseWorkspaceID (rd_Id (st_d s)) = inl id →
  (reportsNotFound a = true →
     run.1 = Ret None
     ∧ st_d run.2 = SetId "" (st_d s)
     ∧ st_trace run.2 = st_trace s ++ [(st_clock s, ReqGet id)])
  ∧ (reportsFailure a = true →
     ∃ e, a.2 = Some e
          ∧ run = (Ret (Some (Errorf
                     "making Read request on Workspace %q (Resource Group %q): %+v"
                     [ArgString (ws_WorkspaceName id);
                      ArgString (ws_ResourceGroupName id)] e)),
                   sent (ReqGet id) s)).
Proof.
  intros a run Hid. subst run.
  cbv beta iota delta
    [resourceMachineLearningWorkspaceRead deriveContext getData now client_Get
     send mbind M_bind mret M_ret modifyData].
  cbn [st_d st_clock st_trace]. rewrite Hid. fold (numGets s). fold a.
  unfold reportsNotFound, reportsFailure.
  destruct a as [resp [e|]]; cbn [fst snd]; [|by split].
  destruct (WasNotFound (get_HttpResponse resp)); cbn [fst snd negb st_d st_trace].
  - split; [done | discriminate].
  - split; [discriminate | eauto].
Qed.

(** The guard of a create against a workspace that exists. *)
Lemma ml_create_guard meta s :
  let id := createId meta (st_d s) in
  let a := onGet (MachineLearning_Workspaces meta) (numGets s) in
  let run := resourceMachineLearningWorkspaceCreateOrUpdate meta s in
  rd_IsNewResource (st_d s) = true →
  WasNotFound (get_HttpResponse a.1) = false →
  run.2 = sent (ReqGet id) s
  ∧ run.1 = Ret (Some
      match a.2 with
      | None => ImportAsExistsError "azurerm_machine_learning_workspace"
                                    (WorkspaceId_ID id)
      | Some cause =>
          Errorf "checking for presence of existing %s: %+v"
                 [ArgWorkspaceId id] cause
      end).
Proof.
  intros id a run Hnew Hnf. subst run.
  cbv beta iota delta
    [resourceMachineLearningWorkspaceCreateOrUpdate orReturn deriveContext
     getData now client_Get send mbind M_bind mret M_ret modifyData].
  cbn [st_d st_clock st_trace]. rewrite Hnew. fold (numGets s).
  fold (createId meta (st_d s)). fold id a.
  destruct a as [resp [e|]]; cbn [fst snd] in *; rewrite Hnf; done.
Qed.

(** *** The checks before the request *)

(** A feature store block that is supplied expands to settings, unless a
    type assertion on it panics; one that is not supplied expands to nil. *)
Lemma expand_feature_store_supplied d :
  if featureStoreSupplied d then
    (∃ fs, expandMachineLearningWorkspaceFeatureStore (GetList d "feature_store")
           = Ret (Some fs))
    ∨ (∃ msg, expandMachineLearningWorkspaceFeatureStore (GetList d "feature_store")
              = Panic msg)
  else expandMachineLearningWorkspaceFeatureStore (GetList d "feature_store")
       = Ret None.
Proof.
  unfold featureStoreSupplied, expandMachineLearningWorkspaceFeatureStore.
  destruct (GetList d "feature_store") as [|[raw|] rest]; try done.
  unfold mbind, Res_bind, assertString.
  repeat case_match; simplify_eq; eauto.
Qed.

(** With a mismatch between [kind] and [feature_store], the preparation
    never ends with a workspace to send. *)
Lemma prepare_mismatch id d :
  let kind := GetString d "kind" in
  (EqualFold kind "Default" = true ∧ featureStoreSupplied d = true)
  ∨ (EqualFold kind "Default" = false ∧ featureStoreSupplied d = false) →
  (∃ e, prepareWorkspace id d = Ret (inl e))
  ∨ (∃ msg, prepareWorkspace id d = Panic msg).
Proof.
  intros kind Hmis. unfold prepareWorkspace.
  destruct (expandMachineLearningWorkspaceIdentity _); [|eauto].
  unfold mbind, Res_bind.
  destruct (expandMachineLearningWorkspaceEncryption _) eqn:He; eauto.
  2:{ exfalso. revert He. unfold expandMachineLearningWorkspaceEncryption,
        mbind, Res_bind, assertString. repeat case_match; done. }
  destruct (expandMachineLearningWorkspaceManagedNetwork _) eqn:Hm; eauto.
  2:{ exfalso. revert Hm. unfold expandMachineLearningWorkspaceManagedNetwork,
        mbind, Res_bind, assertString. repeat case_match; done. }
  destruct (expandMachineLearningWorkspaceServerlessCompute _) eqn:Hs; eauto.
  2:{ exfalso. revert Hs. unfold expandMachineLearningWorkspaceServerlessCompute,
        mbind, Res_bind, assertBool, tryString. repeat case_match; done. }
  destruct (checkServerlessCompute _ _ _) as [[e|]| |] eqn:Hc; eauto.
  2:{ exfalso. revert Hc. unfold checkServerlessCompute, mbind, Res_bind, deref.
      repeat case_match; done. }
  pose proof (expand_feature_store_supplied d) as Hfs.
  fold kind. unfold checkFeatureStore.
  destruct Hmis as [[Hk Hsup] | [Hk Hsup]]; rewrite Hsup in Hfs; rewrite Hk.
  - destruct Hfs as [[fs ->] | [msg ->]]; simpl; eauto.
  - rewrite Hfs. simpl. eauto.
Qed.

(** The workspace that the preparation ends with carries the feature store
    settings expanded from the configuration, unless the kind is Default. *)
Lemma prepare_feature_store id d w :
  prepareWorkspace id d = Ret (inr w) →
  ∃ props fs,
    Properties w = Some props
    ∧ expandMachineLearningWorkspaceFeatureStore (GetList d "feature_store") = Ret fs
    ∧ checkFeatureStore (GetString d "kind") fs = None
    ∧ FeatureStoreSettings_ props
      = (if EqualFold (GetString d "kind") "Default" then None else fs).
Proof.
  unfold prepareWorkspace, mbind, Res_bind. intros Hw.
  destruct (expandMachineLearningWorkspaceIdentity _); [|done].
  destruct (expandMachineLearningWorkspaceEncryption _); try done.
  destruct (expandMachineLearningWorkspaceManagedNetwork _); try done.
  destruct (expandMachineLearningWorkspaceServerlessCompute _); try done.
  destruct (checkServerlessCompute _ _ _) as [[e|]| |]; try done.
  destruct (expandMachineLearningWorkspaceFeatureStore _) as [fs| |]; try done.
  destruct (checkFeatureStore _ fs) eqn:Hc; [done|].
  injection Hw as <-. eexists _, fs. by repeat split.
Qed.

(** Blocks typed by the schema are expanded without a panic. *)
Lemma expand_encryption_typed l :
  firstBlock (λ b, hasString "key_vault_id" b && hasString "key_id" b
                   && hasString "user_assigned_identity_id" b) l = true →
  ∃ x, expandMachineLearningWorkspaceEncryption l = Ret x.
Proof.
  destruct l as [|[raw|] rest]; simpl; eauto.
  unfold hasString, mbind, Res_bind, assertString. intros Ht.
  destruct (raw !! "key_vault_id") as [[]|]; try done.
  destruct (raw !! "key_id") as [[]|]; try done.
  destruct (raw !! "user_assigned_identity_id") as [[]|]; try done. eauto.
Qed.

Lemma expand_managed_network_typed l :
  firstBlock (hasString "isolation_mode") l = true →
  ∃ x, expandMachineLearningWorkspaceManagedNetwork l = Ret x.
Proof.
  destruct l as [|[raw|] rest]; simpl; eauto.
  unfold hasString, mbind, Res_bind, assertString.
  destruct (raw !! "isolation_mode") as [[]|]; try done. eauto.
Qed.

Lemma expand_serverless_typed l :
  firstBlock (hasBool "public_ip_enabled") l = true →
  ∃ x, expandMachineLearningWorkspaceServerlessCompute l = Ret x
       ∧ ∀ sc, x = Some sc → ∃ b, ServerlessComputeNoPublicIP sc = Some b.
Proof.
  destruct l as [|[raw|] rest]; simpl; [by eexists | | by eexists].
  unfold hasBool, mbind, Res_bind, assertBool.
  destruct (raw !! "public_ip_enabled") as [[]|]; try done. intros _.
  destruct (tryString (raw !! "subnet_id")) as [subnet ok].
  destruct (ok && negb (isEmpty subnet)); eexists; split; try done;
    intros sc [= <-]; simpl; eauto.
Qed.

Lemma expand_feature_store_typed l :
  firstBlock (λ b, hasString "computer_spark_runtime_version" b
                   && hasString "offline_connection_name" b
                   && hasString "online_connection_name" b) l = true →
  ∃ x, expandMachineLearningWorkspaceFeatureStore l = Ret x.
Proof.
  destruct l as [|[raw|] rest]; simpl; eauto.
  unfold hasString, mbind, Res_bind, assertString. intros Ht.
  destruct (raw !! "computer_spark_runtime_version") as [[]|]; try done.
  destruct (raw !! "offline_connection_name") as [[]|]; try done.
  destruct (raw !! "online_connection_name") as [[]|]; try done. eauto.
Qed.

Lemma check_serverless_returns d n x :
  (∀ sc, x = Some sc → ∃ b, ServerlessComputeNoPublicIP sc = Some b) →
  ∃ r, checkServerlessCompute d n x = Ret r.
Proof.
  intros Hx. unfold checkServerlessCompute. destruct x as [sc|]; [|eauto].
  destruct (Hx sc eq_refl) as [b ->]. unfold mbind, Res_bind, deref.
  repeat case_match; eauto.
Qed.

Lemma prepare_typed id d :
  blocksTyped d = true → ∃ x, prepareWorkspace id d = Ret x.
Proof.
  unfold blocksTyped. intros Ht.
  apply andb_prop in Ht as [Ht Hfs]. apply andb_prop in Ht as [Ht Hsc].
  apply andb_prop in Ht as [Henc Hmn].
  destruct (expand_encryption_typed _ Henc) as [enc He].
  destruct (expand_managed_network_typed _ Hmn) as [mn Hm].
  destruct (expand_serverless_typed _ Hsc) as (sc & Hs & Hip).
  destruct (expand_feature_store_typed _ Hfs) as [fs Hf].
  unfold prepareWorkspace.
  destruct (expandMachineLearningWorkspaceIdentity _); [|eauto].
  rewrite He, Hm, Hs. unfold mbind, Res_bind.
  match goal with |- context [checkServerlessCompute d ?n sc] =>
    destruct (check_serverless_returns d n sc Hip) as [[e|] ->] end; [eauto|].
  rewrite Hf. destruct (checkFeatureStore _ fs); eauto.
Qed.

(** *** The create operation *)

(** Sending the workspace adds the request, then only Gets. *)
Lemma sendWorkspace_trace meta ctx id w s :
  ∃ post, st_trace (sendWorkspace meta ctx id w s).2
          = st_trace s ++ (st_clock s, ReqCreateOrUpdate id w) :: post
          ∧ Forall getEvent post.
Proof.
  unfold sendWorkspace, client_CreateOrUpdate, send.
  unfold mbind at 1, M_bind at 1. cbn [fst snd].
  destruct (onCreateOrUpdate _ _) as [future [e|]];
    [exists []; split; [reflexivity | constructor]|].
  destruct (PollUntilDone (op_Poller future));
    [exists []; split; [reflexivity | constructor]|].
  unfold mbind, M_bind, modifyData. cbn [st_d st_clock st_trace].
  match goal with |- context [resourceMachineLearningWorkspaceRead meta ?s2] =>
    destruct (read_sends_gets meta s2) as (post & Ht & Hf) end.
  exists post. rewrite Ht. cbn [st_trace]. by rewrite <- app_assoc.
Qed.

(** How a create runs: the guard sends at most a Get and may fail; then the
    preparation decides between an error, a panic and the request. *)
Lemma ml_create_cases meta s :
  let d := st_d s in
  let id := createId meta d in
  let run := resourceMachineLearningWorkspaceCreateOrUpdate meta s in
  ∃ pre, Forall getEvent pre
    ∧ ((∃ e, run.1 = Ret (Some e) ∧ st_trace run.2 = st_trace s ++ pre)
       ∨ match prepareWorkspace id d with
         | Ret (inl e) =>
             run.1 = Ret (Some e) ∧ st_trace run.2 = st_trace s ++ pre
         | Ret (inr w) =>
             ∃ post, st_trace run.2
                     = (st_trace s ++ pre)
                         ++ (st_clock s, ReqCreateOrUpdate id w) :: post
                     ∧ Forall getEvent post
         | Panic msg =>
             run.1 = Panic msg ∧ st_trace run.2 = st_trace s ++ pre
         | OutOfFuel =>
             run.1 = OutOfFuel ∧ st_trace run.2 = st_trace s ++ pre
         end).
Proof.
  intros d id run. subst run.
  cbv beta iota zeta delta
    [resourceMachineLearningWorkspaceCreateOrUpdate orReturn deriveContext
     getData now client_Get send mbind M_bind mret M_ret liftRes].
  cbn [st_d st_clock st_trace]. fold d. fold (createId meta d). fold id.
  destruct (prepareWorkspace id d) as [[e|w]| |];
    (destruct (rd_IsNewResource d);
     [ exists [(st_clock s, ReqGet id)]; split; [by repeat constructor|];
       destruct (onGet _ _) as [existing [err|]]; cbn [fst snd];
       destruct (WasNotFound (get_HttpResponse existing)); cbn [negb fst snd];
       try (left; eexists; split; reflexivity); right
     | exists []; split; [constructor|]; right; rewrite app_nil_r ]);
    try (split; reflexivity);
    match goal with |- context [sendWorkspace meta ?ctx id w ?s1] =>
      apply (sendWorkspace_trace meta ctx id w s1) end.
Qed.

Lemma gets_are_no_creates (l : list (Time * Request)) :
  Forall getEvent l → countReq isCreateOrUpdate l = 0.
Proof.
  induction 1 as [|e l He _ IH]; [done|].
  rewrite countReq_cons, IH. unfold getEvent in He.
  by destruct e as [t []].
Qed.

Lemma requestsOf_app s run (added : list (Time * Request)) :
  st_trace run = st_trace s ++ added → requestsOf s run = snd <$> added.
Proof.
  intros Ht. unfold requestsOf. rewrite Ht.
  by rewrite drop_app_length.
Qed.
End MachineLearningProperties.

(** ** Expanding and flattening the serverless compute block *)

Section ServerlessCompute.
Import MachineLearning.

(** C10 (serverless compute round trip). For a configuration block that
    holds a boolean public_ip_enabled b and a string subnet_id, expanding it
    negates b into ServerlessComputeNoPublicIP, and flattening the result
    yields a block whose public_ip_enabled is b again. When the subnet id is
    not empty it is carried as the custom subnet and comes back as
    subnet_id; when it is empty the settings carry no custom subnet and the
    flattened block has no subnet_id. *)
Theorem serverless_compute_roundtrip (v : gmap string Scalar) (b : bool)
    (subnet : string) (rest : list (option (gmap string Scalar))) :
  v !! "public_ip_enabled" = Some (SBool b) →
  v !! "subnet_id" = Some (SString subnet) →
  ∃ settings out,
    expandMachineLearningWorkspaceServerlessCompute (Some v :: rest)
      = Ret (Some settings)
    ∧ ServerlessComputeNoPublicIP settings = Some (negb b)
    ∧ flattenMachineLearningWorkspaceServerlessCompute (Some settings)
      = [Some out]
    ∧ out !! "public_ip_enabled" = Some (SBool b)
    ∧ (subnet ≠ "" →
       ServerlessComputeCustomSubnet settings = Some subnet
       ∧ out !! "subnet_id" = Some (SString subnet))
    ∧ (subnet = "" →
       ServerlessComputeCustomSubnet settings = None
       ∧ out !! "subnet_id" = None).
Proof.
  intros Hb Hs.
  unfold expandMachineLearningWorkspaceServerlessCompute,
    flattenMachineLearningWorkspaceServerlessCompute.
  rewrite Hb, Hs. cbn [assertBool tryString mbind Res_bind andb].
  unfold isEmpty. destruct (String.eqb_spec subnet "") as [->|Hne];
    cbn [negb]; eexists _, _; (split; [reflexivity|]);
    cbn [ServerlessComputeNoPublicIP ServerlessComputeCustomSubnet];
    rewrite ?negb_involutive; repeat split; try done;
    by simplify_map_eq.
Qed.
End ServerlessCompute.



(** ** Claims on both resources *)

Section BothResources.
Context `{!Relay.Collaborators} `{!MachineLearning.Collaborators}.

(** C7 (NotFound is a normal outcome of a read, anything else an error).
    For the read of the Relay namespace and for the read of the Machine
    Learning workspace alike: when the Get of the identity fails with a 404
    response, the read clears the stored id and returns no error; when it
    fails with any other response, the read returns an error that carries
    the identity (the namespace id; the name and the resource group of the
    workspace) and the cause, and the resource data, the stored id with it,
    is left as it was. *)
Theorem read_not_found_is_normal :
  (∀ meta (s : Relay.Run) id,
     let a := Relay.onGet (Relay.Relay_NamespacesClient meta) (Relay.numGets s) in
     let run := Relay.resourceRelayNamespaceRead meta s in
     Relay.ParseNamespaceID (rd_Id (st_d s)) = inl id →
     (Relay.reportsNotFound a = true →
        run.1 = Ret None ∧ rd_Id (st_d run.2) = ""
        ∧ st_d run.2 = SetId "" (st_d s))
     ∧ (Relay.reportsFailure a = true →
        ∃ e, a.2 = Some e
             ∧ run.1 = Ret (Some (Errorf "retrieving %s: %+v"
                                         [ArgNamespaceId id] e))
             ∧ st_d run.2 = st_d s))
  ∧ (∀ meta (s : MachineLearning.Run) id,
     let a := MachineLearning.onGet (MachineLearning.MachineLearning_Workspaces meta)
                (MachineLearning.numGets s) in
     let run := MachineLearning.resourceMachineLearningWorkspaceRead meta s in
     MachineLearning.ParseWorkspaceID (rd_Id (st_d s)) = inl id →
     (MachineLearning.reportsNotFound a = true →
        run.1 = Ret None ∧ rd_Id (st_d run.2) = ""
        ∧ st_d run.2 = SetId "" (st_d s))
     ∧ (MachineLearning.reportsFailure a = true →
        ∃ e, a.2 = Some e
             ∧ run.1 = Ret (Some (Errorf
                 "making Read request on Workspace %q (Resource Group %q): %+v"
                 [ArgString (ws_WorkspaceName id);
                  ArgString (ws_ResourceGroupName id)] e))
             ∧ st_d run.2 = st_d s)).
Proof.
  split; intros meta s id a run Hid.
  - destruct (relay_read_failed_get meta s id Hid) as [Hnf Hfail].
    fold a run in Hnf, Hfail. split.
    + intros Ha. destruct (Hnf Ha) as (Hr & Hd & _). by rewrite Hr, Hd.
    + intros Ha. destruct (Hfail Ha) as (e & He & Hrun).
      exists e. by rewrite Hrun.
  - destruct (ml_read_failed_get meta s id Hid) as [Hnf Hfail].
    fold a run in Hnf, Hfail. split.
    + intros Ha. destruct (Hnf Ha) as (Hr & Hd & _). by rewrite Hr, Hd.
    + intros Ha. destruct (Hfail Ha) as (e & He & Hrun).
      exists e. by rewrite Hrun.
Qed.

(** C8 (guard on new resources). For the create of the Relay namespace and
    for the create of the Machine Learning workspace alike: when the
    resource is marked new and the up-front Get succeeds without a 404
    response, that is, the remote resource exists already, the create
    returns the import-as-exists error; the run sends no create-or-update
    request (the Get is its only request) and leaves the resource data as it
    was, so that the stored id is not set. *)
Theorem create_guard_import_as_exists :
  (∀ meta (s : Relay.Run),
     let id := Relay.NewNamespaceID (Relay.Account_SubscriptionId meta)
                 (GetString (st_d s) "resource_group_name")
                 (GetString (st_d s) "name") in
     let a := Relay.onGet (Relay.Relay_NamespacesClient meta) (Relay.numGets s) in
     let run := Relay.resourceRelayNamespaceCreateUpdate meta s in
     rd_IsNewResource (st_d s) = true →
     Relay.reportsExists a = true →
     WasNotFound (Relay.get_HttpResponse a.1) = false →
     run.1 = Ret (Some (ImportAsExistsError "azurerm_relay_namespace"
                                            (Relay.NamespaceId_ID id)))
     ∧ Relay.numCreates run.2 = Relay.numCreates s
     ∧ st_trace run.2 = st_trace s ++ [(st_clock s, Relay.ReqGet id)]
     ∧ st_d run.2 = st_d s)
  ∧ (∀ meta (s : MachineLearning.Run),
     let id := MachineLearning.createId meta (st_d s) in
     let a := MachineLearning.onGet (MachineLearning.MachineLearning_Workspaces meta)
                (MachineLearning.numGets s) in
     let run := MachineLearning.resourceMachineLearningWorkspaceCreateOrUpdate meta s in
     rd_IsNewResource (st_d s) = true →
     MachineLearning.reportsExists a = true →
     WasNotFound (MachineLearning.get_HttpResponse a.1) = false →
     run.1 = Ret (Some (ImportAsExistsError "azurerm_machine_learning_workspace"
                                            (MachineLearning.WorkspaceId_ID id)))
     ∧ MachineLearning.numCreates run.2 = MachineLearning.numCreates s
     ∧ st_trace run.2 = st_trace s ++ [(st_clock s, MachineLearning.ReqGet id)]
     ∧ st_d run.2 = st_d s).
Proof.
  split; intros meta s id a run Hnew Hex Hnf.
  - destruct (relay_create_guard meta s Hnew Hnf) as [Hs Hr].
    fold id a run in Hs, Hr. rewrite Hs, Hr.
    unfold Relay.reportsExists in Hex. destruct (a.2); [done|].
    repeat split. unfold Relay.numCreates, Relay.sent; simpl.
    rewrite countReq_snoc; simpl. lia.
  - destruct (ml_create_guard meta s Hnew Hnf) as [Hs Hr].
    fold id a run in Hs, Hr. rewrite Hs, Hr.
    unfold MachineLearning.reportsExists in Hex. destruct (a.2); [done|].
    repeat split. unfold MachineLearning.numCreates, MachineLearning.sent; simpl.
    rewrite countReq_snoc; simpl. lia.
Qed.
End BothResources.

(** *** The delete claims on sample runs *)

Section RelayWitnesses.
Import Relay.

Lemma delete_idempotent_witness :
  (sampleDelete goneApi hourStart).1 = Ret None
  ∧ (onDelete (Relay_NamespacesClient goneApi)
              (numDeletes (sampleDelete goneApi hourStart).2)).2 = None
  ∧ reportsNotFound
      (onGet (Relay_NamespacesClient goneApi)
             (numGets (sampleDelete goneApi hourStart).2)) = true
  ∧ (sampleDelete goneApi (sampleDelete goneApi hourStart).2).1 = Ret None
  ∧ numGets (sampleDelete goneApi (sampleDelete goneApi hourStart).2).2
    = S (numGets (sampleDelete goneApi hourStart).2).
Proof.
  assert (H1 : (sampleDelete goneApi hourStart).1 = Ret None)
    by (vm_compute; reflexivity).
  assert (H2 : (onDelete (Relay_NamespacesClient goneApi)
                  (numDeletes (sampleDelete goneApi hourStart).2)).2 = None)
    by (vm_compute; reflexivity).
  assert (H3 : reportsNotFound
                 (onGet (Relay_NamespacesClient goneApi)
                        (numGets (sampleDelete goneApi hourStart).2)) = true)
    by (vm_compute; reflexivity).
  split; [exact H1|]. split; [exact H2|]. split; [exact H3|].
  destruct (@delete_idempotent sampleCollaborators goneApi hourStart H1 H2 H3)
    as (Hr & Hg & _).
  split; [exact Hr | exact Hg].
Defined.

Lemma delete_error_short_circuit_witness :
  numGets hourStart + 1 < numGets (sampleDelete failingApi hourStart).2
  ∧ reportsFailure
      (onGet (Relay_NamespacesClient failingApi) (numGets hourStart + 1)) = true
  ∧ numGets (sampleDelete failingApi hourStart).2 = (numGets hourStart + 1 + 1)%nat.
Proof.
  assert (H1 : numGets hourStart + 1 < numGets (sampleDelete failingApi hourStart).2)
    by (vm_compute; lia).
  assert (H2 : reportsFailure
                 (onGet (Relay_NamespacesClient failingApi) (numGets hourStart + 1))
               = true) by (vm_compute; reflexivity).
  split; [exact H1|]. split; [exact H2|].
  exact (proj1 (@delete_error_short_circuit sampleCollaborators failingApi
                  hourStart 1 H1 H2)).
Defined.

Lemma delete_deadline_respected_witness :
  sampleParse (rd_Id (st_d shortStart)) = inl sampleNamespace
  ∧ (onDelete (Relay_NamespacesClient stuckApi) (numDeletes shortStart)).2 = None
  ∧ (∀ i : nat,
       reportsExists
         (onGet (Relay_NamespacesClient stuckApi) (numGets shortStart + i)) = true)
  ∧ (0 ≤ d_Timeout (st_d shortStart) TimeoutDelete)%Z
  ∧ (sampleDelete stuckApi shortStart).1
    = Ret (Some (waitingError sampleNamespace
                   (TimeoutError (d_Timeout (st_d shortStart) TimeoutDelete))))
  ∧ (st_clock (sampleDelete stuckApi shortStart).2
     ≤ st_clock shortStart + d_Timeout (st_d shortStart) TimeoutDelete
       + 15 * Second)%Z
  ∧ Forall (λ t, (t < st_clock shortStart
                      + d_Timeout (st_d shortStart) TimeoutDelete)%Z)
           (probeInstants shortStart (sampleDelete stuckApi shortStart).2).
Proof.
  assert (H1 : sampleParse (rd_Id (st_d shortStart)) = inl sampleNamespace)
    by (vm_compute; reflexivity).
  assert (H2 : (onDelete (Relay_NamespacesClient stuckApi)
                         (numDeletes shortStart)).2 = None)
    by (vm_compute; reflexivity).
  assert (H3 : ∀ i : nat,
             reportsExists
               (onGet (Relay_NamespacesClient stuckApi) (numGets shortStart + i))
             = true).
  { intros i. simpl. destruct i; reflexivity. }
  assert (H4 : (0 ≤ d_Timeout (st_d shortStart) TimeoutDelete)%Z)
    by (vm_compute; discriminate).
  split; [exact H1|]. split; [exact H2|]. split; [exact H3|]. split; [exact H4|].
  exact (@delete_deadline_respected sampleCollaborators stuckApi shortStart
           sampleNamespace H1 H2 H3 H4).
Defined.

Lemma delete_poll_floor_witness :
  sampleParse (rd_Id (st_d hourStart)) = inl sampleNamespace
  ∧ (onDelete (Relay_NamespacesClient slowApi) (numDeletes hourStart)).2 = None
  ∧ (∀ i : nat, i < 2 →
       reportsExists
         (onGet (Relay_NamespacesClient slowApi) (numGets hourStart + i)) = true)
  ∧ reportsNotFound
      (onGet (Relay_NamespacesClient slowApi) (numGets hourStart + 2)) = true
  ∧ (Z.of_nat 2 * (15 * Second) < d_Timeout (st_d hourStart) TimeoutDelete)%Z
  ∧ numGets (sampleDelete slowApi hourStart).2 = (numGets hourStart + 2 + 1)%nat
  ∧ length (probeInstants hourStart (sampleDelete slowApi hourStart).2) = 3
  ∧ separatedBy (15 * Second)%Z
      (probeInstants hourStart (sampleDelete slowApi hourStart).2)
  ∧ (sampleDelete slowApi hourStart).1 = Ret None.
Proof.
  assert (H0 : sampleParse (rd_Id (st_d hourStart)) = inl sampleNamespace)
    by (vm_compute; reflexivity).
  assert (Hd : (onDelete (Relay_NamespacesClient slowApi)
                         (numDeletes hourStart)).2 = None)
    by (vm_compute; reflexivity).
  assert (H1 : ∀ i : nat, i < 2 →
     reportsExists
       (onGet (Relay_NamespacesClient slowApi) (numGets hourStart + i)) = true).
  { intros i Hi. destruct i as [|[|i]]; [reflexivity | reflexivity | lia]. }
  assert (H2 : reportsNotFound
      (onGet (Relay_NamespacesClient slowApi) (numGets hourStart + 2)) = true)
    by (vm_compute; reflexivity).
  assert (H3 : (Z.of_nat 2 * (15 * Second)
                < d_Timeout (st_d hourStart) TimeoutDelete)%Z)
    by (vm_compute; reflexivity).
  split; [exact H0|]. split; [exact Hd|]. split; [exact H1|].
  split; [exact H2|]. split; [exact H3|].
  destruct (@delete_poll_floor sampleCollaborators slowApi hourStart
              sampleNamespace 2 H0 Hd H1 H2 H3) as (Hn & Hl & _ & Hsep & Hr).
  split; [exact Hn|]. split; [exact Hl|]. split; [exact Hsep | exact Hr].
Defined.

End RelayWitnesses.

(** *** The other claims on sample runs *)

Section OtherWitnesses.

(** Scenario A of the specification: a timeout of sixty seconds and probes
    that find the namespace twice before it is gone; the delete succeeds
    after three probes, thirty seconds after it began. *)
Example scenario_A :
  let run := Relay.sampleDelete Relay.slowApi
               (Relay.sampleStart false (60 * Second)%Z) in
  run.1 = Ret None
  ∧ Relay.numGets run.2 = 3
  ∧ st_clock run.2 = (30 * Second)%Z.
Proof. vm_compute. done. Qed.

(** Scenario B of the specification: a timeout of twenty seconds and a
    namespace that stays; the delete times out at twenty seconds, after two
    probes. *)
Example scenario_B :
  let run := Relay.sampleDelete Relay.stuckApi Relay.shortStart in
  run.1 = Ret (Some (Relay.waitingError Relay.sampleNamespace
                       (TimeoutError (20 * Second)%Z)))
  ∧ Relay.numGets run.2 = 2
  ∧ st_clock run.2 = (20 * Second)%Z.
Proof. vm_compute. done. Qed.

(** A delete request that the API rejects is surfaced as it is, before any
    probe. *)
Example rejected_delete_request :
  let run := Relay.sampleDelete
               (Relay.sampleClient Relay.deleteRejected [] Relay.answerNotFound)
               Relay.hourStart in
  run.1 = Ret (Some (Errorf "deleting %s: %+v"
                            [ArgNamespaceId Relay.sampleNamespace]
                            (SdkError "ResourceNotFound")))
  ∧ Relay.numGets run.2 = 0.
Proof. vm_compute. done. Qed.

Lemma read_not_found_is_normal_witness :
  Relay.sampleParse (rd_Id (st_d Relay.hourStart)) = inl Relay.sampleNamespace
  ∧ Relay.reportsNotFound
      (Relay.onGet (Relay.Relay_NamespacesClient Relay.goneApi)
                   (Relay.numGets Relay.hourStart)) = true
  ∧ (Relay.sampleRead Relay.goneApi Relay.hourStart).1 = Ret None
  ∧ rd_Id (st_d (Relay.sampleRead Relay.goneApi Relay.hourStart).2) = "".
Proof.
  assert (H1 : Relay.sampleParse (rd_Id (st_d Relay.hourStart))
               = inl Relay.sampleNamespace) by (vm_compute; reflexivity).
  assert (H2 : Relay.reportsNotFound
      (Relay.onGet (Relay.Relay_NamespacesClient Relay.goneApi)
                   (Relay.numGets Relay.hourStart)) = true)
    by (vm_compute; reflexivity).
  split; [exact H1|]. split; [exact H2|].
  destruct (proj1 (proj1 (@read_not_found_is_normal Relay.sampleCollaborators
                            MachineLearning.sampleCollaborators)
                     Relay.goneApi Relay.hourStart Relay.sampleNamespace H1) H2)
    as (Hr & Hid & _).
  split; [exact Hr | exact Hid].
Defined.

Lemma create_guard_import_as_exists_witness :
  rd_IsNewResource (st_d Relay.newStart) = true
  ∧ Relay.reportsExists
      (Relay.onGet (Relay.Relay_NamespacesClient Relay.stuckApi)
                   (Relay.numGets Relay.newStart)) = true
  ∧ WasNotFound
      (Relay.get_HttpResponse
         (Relay.onGet (Relay.Relay_NamespacesClient Relay.stuckApi)
                      (Relay.numGets Relay.newStart)).1) = false
  ∧ (Relay.sampleCreate Relay.stuckApi Relay.newStart).1
    = Ret (Some (ImportAsExistsError "azurerm_relay_namespace"
                   (Relay.sampleID
                      (Relay.NewNamespaceID "sub"
                         (GetString (st_d Relay.newStart) "resource_group_name")
                         (GetString (st_d Relay.newStart) "name")))))
  ∧ Relay.numCreates (Relay.sampleCreate Relay.stuckApi Relay.newStart).2
    = Relay.numCreates Relay.newStart.
Proof.
  assert (H1 : rd_IsNewResource (st_d Relay.newStart) = true) by reflexivity.
  assert (H2 : Relay.reportsExists
      (Relay.onGet (Relay.Relay_NamespacesClient Relay.stuckApi)
                   (Relay.numGets Relay.newStart)) = true) by reflexivity.
  assert (H3 : WasNotFound
      (Relay.get_HttpResponse
         (Relay.onGet (Relay.Relay_NamespacesClient Relay.stuckApi)
                      (Relay.numGets Relay.newStart)).1) = false) by reflexivity.
  split; [exact H1|]. split; [exact H2|]. split; [exact H3|].
  destruct (proj1 (@create_guard_import_as_exists Relay.sampleCollaborators
                     MachineLearning.sampleCollaborators)
              Relay.stuckApi Relay.newStart H1 H2 H3) as (Hr & Hn & _).
  split; [exact Hr | exact Hn].
Defined.

(** A workspace of kind FeatureStore with a feature store block: the
    request is sent and carries the expanded settings. *)
Example feature_store_attached :
  MachineLearning.requestsOf MachineLearning.featureStoreStart
    (MachineLearning.sampleCreate MachineLearning.freshApi
       MachineLearning.featureStoreStart).2 !! 0
  ≫= (λ r, match r with
           | MachineLearning.ReqCreateOrUpdate _ w =>
               MachineLearning.Properties w
               ≫= MachineLearning.FeatureStoreSettings_
           | _ => None
           end)
  = Some {| MachineLearning.ComputeRuntime :=
              Some {| MachineLearning.SparkRuntimeVersion := Some "3.3" |};
            MachineLearning.OfflineStoreConnectionName := Some "offline";
            MachineLearning.OnlineStoreConnectionName := None |}.
Proof. vm_compute. reflexivity. Qed.

(** An empty feature store block reaches the expander as a nil element: it
    counts as not supplied, and a workspace of kind Default is created. *)
Example empty_feature_store_block :
  MachineLearning.featureStoreSupplied (st_d MachineLearning.emptyBlockStart)
  = false
  ∧ MachineLearning.numCreates
      (MachineLearning.sampleCreate MachineLearning.freshApi
         MachineLearning.emptyBlockStart).2 = 1.
Proof. vm_compute. done. Qed.

Lemma serverless_compute_roundtrip_witness :
  MachineLearning.sampleServerlessBlock !! "public_ip_enabled" = Some (SBool true)
  ∧ MachineLearning.sampleServerlessBlock !! "subnet_id"
    = Some (SString "/subscriptions/sub/resourceGroups/rg/providers/Microsoft.Network/virtualNetworks/vnet/subnets/default")
  ∧ ∃ settings out,
      MachineLearning.expandMachineLearningWorkspaceServerlessCompute
        [Some MachineLearning.sampleServerlessBlock] = Ret (Some settings)
      ∧ MachineLearning.flattenMachineLearningWorkspaceServerlessCompute
          (Some settings) = [Some out]
      ∧ out !! "public_ip_enabled" = Some (SBool true).
Proof.
  assert (H1 : MachineLearning.sampleServerlessBlock !! "public_ip_enabled"
               = Some (SBool true)) by (vm_compute; reflexivity).
  assert (H2 : MachineLearning.sampleServerlessBlock !! "subnet_id"
    = Some (SString "/subscriptions/sub/resourceGroups/rg/providers/Microsoft.Network/virtualNetworks/vnet/subnets/default"))
    by (vm_compute; reflexivity).
  split; [exact H1|]. split; [exact H2|].
  destruct (serverless_compute_roundtrip MachineLearning.sampleServerlessBlock
              true _ [] H1 H2) as (settings & out & He & _ & Hf & Hp & _).
  exists settings, out. split; [exact He|]. split; [exact Hf | exact Hp].
Defined.
End OtherWitnesses.

(** * Further properties of the code *)

(** ** Steps of a run *)

Section StateSteps.
Context {Req : Type}.

Lemma bind_getData {B} (k : ResourceData → M (State Req) B) (st : State Req) :
  (getData ≫= k) st = k (st_d st) st.
Proof. reflexivity. Qed.

Lemma bind_modifyData {B} f (k : unit → M (State Req) B) (st : State Req) :
  (modifyData f ≫= k) st = k tt (withData f st).
Proof. reflexivity. Qed.

Lemma bind_send {A B} (kind : Req → bool) (req : Req) (script : nat → A)
    (k : A → M (State Req) B) (st : State Req) :
  (send kind req script ≫= k) st
  = k (script (countReq kind (st_trace st)))
      {| st_d := st_d st; st_clock := st_clock st;
         st_trace := st_trace st ++ [(st_clock st, req)] |}.
Proof. reflexivity. Qed.

Lemma bind_liftRes {A B} (r : Res A) (k : A → M (State Req) B) (st : State Req) :
  (liftRes r ≫= k) st
  = match r with
    | Ret a => k a st
    | Panic msg => (Panic msg, st)
    | OutOfFuel => (OutOfFuel, st)
    end.
Proof. by destruct r. Qed.

Lemma bind_ret {A B} (a : A) (k : A → M (State Req) B) (st : State Req) :
  (mret a ≫= k) st = k a st.
Proof. reflexivity. Qed.

(** A panic of the first computation is the panic of the whole. *)
Lemma bind_panics {A B} (m : M (State Req) A) (k : A → M (State Req) B)
    (st : State Req) msg :
  (m st).1 = Panic msg → ((m ≫= k) st).1 = Panic msg.
Proof.
  unfold mbind, M_bind. destruct (m st) as [[a|msg'|] st']; simpl; congruence.
Qed.

Lemma sendsOnly_nothing {A} (m : M (State Req) A) (st : State Req) :
  sendsOnly (λ _, false) m → st_trace (m st).2 = st_trace st.
Proof.
  intros Hm. destruct (Hm st) as (reqs & Ht & Hf).
  destruct reqs as [|r reqs]; [by rewrite app_nil_r in Ht|].
  by apply Forall_cons in Hf as [? _].
Qed.
End StateSteps.

(** ** Runs of the Machine Learning workspace *)

Section MachineLearningRuns.
Import MachineLearning.
Context `{!Collaborators}.
Implicit Types (s : Run).

(** One syntax-directed step of a proof that a computation sends only
    requests of one kind. *)
Ltac sends_walk :=
  lazymatch goal with
  | |- sendsOnly _ (orReturn _ _) => apply sendsOnly_orReturn
  | |- sendsOnly _ (checkedSet _ _ _) => apply sendsOnly_checkedSet
  | |- sendsOnly _ (readProperties _) => apply sendsOnly_readProperties
  | |- sendsOnly _ (send _ _ _) => apply sendsOnly_send; reflexivity
  | |- sendsOnly _ (mbind _ _) => apply sendsOnly_bind; [|intros ?]
  | |- sendsOnly _ (match ?x with _ => _ end) => destruct x
  | |- sendsOnly _ _ => solve [auto with sends]
  end.

Lemma bind_deriveContext {B} f parent (k : Context → M Run B) s :
  (deriveContext f parent ≫= k) s = k (f parent (st_d s) (st_clock s)) s.
Proof. reflexivity. Qed.

Lemma ml_counts_sent_get id s :
  numGets (sent (ReqGet id) s) = S (numGets s)
  ∧ numCreates (sent (ReqGet id) s) = numCreates s
  ∧ numDeletes (sent (ReqGet id) s) = numDeletes s.
Proof.
  unfold numGets, numCreates, numDeletes, sent; simpl.
  rewrite !countReq_snoc; simpl. lia.
Qed.

Lemma ml_counts_afterGuard meta s :
  numCreates (afterGuard meta s) = numCreates s
  ∧ st_d (afterGuard meta s) = st_d s
  ∧ numGets (afterGuard meta s)
    = (numGets s + (if rd_IsNewResource (st_d s) then 1 else 0))%nat.
Proof.
  unfold afterGuard. destruct (rd_IsNewResource (st_d s)).
  - destruct (ml_counts_sent_get (createId meta (st_d s)) s) as (-> & -> & _).
    repeat split; lia.
  - repeat split; lia.
Qed.

(** A create whose guard passes goes on with the preparation of the
    workspace, and sends it when there is one. *)
Lemma ml_create_unfold meta s :
  let d := st_d s in
  let id := createId meta d in
  let ctx := timeouts_ForCreate (StopContext meta) d (st_clock s) in
  guardPasses meta s = true →
  resourceMachineLearningWorkspaceCreateOrUpdate meta s =
    match prepareWorkspace id d with
    | Ret (inl e) => (Ret (Some e), afterGuard meta s)
    | Ret (inr w) => sendWorkspace meta ctx id w (afterGuard meta s)
    | Panic msg => (Panic msg, afterGuard meta s)
    | OutOfFuel => (OutOfFuel, afterGuard meta s)
    end.
Proof.
  intros d id ctx. unfold guardPasses, afterGuard.
  cbv beta iota zeta delta
    [resourceMachineLearningWorkspaceCreateOrUpdate orReturn deriveContext
     getData now client_Get send mbind M_bind mret M_ret liftRes].
  cbn [st_d st_clock st_trace]. fold d. fold (createId meta d). fold id ctx.
  fold (numGets s).
  destruct (rd_IsNewResource d); cbn [negb orb].
  - destruct (onGet _ _) as [existing [err|]]; cbn [fst snd]; intros ->;
      cbn [negb]; fold (sent (ReqGet id) s);
      by destruct (prepareWorkspace id d) as [[e|w]| |].
  - intros _. by destruct (prepareWorkspace id d) as [[e|w]| |].
Qed.

(** Sending the workspace, written out on states. *)
Lemma sendWorkspace_unfold meta ctx id w s :
  let a := onCreateOrUpdate (MachineLearning_Workspaces meta) (numCreates s) in
  let s2 := sent (ReqCreateOrUpdate id w) s in
  sendWorkspace meta ctx id w s =
    match a.2 with
    | Some e =>
        (Ret (Some (Errorf "creating/updating %s: %+v" [ArgWorkspaceId id] e)), s2)
    | None =>
        match PollUntilDone (op_Poller a.1) with
        | Some e =>
            (Ret (Some (Errorf "waiting for the creation of %s: %+v"
                               [ArgWorkspaceId id] e)), s2)
        | None =>
            resourceMachineLearningWorkspaceRead meta
              (withData (SetId (WorkspaceId_ID id)) s2)
        end
    end.
Proof.
  intros a s2. subst a s2. unfold sendWorkspace, client_CreateOrUpdate.
  rewrite bind_send. fold (numCreates s). fold (sent (ReqCreateOrUpdate id w) s).
  destruct (onCreateOrUpdate _ _) as [future [e|]]; cbn [fst snd]; [done|].
  destruct (PollUntilDone (op_Poller future)); [done|].
  by rewrite bind_modifyData.
Qed.


(** *** The checks on the serverless compute block *)

Lemma network_access_GetBool d :
  (let '(v, ok) := GetOkExistsBool d "public_network_access_enabled" in
   if ok then v else false)
  = GetBool d "public_network_access_enabled".
Proof.
  unfold GetOkExistsBool, GetBool, asBool.
  by destruct (rd_attrs d !! "public_network_access_enabled") as [[]|].
Qed.

Lemma expand_serverless_no_subnet v rest (b : bool) :
  v !! "public_ip_enabled" = Some (SBool b) →
  customSubnet v = false →
  expandMachineLearningWorkspaceServerlessCompute (Some v :: rest)
  = Ret (Some {| ServerlessComputeNoPublicIP := Some (negb b);
                 ServerlessComputeCustomSubnet := None |}).
Proof.
  intros Hb Hs. unfold expandMachineLearningWorkspaceServerlessCompute.
  rewrite Hb. cbn [assertBool mbind Res_bind]. unfold customSubnet in Hs.
  destruct (tryString (v !! "subnet_id")) as [subnet ok]. by rewrite Hs.
Qed.

Lemma expanders_use_no_fuel (l : list (option (gmap string Scalar))) :
  expandMachineLearningWorkspaceEncryption l ≠ OutOfFuel
  ∧ expandMachineLearningWorkspaceManagedNetwork l ≠ OutOfFuel.
Proof.
  destruct l as [|[raw|] rest]; try done. split.
  - unfold expandMachineLearningWorkspaceEncryption, mbind, Res_bind, assertString.
    destruct (raw !! "key_vault_id") as [[]|]; try done;
    destruct (raw !! "key_id") as [[]|]; try done;
    destruct (raw !! "user_assigned_identity_id") as [[]|]; done.
  - unfold expandMachineLearningWorkspaceManagedNetwork, mbind, Res_bind, assertString.
    destruct (raw !! "isolation_mode") as [[]|]; done.
Qed.

(** A serverless compute block that a check rejects ends the preparation
    with an error, unless an earlier block makes it panic. *)
Lemma prepare_serverless_error id d sc e :
  expandMachineLearningWorkspaceServerlessCompute (GetList d "serverless_compute")
  = Ret sc →
  checkServerlessCompute d (GetBool d "public_network_access_enabled") sc
  = Ret (Some e) →
  ((∃ e', prepareWorkspace id d = Ret (inl e'))
   ∨ (∃ msg, prepareWorkspace id d = Panic msg))
  ∧ (blocksTyped d = true →
     (∃ i, ExpandSystemAndUserAssignedMap (GetList d "identity") = inl i) →
     prepareWorkspace id d = Ret (inl e)).
Proof.
  intros Hs Hc. unfold prepareWorkspace. rewrite network_access_GetBool.
  rewrite Hs. unfold mbind, Res_bind. rewrite Hc.
  destruct (expanders_use_no_fuel (GetList d "encryption")) as [Henc _].
  destruct (expanders_use_no_fuel (GetList d "managed_network")) as [_ Hmn].
  split.
  - destruct (expandMachineLearningWorkspaceIdentity _); [|eauto].
    destruct (expandMachineLearningWorkspaceEncryption _); [|eauto|done].
    destruct (expandMachineLearningWorkspaceManagedNetwork _); [|eauto|done].
    eauto.
  - unfold blocksTyped. intros Ht [i Hi].
    apply andb_prop in Ht as [Ht _]. apply andb_prop in Ht as [Ht _].
    apply andb_prop in Ht as [He Hm].
    destruct (expand_encryption_typed _ He) as [enc ->].
    destruct (expand_managed_network_typed _ Hm) as [mn ->].
    unfold expandMachineLearningWorkspaceIdentity. by rewrite Hi.
Qed.

(** A create whose preparation ends with an error or a panic sends no
    create-or-update request and does not succeed. *)
Lemma ml_create_rejected meta s :
  let d := st_d s in
  let run := resourceMachineLearningWorkspaceCreateOrUpdate meta s in
  (∃ e, prepareWorkspace (createId meta d) d = Ret (inl e))
  ∨ (∃ msg, prepareWorkspace (createId meta d) d = Panic msg) →
  numCreates run.2 = numCreates s
  ∧ ((∃ e, run.1 = Ret (Some e)) ∨ (∃ msg, run.1 = Panic msg)).
Proof.
  intros d run Hp.
  destruct (ml_create_cases meta s) as (pre & Hpre & Hcases).
  fold d run in Hcases.
  assert (Hno : st_trace run.2 = st_trace s ++ pre →
                numCreates run.2 = numCreates s).
  { intros Ht. unfold numCreates.
    rewrite Ht, countReq_app, (gets_are_no_creates pre) by done. lia. }
  destruct Hcases as [(e & Hr & Ht) | Hprep]; [eauto|].
  destruct Hp as [[e He] | [msg He]]; rewrite He in Hprep;
    destruct Hprep as [Hr Ht]; eauto.
Qed.

(** X9 (serverless compute without public IP). When the serverless_compute
    block disables the public IP and names no subnet, and public network
    access is not enabled, a create-or-update sends no create-or-update
    request and does not succeed; when the guard on new resources passes,
    the identity expands and the blocks are typed as the schema declares,
    it returns the error that public_ip_enabled must be true. *)
Theorem serverless_no_public_ip_rejected meta s
    (v : gmap string Scalar) (rest : list (option (gmap string Scalar))) :
  let d := st_d s in
  let run := resourceMachineLearningWorkspaceCreateOrUpdate meta s in
  GetList d "serverless_compute" = Some v :: rest →
  v !! "public_ip_enabled" = Some (SBool false) →
  customSubnet v = false →
  GetBool d "public_network_access_enabled" = false →
  numCreates run.2 = numCreates s
  ∧ ((∃ e, run.1 = Ret (Some e)) ∨ (∃ msg, run.1 = Panic msg))
  ∧ (guardPasses meta s = true →
     blocksTyped d = true →
     (∃ i, ExpandSystemAndUserAssignedMap (GetList d "identity") = inl i) →
     run.1 = Ret (Some publicIpRequiredError)).
Proof.
  intros d run Hl Hb Hsub Hacc.
  pose proof (expand_serverless_no_subnet v rest false Hb Hsub) as Hs.
  rewrite <- Hl in Hs.
  assert (Hc : checkServerlessCompute d
                 (GetBool d "public_network_access_enabled")
                 (Some {| ServerlessComputeNoPublicIP := Some (negb false);
                          ServerlessComputeCustomSubnet := None |})
               = Ret (Some publicIpRequiredError)).
  { unfold checkServerlessCompute. by rewrite Hacc. }
  destruct (prepare_serverless_error (createId meta d) d _ _ Hs Hc) as [Hp Hexact].
  destruct (ml_create_rejected meta s Hp) as [Hn Hr].
  split; [exact Hn|]. split; [exact Hr|].
  intros Hg Ht Hi. subst run.
  rewrite (ml_create_unfold meta s Hg). fold d.
  by rewrite (Hexact Ht Hi).
Qed.

(** X10 (public IP switched off). When the serverless_compute block disables
    the public IP and names no subnet, and the prior state had the public IP
    enabled, a create-or-update sends no create-or-update request and does
    not succeed; under the same side conditions as X9 the error is the one
    about the update from true to false when public network access is
    enabled, and the one of X9 when it is not. *)
Theorem serverless_public_ip_downgrade_rejected meta s
    (v : gmap string Scalar) (rest : list (option (gmap string Scalar))) :
  let d := st_d s in
  let run := resourceMachineLearningWorkspaceCreateOrUpdate meta s in
  GetList d "serverless_compute" = Some v :: rest →
  v !! "public_ip_enabled" = Some (SBool false) →
  customSubnet v = false →
  blockBoolAt (rd_prior d) "serverless_compute" 0 "public_ip_enabled" = true →
  numCreates run.2 = numCreates s
  ∧ ((∃ e, run.1 = Ret (Some e)) ∨ (∃ msg, run.1 = Panic msg))
  ∧ (guardPasses meta s = true →
     blocksTyped d = true →
     (∃ i, ExpandSystemAndUserAssignedMap (GetList d "identity") = inl i) →
     run.1 = Ret (Some (if GetBool d "public_network_access_enabled"
                        then publicIpDowngradeError
                        else publicIpRequiredError))).
Proof.
  intros d run Hl Hb Hsub Hold.
  pose proof (expand_serverless_no_subnet v rest false Hb Hsub) as Hs.
  rewrite <- Hl in Hs.
  assert (Hnew : blockBoolAt (rd_attrs d) "serverless_compute" 0
                             "public_ip_enabled" = false).
  { unfold blockBoolAt. unfold GetList in Hl. rewrite Hl. simpl. by rewrite Hb. }
  assert (Hc : checkServerlessCompute d
                 (GetBool d "public_network_access_enabled")
                 (Some {| ServerlessComputeNoPublicIP := Some (negb false);
                          ServerlessComputeCustomSubnet := None |})
               = Ret (Some (if GetBool d "public_network_access_enabled"
                            then publicIpDowngradeError
                            else publicIpRequiredError))).
  { unfold checkServerlessCompute, GetChangeBlockBool. rewrite Hold, Hnew.
    by destruct (GetBool d "public_network_access_enabled"). }
  destruct (prepare_serverless_error (createId meta d) d _ _ Hs Hc) as [Hp Hexact].
  destruct (ml_create_rejected meta s Hp) as [Hn Hr].
  split; [exact Hn|]. split; [exact Hr|].
  intros Hg Ht Hi. subst run.
  rewrite (ml_create_unfold meta s Hg). fold d.
  by rewrite (Hexact Ht Hi).
Qed.

(** *** The request of a create *)

Lemma prepare_fields id d w :
  prepareWorkspace id d = Ret (inr w) →
  Name w = Some (ws_WorkspaceName id)
  ∧ Kind w = Some (GetString d "kind")
  ∧ ∃ props,
      Properties w = Some props
      ∧ PublicNetworkAccess props
        = Some (if GetBool d "public_network_access_enabled"
                then PublicNetworkAccessEnabled else PublicNetworkAccessDisabled)
      ∧ (EqualFold (GetString d "kind") "Default" = true →
         FeatureStoreSettings_ props = None).
Proof.
  unfold prepareWorkspace. rewrite network_access_GetBool.
  unfold mbind, Res_bind. intros Hw.
  destruct (expandMachineLearningWorkspaceIdentity _); [|done].
  destruct (expandMachineLearningWorkspaceEncryption _); try done.
  destruct (expandMachineLearningWorkspaceManagedNetwork _); try done.
  destruct (expandMachineLearningWorkspaceServerlessCompute _); try done.
  destruct (checkServerlessCompute _ _ _) as [[e|]| |]; try done.
  destruct (expandMachineLearningWorkspaceFeatureStore _) as [fs| |]; try done.
  destruct (checkFeatureStore _ fs) eqn:Hc; [done|].
  injection Hw as <-. split; [done|]. split; [done|].
  eexists. split; [reflexivity|]. split; [reflexivity|].
  cbn [FeatureStoreSettings_]. by intros ->.
Qed.

(** X11 (the request of a create). A create-or-update sends at most one
    create-or-update request. The request addresses the identity made of
    the subscription, resource_group_name and name, and its workspace
    carries that name, the configured kind, the public network access
    Enabled or Disabled as public_network_access_enabled says, and no
    feature store settings when the kind is Default up to case. *)
Theorem workspace_create_request_carries_configuration meta s :
  let d := st_d s in
  let run := resourceMachineLearningWorkspaceCreateOrUpdate meta s in
  (numCreates run.2 ≤ S (numCreates s))%nat
  ∧ ∀ id w, ReqCreateOrUpdate id w ∈ requestsOf s run.2 →
      id = createId meta d
      ∧ Name w = Some (GetString d "name")
      ∧ Kind w = Some (GetString d "kind")
      ∧ ∃ props,
          Properties w = Some props
          ∧ PublicNetworkAccess props
            = Some (if GetBool d "public_network_access_enabled"
                    then PublicNetworkAccessEnabled
                    else PublicNetworkAccessDisabled)
          ∧ (EqualFold (GetString d "kind") "Default" = true →
             FeatureStoreSettings_ props = None).
Proof.
  intros d run.
  destruct (ml_create_cases meta s) as (pre & Hpre & Hcases).
  fold d run in Hcases.
  assert (Hnone : st_trace run.2 = st_trace s ++ pre →
            (numCreates run.2 ≤ S (numCreates s))%nat
            ∧ ∀ id w, ReqCreateOrUpdate id w ∉ requestsOf s run.2).
  { intros Ht. split.
    - unfold numCreates.
      rewrite Ht, countReq_app, (gets_are_no_creates pre) by done. lia.
    - intros id w Hin. rewrite (requestsOf_app _ _ _ Ht) in Hin.
      apply list_elem_of_fmap in Hin as ([t r] & Hr' & Hin).
      simpl in Hr'. subst r.
      rewrite Forall_forall in Hpre. by specialize (Hpre _ Hin). }
  assert (Hdone : st_trace run.2 = st_trace s ++ pre →
            (numCreates run.2 ≤ S (numCreates s))%nat
            ∧ ∀ id w, ReqCreateOrUpdate id w ∈ requestsOf s run.2 →
                id = createId meta d
                ∧ Name w = Some (GetString d "name")
                ∧ Kind w = Some (GetString d "kind")
                ∧ ∃ props,
                    Properties w = Some props
                    ∧ PublicNetworkAccess props
                      = Some (if GetBool d "public_network_access_enabled"
                              then PublicNetworkAccessEnabled
                              else PublicNetworkAccessDisabled)
                    ∧ (EqualFold (GetString d "kind") "Default" = true →
                       FeatureStoreSettings_ props = None)).
  { intros Ht. destruct (Hnone Ht) as [Hn Hnot]. split; [exact Hn|].
    intros id w Hin. by destruct (Hnot id w). }
  destruct Hcases as [(e & Hr & Ht) | Hprep]; [by apply Hdone|].
  destruct (prepareWorkspace (createId meta d) d) as [[e|w']| |] eqn:Hp;
    try (destruct Hprep as [_ Ht]; by apply Hdone).
  destruct Hprep as (post & Ht & Hpost).
  rewrite <- app_assoc in Ht. split.
  - unfold numCreates.
    rewrite Ht, !countReq_app, countReq_cons, (gets_are_no_creates pre),
      (gets_are_no_creates post) by done.
    simpl. lia.
  - intros id w Hin. rewrite (requestsOf_app _ _ _ Ht) in Hin.
    apply list_elem_of_fmap in Hin as ([t r] & Hr & Hin). simpl in Hr. subst r.
    rewrite Forall_forall in Hpre, Hpost.
    apply elem_of_app in Hin as [Hin | Hin]; [by specialize (Hpre _ Hin)|].
    apply elem_of_cons in Hin as [Hin | Hin]; [|by specialize (Hpost _ Hin)].
    injection Hin as _ -> ->.
    destruct (prepare_fields _ _ _ Hp) as (Hname & Hkind & props & HP & Ha & Hf).
    split; [done|]. split; [exact Hname|]. split; [exact Hkind|]. eauto.
Qed.


(** *** Failures of a create *)

(** X12 (identity error). When the guard on new resources passes and
    identity.ExpandSystemAndUserAssignedMap fails, the create-or-update
    returns that error wrapped as the expanding-identity error; nothing is
    sent after the guard and the resource data is unchanged. *)
Theorem workspace_create_identity_error meta s (err : error) :
  guardPasses meta s = true →
  ExpandSystemAndUserAssignedMap (GetList (st_d s) "identity") = inr err →
  resourceMachineLearningWorkspaceCreateOrUpdate meta s
  = (Ret (Some (Errorf "expanding `identity`: %+v" [] err)), afterGuard meta s).
Proof.
  intros Hg He. rewrite (ml_create_unfold meta s Hg).
  unfold prepareWorkspace, expandMachineLearningWorkspaceIdentity.
  by rewrite He.
Qed.

Lemma ml_counts_sent_create id w s :
  numGets (sent (ReqCreateOrUpdate id w) s) = numGets s
  ∧ numCreates (sent (ReqCreateOrUpdate id w) s) = S (numCreates s).
Proof.
  unfold numGets, numCreates, sent; simpl. rewrite !countReq_snoc; simpl. lia.
Qed.

(** X13 (failed create). When the guard passes and there is a workspace to
    send, a create-or-update request that the API rejects is returned as the
    creating/updating error, and one whose poller fails as the
    waiting-for-the-creation error; in both cases the run ends with that
    request: the stored id is not set and no read follows. *)
Theorem workspace_create_failure_keeps_id meta s (w : Workspace) :
  let d := st_d s in
  let id := createId meta d in
  let a := onCreateOrUpdate (MachineLearning_Workspaces meta) (numCreates s) in
  let run := resourceMachineLearningWorkspaceCreateOrUpdate meta s in
  let s2 := sent (ReqCreateOrUpdate id w) (afterGuard meta s) in
  guardPasses meta s = true →
  prepareWorkspace id d = Ret (inr w) →
  (∀ e, a.2 = Some e →
     run = (Ret (Some (Errorf "creating/updating %s: %+v" [ArgWorkspaceId id] e)),
            s2))
  ∧ (∀ e, a.2 = None → PollUntilDone (op_Poller a.1) = Some e →
     run = (Ret (Some (Errorf "waiting for the creation of %s: %+v"
                              [ArgWorkspaceId id] e)), s2))
  ∧ rd_Id (st_d s2) = rd_Id d.
Proof.
  intros d id a run s2 Hg Hp. subst run.
  rewrite (ml_create_unfold meta s Hg). fold d id. rewrite Hp.
  rewrite sendWorkspace_unfold.
  destruct (ml_counts_afterGuard meta s) as (-> & Hd & _). fold a. fold s2.
  split; [|split].
  - by intros e ->.
  - by intros e -> ->.
  - subst s2. cbn [sent st_d]. by rewrite Hd.
Qed.

(** X14 (create, then read). After a request that is accepted and polled to
    the end, the id is stored and the read runs on it (the id is taken to
    parse back to itself). When its Get reports NotFound the create returns
    nil with the stored id cleared; when its Get fails otherwise the create
    returns the read error while the stored id stays set. *)
Theorem workspace_create_then_read meta s (w : Workspace) :
  let d := st_d s in
  let id := createId meta d in
  let c := MachineLearning_Workspaces meta in
  let a := onCreateOrUpdate c (numCreates s) in
  let g := onGet c (numGets (afterGuard meta s)) in
  let run := resourceMachineLearningWorkspaceCreateOrUpdate meta s in
  guardPasses meta s = true →
  prepareWorkspace id d = Ret (inr w) →
  a.2 = None →
  PollUntilDone (op_Poller a.1) = None →
  ParseWorkspaceID (WorkspaceId_ID id) = inl id →
  (reportsNotFound g = true →
     run.1 = Ret None ∧ rd_Id (st_d run.2) = "")
  ∧ (reportsFailure g = true →
     ∃ e, g.2 = Some e
          ∧ run.1 = Ret (Some (Errorf
                      "making Read request on Workspace %q (Resource Group %q): %+v"
                      [ArgString (ws_WorkspaceName id);
                       ArgString (ws_ResourceGroupName id)] e))
          ∧ rd_Id (st_d run.2) = WorkspaceId_ID id).
Proof.
  intros d id c a g run Hg Hp Ha Hpoll Hid. subst run.
  rewrite (ml_create_unfold meta s Hg). fold d id. rewrite Hp.
  rewrite sendWorkspace_unfold.
  destruct (ml_counts_afterGuard meta s) as (-> & _ & _). fold c a.
  rewrite Ha, Hpoll.
  set (s3 := withData (SetId (WorkspaceId_ID id))
               (sent (ReqCreateOrUpdate id w) (afterGuard meta s))).
  assert (Hn : numGets s3 = numGets (afterGuard meta s)).
  { subst s3. unfold withData, numGets. cbn [st_trace].
    apply (ml_counts_sent_create id w (afterGuard meta s)). }
  destruct (ml_read_failed_get meta s3 id Hid) as [Hnf Hfail].
  fold c in Hnf, Hfail. rewrite Hn in Hnf, Hfail. fold g in Hnf, Hfail.
  split.
  - intros Hr. destruct (Hnf Hr) as (Hres & Hdata & _).
    split; [exact Hres|]. by rewrite Hdata.
  - intros Hr. destruct (Hfail Hr) as (e & He & Hrun).
    exists e. split; [exact He|]. rewrite Hrun. by split.
Qed.

(** *** Reads *)

(** X16 (requests of a read). A read of a workspace sends one Get of the
    parsed id and nothing else, and sends nothing at all for a stored id
    that does not parse. *)
Theorem workspace_read_sends_one_get meta s :
  let run := resourceMachineLearningWorkspaceRead meta s in
  requestsOf s run.2
  = match ParseWorkspaceID (rd_Id (st_d s)) with
    | inl id => [ReqGet id]
    | inr _ => []
    end.
Proof.
  intros run. subst run. unfold resourceMachineLearningWorkspaceRead.
  rewrite bind_deriveContext, bind_getData.
  destruct (ParseWorkspaceID (rd_Id (st_d s))) as [id|err].
  2:{ apply (requestsOf_app s _ []). cbn. by rewrite app_nil_r. }
  unfold client_Get. rewrite bind_send.
  fold (sent (ReqGet id) s).
  apply (requestsOf_app s _ [(st_clock s, ReqGet id)]).
  destruct (onGet _ _) as [resp [e|]]; cbv beta iota.
  - by destruct (WasNotFound (get_HttpResponse resp)).
  - match goal with |- st_trace (?m (sent (ReqGet id) s)).2 = _ =>
      rewrite (sendsOnly_nothing m) end; [done|].
    repeat sends_walk.
Qed.

(** X17 (response without model). When the Get of a read succeeds and the
    response carries no model, the read panics on the nil dereference of
    resp.Model, after it has stored name and resource_group_name. *)
Theorem workspace_read_nil_model_panics meta s (id : WorkspaceId) :
  let a := onGet (MachineLearning_Workspaces meta) (numGets s) in
  let run := resourceMachineLearningWorkspaceRead meta s in
  ParseWorkspaceID (rd_Id (st_d s)) = inl id →
  a.2 = None →
  get_Model a.1 = None →
  run = (Panic "invalid memory address or nil pointer dereference",
         withData (Set_ "resource_group_name" (VString (ws_ResourceGroupName id)))
           (withData (Set_ "name" (VString (ws_WorkspaceName id)))
              (sent (ReqGet id) s))).
Proof.
  intros a run Hid Ha Hm. subst run.
  unfold resourceMachineLearningWorkspaceRead.
  rewrite bind_deriveContext, bind_getData, Hid.
  unfold client_Get. rewrite bind_send. fold (numGets s). fold a.
  fold (sent (ReqGet id) s).
  destruct a as [resp [e|]]; cbn [fst snd] in *; [done|].
  rewrite !bind_modifyData. rewrite Hm. reflexivity.
Qed.

(** X18 (model without properties). When the model of the response has no
    properties, the identity flattens and is stored, the read panics on the
    nil dereference of resp.Model.Properties that follows the guarded
    block. *)
Theorem workspace_read_nil_properties_panics meta s (id : WorkspaceId)
    (model : Workspace) (flattenedIdentity : Value) :
  let a := onGet (MachineLearning_Workspaces meta) (numGets s) in
  let run := resourceMachineLearningWorkspaceRead meta s in
  ParseWorkspaceID (rd_Id (st_d s)) = inl id →
  a.2 = None →
  get_Model a.1 = Some model →
  Properties model = None →
  flattenMachineLearningWorkspaceIdentity (Identity model) = inl flattenedIdentity →
  setError "identity" flattenedIdentity = None →
  run.1 = Panic "invalid memory address or nil pointer dereference"
  ∧ rd_attrs (st_d run.2) !! "identity" = Some flattenedIdentity.
Proof.
  intros a run Hid Ha Hm Hp Hf Hset. subst run.
  cbv beta iota delta
    [resourceMachineLearningWorkspaceRead orReturn checkedSet deriveContext
     getData now client_Get send mbind M_bind mret M_ret modifyData liftRes
     deref].
  cbn [st_d st_clock st_trace]. rewrite Hid. fold (numGets s). fold a.
  destruct a as [resp [e|]]; cbn [fst snd] in *; [done|].
  rewrite Hm. cbn [st_d st_clock st_trace].
  destruct (Location model), (Sku_ model); cbn [st_d st_clock st_trace];
    rewrite Hp, Hf; cbn [st_d st_clock st_trace]; rewrite Hset;
    cbn [st_d st_clock st_trace fst snd rd_attrs Set_];
    (split; [reflexivity | by rewrite lookup_insert_eq]).
Qed.

(** Storing the properties of a model without application insights
    panics when the public network access, or else the key vault id, is
    nil. *)
Lemma readProperties_panics props s :
  ApplicationInsights props = None →
  PublicNetworkAccess props = None
  ∨ (∃ access, PublicNetworkAccess props = Some access) ∧ KeyVault props = None →
  (readProperties props s).1
  = Panic "invalid memory address or nil pointer dereference".
Proof.
  intros Hai Hnil. unfold readProperties. rewrite Hai. cbv beta iota.
  repeat (rewrite bind_modifyData; cbv beta).
  rewrite bind_liftRes.
  destruct Hnil as [-> | [[access ->] Hkv]]; [reflexivity|].
  cbn [deref]. repeat (rewrite bind_modifyData; cbv beta).
  rewrite bind_liftRes, Hkv. reflexivity.
Qed.

(** X19 (properties without public network access or key vault). When the
    properties of the model carry no application insights id and lack the
    public network access, or carry it and lack the key vault id, the read
    panics on the nil dereference. *)
Theorem workspace_read_nil_access_panics meta s (id : WorkspaceId)
    (model : Workspace) (props : WorkspaceProperties) :
  let a := onGet (MachineLearning_Workspaces meta) (numGets s) in
  let run := resourceMachineLearningWorkspaceRead meta s in
  ParseWorkspaceID (rd_Id (st_d s)) = inl id →
  a.2 = None →
  get_Model a.1 = Some model →
  Properties model = Some props →
  ApplicationInsights props = None →
  PublicNetworkAccess props = None
  ∨ (∃ access, PublicNetworkAccess props = Some access) ∧ KeyVault props = None →
  run.1 = Panic "invalid memory address or nil pointer dereference".
Proof.
  intros a run Hid Ha Hm Hp Hai Hnil. subst run.
  unfold resourceMachineLearningWorkspaceRead.
  rewrite bind_deriveContext, bind_getData, Hid.
  unfold client_Get. rewrite bind_send. fold (numGets s). fold a.
  destruct a as [resp [e|]]; cbn [fst snd] in *; [done|].
  repeat (rewrite bind_modifyData; cbv beta).
  rewrite bind_liftRes, Hm. cbn [deref].
  assert (Hstep : ∀ (m : M Run unit) (k : unit → M Run (option error)) st,
            (∃ st', m st = (Ret tt, st')) →
            (∀ st', (k tt st').1
                    = Panic "invalid memory address or nil pointer dereference") →
            ((m ≫= k) st).1
            = Panic "invalid memory address or nil pointer dereference").
  { intros m k st [st' Hm'] Hk. unfold mbind, M_bind. rewrite Hm'. apply Hk. }
  apply Hstep; [destruct (Location model); by eexists|]. intros st1.
  apply Hstep; [destruct (Sku_ model); by eexists|]. intros st2.
  rewrite bind_modifyData. unfold orReturn. apply bind_panics.
  rewrite Hp. by apply readProperties_panics.
Qed.

(** X20 (delete of a workspace). For a stored id that parses, the delete
    sends exactly one delete request, forced to purge exactly when the
    feature PurgeSoftDeletedWorkspaceOnDestroy is on, and changes nothing
    else; it returns nil exactly when the request is accepted and its poller
    ends without error, and it always returns. *)
Theorem workspace_delete_single_request meta s (id : WorkspaceId) :
  let c := MachineLearning_Workspaces meta in
  let a := onDelete c (numDeletes s) in
  let options :=
    {| ForceToPurge :=
         if PurgeSoftDeletedWorkspaceOnDestroy (Features_MachineLearning meta)
         then Some true else None |} in
  let run := resourceMachineLearningWorkspaceDelete meta s in
  ParseWorkspaceID (rd_Id (st_d s)) = inl id →
  run.2 = sent (ReqDelete id options) s
  ∧ (run.1 = Ret None ↔ a.2 = None ∧ PollUntilDone (op_Poller a.1) = None)
  ∧ ∃ r, run.1 = Ret r.
Proof.
  intros c a options run Hid. subst run.
  unfold resourceMachineLearningWorkspaceDelete.
  rewrite bind_deriveContext, bind_getData, Hid.
  unfold client_Delete. rewrite bind_send. fold c. fold (numDeletes s). fold a.
  assert (Ho : (if PurgeSoftDeletedWorkspaceOnDestroy (Features_MachineLearning meta)
                then {| ForceToPurge := Some true |}
                else DefaultDeleteOperationOptions) = options).
  { subst options. by destruct (PurgeSoftDeletedWorkspaceOnDestroy _). }
  rewrite Ho. fold (sent (ReqDelete id options) s).
  destruct a as [future [e|]]; cbn [fst snd].
  - split; [done|]. split; [|eauto]. split; [done | by intros [? _]].
  - destruct (PollUntilDone (op_Poller future)).
    + split; [done|]. split; [|eauto]. split; [done | by intros [_ ?]].
    + split; [done|]. split; [|eauto]. done.
Qed.

End MachineLearningRuns.

(** ** The validation of kind against feature_store *)

Section FeatureStoreValidation.
Import MachineLearning.
Context `{!Collaborators}.
Implicit Types (s : Run).

(** A configuration that passes every check of the create is prepared into
    a workspace to send. *)
Lemma prepare_accepts id d :
  blocksTyped d = true →
  (∃ i, ExpandSystemAndUserAssignedMap (GetList d "identity") = inl i) →
  serverlessAccepted d = true →
  EqualFold (GetString d "kind") "Default" = false →
  featureStoreSupplied d = true →
  ∃ w, prepareWorkspace id d = Ret (inr w).
Proof.
  intros Ht [i Hi] Hsc Hk Hsup.
  pose proof (expand_feature_store_supplied d) as Hfs. rewrite Hsup in Hfs.
  unfold blocksTyped in Ht.
  apply andb_prop in Ht as [Ht Hft]. apply andb_prop in Ht as [Ht _].
  apply andb_prop in Ht as [He Hm].
  destruct (expand_encryption_typed _ He) as [enc Henc].
  destruct (expand_managed_network_typed _ Hm) as [mn Hmn].
  destruct (expand_feature_store_typed _ Hft) as [x Hx].
  destruct Hfs as [[fs Hfs] | [msg Hfs]]; [|congruence].
  unfold serverlessAccepted in Hsc.
  destruct (expandMachineLearningWorkspaceServerlessCompute _)
    as [sc| |] eqn:Hexp; try discriminate Hsc.
  destruct (checkServerlessCompute _ _ sc) as [[e|]| |] eqn:Hchk;
    try discriminate Hsc.
  unfold prepareWorkspace, expandMachineLearningWorkspaceIdentity.
  rewrite network_access_GetBool, Hi, Henc, Hmn, Hexp.
  unfold mbind, Res_bind. rewrite Hchk, Hfs.
  unfold checkFeatureStore. rewrite Hk. cbn [isNil negb]. eauto.
Qed.

(** C9 (mutual validation of kind and feature_store). In a create-or-update
    of a workspace, when kind equals Default up to case and a feature_store
    block is supplied, or kind is not Default and no feature_store block is
    supplied, the run sends no create-or-update request and does not
    succeed: it returns an error, or it panics on a block that is not typed
    as the schema declares, and with blocks typed by the schema it returns
    an error. When kind is not Default, every create-or-update request of
    the run carries the feature store settings expanded from the
    configuration, and they are not nil; and when moreover a feature_store
    block is supplied and nothing else stops the create (the guard on new
    resources passes, the blocks are typed by the schema, the identity
    expands and the serverless compute settings pass their checks), the
    run does send one create-or-update request, for the identity of the
    configuration, with these settings attached. *)
Theorem feature_store_kind_validation meta s :
  let d := st_d s in
  let kind := GetString d "kind" in
  let run := resourceMachineLearningWorkspaceCreateOrUpdate meta s in
  ((EqualFold kind "Default" = true ∧ featureStoreSupplied d = true)
   ∨ (EqualFold kind "Default" = false ∧ featureStoreSupplied d = false) →
   numCreates run.2 = numCreates s
   ∧ ((∃ e, run.1 = Ret (Some e)) ∨ (∃ msg, run.1 = Panic msg))
   ∧ (blocksTyped d = true → ∃ e, run.1 = Ret (Some e)))
  ∧ (EqualFold kind "Default" = false →
     (∀ id w, ReqCreateOrUpdate id w ∈ requestsOf s run.2 →
        ∃ props fs,
          Properties w = Some props
          ∧ FeatureStoreSettings_ props = Some fs
          ∧ expandMachineLearningWorkspaceFeatureStore (GetList d "feature_store")
            = Ret (Some fs))
     ∧ (featureStoreSupplied d = true →
        guardPasses meta s = true →
        blocksTyped d = true →
        (∃ i, ExpandSystemAndUserAssignedMap (GetList d "identity") = inl i) →
        serverlessAccepted d = true →
        ∃ w props fs,
          ReqCreateOrUpdate (createId meta d) w ∈ requestsOf s run.2
          ∧ numCreates run.2 = S (numCreates s)
          ∧ Properties w = Some props
          ∧ FeatureStoreSettings_ props = Some fs
          ∧ expandMachineLearningWorkspaceFeatureStore (GetList d "feature_store")
            = Ret (Some fs))).
Proof.
  intros d kind run.
  destruct (ml_create_cases meta s) as (pre & Hpre & Hcases).
  fold d run in Hcases. split; [|intros Hkind; split].
  - intros Hmis.
    assert (Hno : ∀ added, Forall getEvent added →
              st_trace run.2 = st_trace s ++ added →
              numCreates run.2 = numCreates s).
    { intros added Hf Ht. unfold numCreates.
      rewrite Ht, countReq_app, (gets_are_no_creates added) by done. lia. }
    destruct Hcases as [(e & Hr & Ht) | Hprep].
    { split; [eauto|]. split; eauto. }
    destruct (prepare_mismatch (createId meta d) d Hmis) as [[e He] | [msg He]];
      rewrite He in Hprep; destruct Hprep as [Hr Ht].
    + split; [eauto|]. split; eauto.
    + split; [eauto|]. split; [eauto|]. intros Htyped.
      destruct (prepare_typed (createId meta d) d Htyped) as [x Hx]. congruence.
  - intros id w Hin.
    destruct Hcases as [(e & Hr & Ht) | Hprep].
    { rewrite (requestsOf_app _ _ _ Ht) in Hin.
      apply list_elem_of_fmap in Hin as ([t r] & Hr' & Hin).
      simpl in Hr'. subst r.
      rewrite Forall_forall in Hpre. by specialize (Hpre _ Hin). }
    destruct (prepareWorkspace (createId meta d) d) as [[e|w']| |] eqn:Hp;
      try (destruct Hprep as [_ Ht];
           rewrite (requestsOf_app _ _ _ Ht) in Hin;
           apply list_elem_of_fmap in Hin as ([t r] & Hr' & Hin);
           simpl in Hr'; subst r;
           rewrite Forall_forall in Hpre; by specialize (Hpre _ Hin)).
    destruct Hprep as (post & Ht & Hpost).
    rewrite <- app_assoc in Ht.
    rewrite (requestsOf_app _ _ _ Ht) in Hin.
    apply list_elem_of_fmap in Hin as ([t r] & Hr & Hin). simpl in Hr. subst r.
    rewrite Forall_forall in Hpre, Hpost.
    apply elem_of_app in Hin as [Hin | Hin]; [by specialize (Hpre _ Hin)|].
    apply elem_of_cons in Hin as [Hin | Hin]; [|by specialize (Hpost _ Hin)].
    injection Hin as _ _ <-.
    destruct (prepare_feature_store _ _ _ Hp) as (props & fs & HP & He & Hc & Hf).
    fold kind in Hc, Hf. rewrite Hkind in Hf.
    unfold checkFeatureStore in Hc. rewrite Hkind in Hc.
    destruct fs as [fs|]; [|done]. eauto 10.
  - intros Hsup Hg Htyped Hi Hsc.
    destruct (prepare_accepts (createId meta d) d Htyped Hi Hsc Hkind Hsup)
      as [w Hp].
    destruct (prepare_feature_store _ _ _ Hp) as (props & fs & HP & He & Hc & Hf).
    fold kind in Hc, Hf. rewrite Hkind in Hf.
    unfold checkFeatureStore in Hc. rewrite Hkind in Hc.
    destruct fs as [fs|]; [|done].
    exists w, props, fs.
    assert (Htr : ∃ before post,
              st_trace run.2
              = st_trace s
                  ++ before ++ (st_clock s, ReqCreateOrUpdate (createId meta d) w)
                  :: post
              ∧ Forall getEvent before ∧ Forall getEvent post).
    { subst run. rewrite (ml_create_unfold meta s Hg). fold d. rewrite Hp.
      match goal with |- context [sendWorkspace meta ?ctx _ w _] =>
        destruct (sendWorkspace_trace meta ctx (createId meta d) w
                    (afterGuard meta s)) as (post & Ht & Hpost) end.
      unfold afterGuard in Ht |- *. fold d in Ht |- *.
      destruct (rd_IsNewResource d); cbn [sent st_trace st_clock] in Ht.
      - exists [(st_clock s, ReqGet (createId meta d))], post.
        rewrite Ht, <- app_assoc. split; [done|]. split; [|done].
        by repeat constructor.
      - exists [], post. rewrite Ht. split; [done|]. split; [constructor | done]. }
    destruct Htr as (before & post & Ht & Hb & Hpost).
    split; [|split; [|done]].
    + rewrite (requestsOf_app _ _ _ Ht), fmap_app, fmap_cons.
      apply elem_of_app. right. by left.
    + unfold numCreates.
      rewrite Ht, !countReq_app, countReq_cons, (gets_are_no_creates before),
        (gets_are_no_creates post) by done.
      simpl. lia.
Qed.
End FeatureStoreValidation.

Section FeatureStoreValidationWitness.
Import MachineLearning.

Lemma feature_store_kind_validation_witness :
  (EqualFold (GetString (st_d mismatchStart) "kind") "Default" = true
   ∧ featureStoreSupplied (st_d mismatchStart) = true)
  ∧ numCreates (sampleCreate freshApi mismatchStart).2 = numCreates mismatchStart
  ∧ EqualFold (GetString (st_d featureStoreStart) "kind") "Default" = false
  ∧ featureStoreSupplied (st_d featureStoreStart) = true
  ∧ guardPasses freshApi featureStoreStart = true
  ∧ blocksTyped (st_d featureStoreStart) = true
  ∧ serverlessAccepted (st_d featureStoreStart) = true
  ∧ numCreates (sampleCreate freshApi featureStoreStart).2
    = S (numCreates featureStoreStart).
Proof.
  assert (H1 : EqualFold (GetString (st_d mismatchStart) "kind") "Default" = true
               ∧ featureStoreSupplied (st_d mismatchStart) = true)
    by (split; vm_compute; reflexivity).
  assert (H2 : EqualFold (GetString (st_d featureStoreStart) "kind") "Default"
               = false) by (vm_compute; reflexivity).
  assert (H3 : featureStoreSupplied (st_d featureStoreStart) = true)
    by (vm_compute; reflexivity).
  assert (H4 : guardPasses freshApi featureStoreStart = true)
    by (vm_compute; reflexivity).
  assert (H5 : blocksTyped (st_d featureStoreStart) = true)
    by (vm_compute; reflexivity).
  assert (H6 : serverlessAccepted (st_d featureStoreStart) = true)
    by (vm_compute; reflexivity).
  split; [exact H1|].
  split; [exact (proj1 (proj1 (@feature_store_kind_validation sampleCollaborators
                                 freshApi mismatchStart) (or_introl H1)))|].
  split; [exact H2|]. split; [exact H3|]. split; [exact H4|].
  split; [exact H5|]. split; [exact H6|].
  destruct (proj2 (proj2 (@feature_store_kind_validation sampleCollaborators
                            freshApi featureStoreStart) H2)
              H3 H4 H5 (ex_intro _ _ eq_refl) H6)
    as (w & props & fs & _ & Hn & _).
  exact Hn.
Defined.
End FeatureStoreValidationWitness.

Section MachineLearningRunWitnesses.
Import MachineLearning.

Lemma serverless_no_public_ip_rejected_witness :
  let s := serverlessStart false noPublicIpBlock [] in
  GetList (st_d s) "serverless_compute" = [Some noPublicIpBlock]
  ∧ noPublicIpBlock !! "public_ip_enabled" = Some (SBool false)
  ∧ customSubnet noPublicIpBlock = false
  ∧ GetBool (st_d s) "public_network_access_enabled" = false
  ∧ (sampleCreate freshApi s).1 = Ret (Some publicIpRequiredError)
  ∧ numCreates (sampleCreate freshApi s).2 = numCreates s.
Proof.
  intros s.
  assert (H1 : GetList (st_d s) "serverless_compute" = [Some noPublicIpBlock])
    by (vm_compute; reflexivity).
  assert (H2 : noPublicIpBlock !! "public_ip_enabled" = Some (SBool false))
    by (vm_compute; reflexivity).
  assert (H3 : customSubnet noPublicIpBlock = false) by (vm_compute; reflexivity).
  assert (H4 : GetBool (st_d s) "public_network_access_enabled" = false)
    by (vm_compute; reflexivity).
  assert (H5 : guardPasses freshApi s = true) by (vm_compute; reflexivity).
  assert (H6 : blocksTyped (st_d s) = true) by (vm_compute; reflexivity).
  split; [exact H1|]. split; [exact H2|]. split; [exact H3|]. split; [exact H4|].
  destruct (@serverless_no_public_ip_rejected sampleCollaborators freshApi s
              noPublicIpBlock [] H1 H2 H3 H4) as (Hn & _ & Hexact).
  split; [|exact Hn].
  exact (Hexact H5 H6 (ex_intro _ _ eq_refl)).
Defined.

Lemma serverless_public_ip_downgrade_rejected_witness :
  let s := serverlessStart true noPublicIpBlock [Some publicIpBlock] in
  GetList (st_d s) "serverless_compute" = [Some noPublicIpBlock]
  ∧ noPublicIpBlock !! "public_ip_enabled" = Some (SBool false)
  ∧ customSubnet noPublicIpBlock = false
  ∧ blockBoolAt (rd_prior (st_d s)) "serverless_compute" 0 "public_ip_enabled"
    = true
  ∧ (sampleCreate freshApi s).1 = Ret (Some publicIpDowngradeError)
  ∧ numCreates (sampleCreate freshApi s).2 = numCreates s.
Proof.
  intros s.
  assert (H1 : GetList (st_d s) "serverless_compute" = [Some noPublicIpBlock])
    by (vm_compute; reflexivity).
  assert (H2 : noPublicIpBlock !! "public_ip_enabled" = Some (SBool false))
    by (vm_compute; reflexivity).
  assert (H3 : customSubnet noPublicIpBlock = false) by (vm_compute; reflexivity).
  assert (H4 : blockBoolAt (rd_prior (st_d s)) "serverless_compute" 0
                 "public_ip_enabled" = true) by (vm_compute; reflexivity).
  assert (H5 : guardPasses freshApi s = true) by (vm_compute; reflexivity).
  assert (H6 : blocksTyped (st_d s) = true) by (vm_compute; reflexivity).
  split; [exact H1|]. split; [exact H2|]. split; [exact H3|]. split; [exact H4|].
  destruct (@serverless_public_ip_downgrade_rejected sampleCollaborators freshApi s
              noPublicIpBlock [] H1 H2 H3 H4) as (Hn & _ & Hexact).
  split; [|exact Hn].
  exact (Hexact H5 H6 (ex_intro _ _ eq_refl)).
Defined.

Lemma workspace_create_identity_error_witness :
  let C := withExpandIdentity (λ _, inr (SdkError "identity")) sampleCollaborators in
  let s := sampleStart false "Default" [] in
  guardPasses freshApi s = true
  ∧ @resourceMachineLearningWorkspaceCreateOrUpdate C freshApi s
    = (Ret (Some (Errorf "expanding `identity`: %+v" [] (SdkError "identity"))),
       s).
Proof.
  intros C s.
  assert (H1 : guardPasses freshApi s = true) by (vm_compute; reflexivity).
  split; [exact H1|].
  exact (@workspace_create_identity_error C freshApi s (SdkError "identity") H1 eq_refl).
Defined.

Lemma workspace_create_failure_keeps_id_witness :
  let meta := scriptedClient operationRejected [] answerNotFound false in
  let s := sampleStart false "Default" [] in
  guardPasses meta s = true
  ∧ (sampleCreate meta s).1
    = Ret (Some (Errorf "creating/updating %s: %+v"
                        [ArgWorkspaceId (createId meta (st_d s))]
                        (SdkError "Conflict")))
  ∧ rd_Id (st_d (sampleCreate meta s).2) = rd_Id (st_d s).
Proof.
  intros meta s.
  assert (H1 : guardPasses meta s = true) by (vm_compute; reflexivity).
  split; [exact H1|].
  destruct (@prepareWorkspace sampleCollaborators (createId meta (st_d s)) (st_d s))
    as [[e|w]| |] eqn:H2;
    try (exfalso; vm_compute in H2; discriminate H2).
  destruct (@workspace_create_failure_keeps_id sampleCollaborators meta s w H1 H2)
    as (Hreq & _ & Hid).
  unfold sampleCreate. rewrite (Hreq (SdkError "Conflict") eq_refl).
  split; [reflexivity | exact Hid].
Defined.

(** A request that is accepted and whose poller fails: the create returns
    the waiting error and the stored id is as before. *)
Example workspace_create_poller_failure :
  (sampleCreate (scriptedClient operationFailing [] answerNotFound false)
                (sampleStart false "Default" [])).1
  = Ret (Some (Errorf "waiting for the creation of %s: %+v"
                      [ArgWorkspaceId sampleWorkspace]
                      (SdkError "polling failed")))
  ∧ rd_Id (st_d (sampleCreate
                   (scriptedClient operationFailing [] answerNotFound false)
                   (sampleStart false "Default" [])).2)
    = sampleID sampleWorkspace.
Proof. vm_compute. done. Qed.

Lemma workspace_create_then_read_witness :
  let s := sampleStart true "Default" [] in
  guardPasses freshApi s = true
  ∧ sampleParse (sampleID (createId freshApi (st_d s)))
    = inl (createId freshApi (st_d s))
  ∧ (sampleCreate freshApi s).1 = Ret None
  ∧ rd_Id (st_d (sampleCreate freshApi s).2) = "".
Proof.
  intros s.
  assert (H1 : guardPasses freshApi s = true) by (vm_compute; reflexivity).
  assert (H2 : sampleParse (sampleID (createId freshApi (st_d s)))
               = inl (createId freshApi (st_d s))) by (vm_compute; reflexivity).
  split; [exact H1|]. split; [exact H2|].
  destruct (@prepareWorkspace sampleCollaborators (createId freshApi (st_d s))
              (st_d s)) as [[e|w]| |] eqn:H3;
    try (exfalso; vm_compute in H3; discriminate H3).
  exact (proj1 (@workspace_create_then_read sampleCollaborators freshApi s w H1 H3
                  eq_refl eq_refl H2) eq_refl).
Defined.

Lemma workspace_read_nil_model_panics_witness :
  let meta := sampleClient answerExists in
  let s := sampleStart false "Default" [] in
  sampleParse (rd_Id (st_d s)) = inl sampleWorkspace
  ∧ (sampleRead meta s).1
    = Panic "invalid memory address or nil pointer dereference".
Proof.
  intros meta s.
  assert (H1 : sampleParse (rd_Id (st_d s)) = inl sampleWorkspace)
    by (vm_compute; reflexivity).
  split; [exact H1|].
  exact (f_equal fst (@workspace_read_nil_model_panics sampleCollaborators meta s
                        sampleWorkspace H1 eq_refl eq_refl)).
Defined.

Lemma workspace_read_nil_properties_panics_witness :
  let meta := scriptedClient operationAccepted [] (answerModel bareWorkspace) false in
  let s := sampleStart false "Default" [] in
  sampleParse (rd_Id (st_d s)) = inl sampleWorkspace
  ∧ (sampleRead meta s).1
    = Panic "invalid memory address or nil pointer dereference".
Proof.
  intros meta s.
  assert (H1 : sampleParse (rd_Id (st_d s)) = inl sampleWorkspace)
    by (vm_compute; reflexivity).
  split; [exact H1|].
  exact (proj1 (@workspace_read_nil_properties_panics sampleCollaborators meta s
                  sampleWorkspace bareWorkspace (VList []) H1 eq_refl eq_refl
                  eq_refl eq_refl eq_refl)).
Defined.

Lemma workspace_read_nil_access_panics_witness :
  let meta := scriptedClient operationAccepted []
                (answerModel (withProperties bareProperties bareWorkspace)) false in
  let s := sampleStart false "Default" [] in
  sampleParse (rd_Id (st_d s)) = inl sampleWorkspace
  ∧ (sampleRead meta s).1
    = Panic "invalid memory address or nil pointer dereference".
Proof.
  intros meta s.
  assert (H1 : sampleParse (rd_Id (st_d s)) = inl sampleWorkspace)
    by (vm_compute; reflexivity).
  split; [exact H1|].
  exact (@workspace_read_nil_access_panics sampleCollaborators meta s
           sampleWorkspace (withProperties bareProperties bareWorkspace)
           bareProperties H1 eq_refl eq_refl eq_refl eq_refl
           (or_introl eq_refl)).
Defined.

Lemma workspace_delete_single_request_witness :
  let meta := scriptedClient operationAccepted [] answerNotFound true in
  let s := sampleStart false "Default" [] in
  sampleParse (rd_Id (st_d s)) = inl sampleWorkspace
  ∧ (sampleDeleteRun meta s).2
    = sent (ReqDelete sampleWorkspace {| ForceToPurge := Some true |}) s
  ∧ (sampleDeleteRun meta s).1 = Ret None.
Proof.
  intros meta s.
  assert (H1 : sampleParse (rd_Id (st_d s)) = inl sampleWorkspace)
    by (vm_compute; reflexivity).
  split; [exact H1|].
  destruct (@workspace_delete_single_request sampleCollaborators meta s
              sampleWorkspace H1) as (Hs & Hr & _).
  split; [exact Hs|]. apply Hr. split; reflexivity.
Defined.
End MachineLearningRunWitnesses.

(** ** What a read makes of the workspace a create sent *)

Section ReadBack.
Import MachineLearning.
Context `{!Collaborators}.
Implicit Types (s : Run).

Lemma prepare_properties id d w :
  prepareWorkspace id d = Ret (inr w) →
  ∃ props,
    Properties w = Some props
    ∧ ApplicationInsights props = Some (GetString d "application_insights_id")
    ∧ KeyVault props = Some (GetString d "key_vault_id")
    ∧ PublicNetworkAccess props
      = Some (if GetBool d "public_network_access_enabled"
              then PublicNetworkAccessEnabled else PublicNetworkAccessDisabled)
    ∧ V1LegacyMode props = Some (GetBool d "v1_legacy_mode_enabled")
    ∧ expandMachineLearningWorkspaceServerlessCompute
        (GetList d "serverless_compute")
      = Ret (ServerlessComputeSettings_ props)
    ∧ expandMachineLearningWorkspaceManagedNetwork (GetList d "managed_network")
      = Ret (ManagedNetwork props).
Proof.
  unfold prepareWorkspace. rewrite network_access_GetBool.
  unfold mbind, Res_bind. intros Hw.
  destruct (expandMachineLearningWorkspaceIdentity _); [|done].
  destruct (expandMachineLearningWorkspaceEncryption _); try done.
  destruct (expandMachineLearningWorkspaceManagedNetwork _); try done.
  destruct (expandMachineLearningWorkspaceServerlessCompute _); try done.
  destruct (checkServerlessCompute _ _ _) as [[e|]| |]; try done.
  destruct (expandMachineLearningWorkspaceFeatureStore _) as [fs| |]; try done.
  destruct (checkFeatureStore _ fs) eqn:Hc; [done|].
  injection Hw as <-. eexists. by repeat split.
Qed.

(** X15 (properties read back). Let a create prepare a workspace, and let the
    application insights id and the key vault id of the configuration
    parse. Storing the properties of that workspace, as a read does, returns
    no error and leaves public_network_access_enabled and
    v1_legacy_mode_enabled as configured, the two ids as the parsers format
    them, and serverless_compute and managed_network as the flattening of
    what the configuration expands to. *)
Theorem workspace_properties_read_back (id : WorkspaceId) (d : ResourceData)
    (w : Workspace) (appInsightsId keyVaultId : string) s :
  prepareWorkspace id d = Ret (inr w) →
  ParseComponentIDInsensitively (GetString d "application_insights_id")
  = inl appInsightsId →
  ParseKeyVaultIDInsensitively (GetString d "key_vault_id") = inl keyVaultId →
  ∃ props serverlessCompute managedNetwork,
    Properties w = Some props
    ∧ expandMachineLearningWorkspaceServerlessCompute
        (GetList d "serverless_compute") = Ret serverlessCompute
    ∧ expandMachineLearningWorkspaceManagedNetwork
        (GetList d "managed_network") = Ret managedNetwork
    ∧ (readProperties props s).1 = Ret None
    ∧ let attrs := rd_attrs (st_d (readProperties props s).2) in
      attrs !! "public_network_access_enabled"
        = Some (VBool (GetBool d "public_network_access_enabled"))
      ∧ attrs !! "v1_legacy_mode_enabled"
        = Some (VBool (GetBool d "v1_legacy_mode_enabled"))
      ∧ attrs !! "application_insights_id" = Some (VString appInsightsId)
      ∧ attrs !! "key_vault_id" = Some (VString keyVaultId)
      ∧ attrs !! "serverless_compute"
        = Some (VList (flattenMachineLearningWorkspaceServerlessCompute
                         serverlessCompute))
      ∧ attrs !! "managed_network"
        = Some (VList (flattenMachineLearningWorkspaceManagedNetwork
                         managedNetwork)).
Proof.
  intros Hw Hai Hkv.
  destruct (prepare_properties id d w Hw)
    as (props & HP & Hpai & Hpkv & Hacc & Hv1 & Hsc & Hmn).
  exists props, (ServerlessComputeSettings_ props), (ManagedNetwork props).
  split; [exact HP|]. split; [exact Hsc|]. split; [exact Hmn|].
  assert (Heq : String.eqb (if GetBool d "public_network_access_enabled"
                            then PublicNetworkAccessEnabled
                            else PublicNetworkAccessDisabled)
                           PublicNetworkAccessEnabled
                = GetBool d "public_network_access_enabled").
  { by destruct (GetBool d "public_network_access_enabled"). }
  unfold readProperties. rewrite Hpai, Hai. cbv beta iota.
  repeat (rewrite bind_modifyData; cbv beta).
  rewrite bind_liftRes, Hacc. cbn [deref]. rewrite Heq.
  repeat (rewrite bind_modifyData; cbv beta).
  rewrite bind_liftRes, Hpkv. cbn [deref]. rewrite Hkv, Hv1.
  rewrite bind_modifyData. cbv beta.
  destruct FourPointOhBeta; cbn [negb];
    [rewrite bind_ret | rewrite bind_modifyData];
    cbn [withData fst snd st_d st_clock st_trace rd_attrs Set_ ofBoolPtr mret M_ret];
    (split; [reflexivity|]); repeat split; by simplify_map_eq.
Qed.
End ReadBack.

Section ReadBackWitness.
Import MachineLearning.

Lemma workspace_properties_read_back_witness :
  let s := sampleStart false "Default" [] in
  ∃ w props,
    @prepareWorkspace sampleCollaborators sampleWorkspace (st_d s) = Ret (inr w)
    ∧ Properties w = Some props
    ∧ (@readProperties sampleCollaborators props s).1 = Ret None
    ∧ rd_attrs (st_d (@readProperties sampleCollaborators props s).2)
        !! "public_network_access_enabled" = Some (VBool true).
Proof.
  intros s.
  destruct (@prepareWorkspace sampleCollaborators sampleWorkspace (st_d s))
    as [[e|w]| |] eqn:H1;
    try (exfalso; vm_compute in H1; discriminate H1).
  destruct (@workspace_properties_read_back sampleCollaborators sampleWorkspace
              (st_d s) w _ _ s H1 eq_refl eq_refl)
    as (props & sc & mn & HP & _ & _ & Hr & Hacc & _).
  exists w, props. split; [reflexivity|]. split; [exact HP|].
  split; [exact Hr | exact Hacc].
Defined.
End ReadBackWitness.

(** ** Expanding and flattening the other blocks *)

Section BlockRoundTrips.
Import MachineLearning.
Context `{!Collaborators}.
Implicit Types (raw v : gmap string Scalar) (rest : list (option (gmap string Scalar))).

Lemma non_empty_or_empty (x : string) :
  (if negb (isEmpty x) then x else "") = x.
Proof. unfold isEmpty. by destruct (String.eqb_spec x "") as [->|]. Qed.

Lemma pointer_of_non_empty (x : string) :
  match (if negb (isEmpty x) then Some x else None) with
  | Some y => y
  | None => ""
  end = x.
Proof. unfold isEmpty. by destruct (String.eqb_spec x "") as [->|]. Qed.

(** X1 (feature store round trip). For a feature_store block that holds its
    three strings, expandMachineLearningWorkspaceFeatureStore returns
    settings in which every empty string has become a nil pointer (no
    compute runtime at all for an empty Spark version), and
    flattenMachineLearningWorkspaceFeatureStore of these settings gives back
    one block with the same three strings, the empty ones included. *)
Theorem feature_store_roundtrip raw rest (spark offline online : string) :
  raw !! "computer_spark_runtime_version" = Some (SString spark) →
  raw !! "offline_connection_name" = Some (SString offline) →
  raw !! "online_connection_name" = Some (SString online) →
  ∃ settings,
    expandMachineLearningWorkspaceFeatureStore (Some raw :: rest)
      = Ret (Some settings)
    ∧ (ComputeRuntime settings = None ↔ spark = "")
    ∧ (OfflineStoreConnectionName settings = None ↔ offline = "")
    ∧ (OnlineStoreConnectionName settings = None ↔ online = "")
    ∧ flattenMachineLearningWorkspaceFeatureStore (Some settings)
      = [Some (featureStoreBlock spark offline online)].
Proof.
  intros Hs Hoff Hon. unfold expandMachineLearningWorkspaceFeatureStore.
  rewrite Hs, Hoff, Hon. cbn [assertString mbind Res_bind].
  eexists. split; [reflexivity|].
  cbn [ComputeRuntime OfflineStoreConnectionName OnlineStoreConnectionName].
  repeat split;
    try (unfold isEmpty;
         match goal with |- context [String.eqb ?x ""] =>
           destruct (String.eqb_spec x "") end; cbn [negb]; congruence).
  unfold flattenMachineLearningWorkspaceFeatureStore, featureStoreBlock.
  cbn [ComputeRuntime OfflineStoreConnectionName OnlineStoreConnectionName].
  rewrite !pointer_of_non_empty.
  replace (match (if negb (isEmpty spark)
                  then Some {| SparkRuntimeVersion := Some spark |} else None) with
           | Some rt => match SparkRuntimeVersion rt with Some v => v | None => "" end
           | None => ""
           end) with spark; [done|].
  unfold isEmpty. by destruct (String.eqb_spec spark "") as [->|].
Qed.

(** X2 (managed network, there and back). For a managed_network block that
    holds a string isolation_mode, the expanded settings carry that mode.
    Flattening them gives one block that holds isolation_mode, with the
    same characters, at the named type workspaces.IsolationMode and not as
    a string; so what the flattening returns is no input of the expansion:
    expanding it panics on the assertion to string. *)
Theorem managed_network_roundtrip v rest (mode : string) :
  v !! "isolation_mode" = Some (SString mode) →
  ∃ settings,
    expandMachineLearningWorkspaceManagedNetwork (Some v :: rest)
      = Ret (Some settings)
    ∧ IsolationMode settings = Some mode
    ∧ flattenMachineLearningWorkspaceManagedNetwork (Some settings)
      = [Some {[ "isolation_mode" := SIsolationMode mode ]}]
    ∧ ∃ msg,
        expandMachineLearningWorkspaceManagedNetwork
          (flattenMachineLearningWorkspaceManagedNetwork (Some settings))
        = Panic msg.
Proof.
  intros Hm. unfold expandMachineLearningWorkspaceManagedNetwork at 1.
  rewrite Hm. cbn [assertString mbind Res_bind].
  eexists. split; [reflexivity|]. split; [reflexivity|].
  unfold flattenMachineLearningWorkspaceManagedNetwork. cbn [IsolationMode].
  rewrite insert_empty. split; [reflexivity|].
  unfold expandMachineLearningWorkspaceManagedNetwork.
  rewrite lookup_singleton_eq. cbn [assertString mbind Res_bind]. eauto.
Qed.

(** X3 (encryption round trip). For an encryption block that holds its three
    strings, the expanded property has the status Enabled, and flattening it
    gives back key_vault_id and key_id as they were. The user assigned
    identity id comes back empty when it was empty, and the parser is not
    consulted; otherwise it comes back as the parser formats it, and a
    parser error is returned wrapped with the id. *)
Theorem encryption_roundtrip raw rest (keyVaultId keyId uai : string) :
  raw !! "key_vault_id" = Some (SString keyVaultId) →
  raw !! "key_id" = Some (SString keyId) →
  raw !! "user_assigned_identity_id" = Some (SString uai) →
  ∃ enc,
    expandMachineLearningWorkspaceEncryption (Some raw :: rest) = Ret (Some enc)
    ∧ Status enc = EncryptionStatusEnabled
    ∧ flattenMachineLearningWorkspaceEncryption (Some enc)
      = if isEmpty uai then inl [Some (encryptionBlock "" keyVaultId keyId)]
        else match ParseUserAssignedIdentityIDInsensitively uai with
             | inl parsed => inl [Some (encryptionBlock parsed keyVaultId keyId)]
             | inr err =>
                 inr (Errorf "parsing userAssignedIdentityId %q: %+v"
                             [ArgString uai] err)
             end.
Proof.
  intros Hkv Hk Hu. unfold expandMachineLearningWorkspaceEncryption.
  rewrite Hkv, Hk, Hu. cbn [assertString mbind Res_bind].
  eexists. split; [reflexivity|]. split; [reflexivity|].
  unfold flattenMachineLearningWorkspaceEncryption, encryptionBlock.
  cbn [Status enc_Identity KeyVaultProperties KeyVaultArmId KeyIdentifier
       UserAssignedIdentity].
  replace (negb (String.eqb EncryptionStatusEnabled EncryptionStatusEnabled))
    with false by done.
  cbn iota. rewrite !non_empty_or_empty.
  destruct (isEmpty uai); cbn [negb]; [done|].
  by destruct (ParseUserAssignedIdentityIDInsensitively uai).
Qed.

(** X4 (no block). A list that is empty, or whose first element is nil,
    expands to nil in each of the four expanders, and flattening that gives
    the empty list: a list that holds a nil block does not come back. *)
Theorem no_block_expands_to_nil (l : list (option (gmap string Scalar))) :
  noBlock l = true →
  (expandMachineLearningWorkspaceEncryption l = Ret None
   ∧ expandMachineLearningWorkspaceFeatureStore l = Ret None
   ∧ expandMachineLearningWorkspaceManagedNetwork l = Ret None
   ∧ expandMachineLearningWorkspaceServerlessCompute l = Ret None)
  ∧ (x ← expandMachineLearningWorkspaceEncryption l;
     Ret (flattenMachineLearningWorkspaceEncryption x)) = Ret (inl [])
  ∧ (x ← expandMachineLearningWorkspaceFeatureStore l;
     Ret (flattenMachineLearningWorkspaceFeatureStore x)) = Ret []
  ∧ (x ← expandMachineLearningWorkspaceManagedNetwork l;
     Ret (flattenMachineLearningWorkspaceManagedNetwork x)) = Ret []
  ∧ (x ← expandMachineLearningWorkspaceServerlessCompute l;
     Ret (flattenMachineLearningWorkspaceServerlessCompute x)) = Ret [].
Proof.
  intros Hl. destruct l as [|[raw|] rest]; [|discriminate Hl|]; by repeat split.
Qed.

(** X5 (untyped blocks). Each expander panics exactly when the first block
    lacks one of the keys that it reads with a type assertion, or holds it
    at another type: the three strings of encryption, the three strings of
    feature_store, isolation_mode of managed_network, and public_ip_enabled
    alone of serverless_compute. *)
Theorem expanders_panic_on_untyped_blocks
    (l : list (option (gmap string Scalar))) :
  ((∃ msg, expandMachineLearningWorkspaceEncryption l = Panic msg)
   ↔ firstBlock (λ b, hasString "key_vault_id" b && hasString "key_id" b
                      && hasString "user_assigned_identity_id" b) l = false)
  ∧ ((∃ msg, expandMachineLearningWorkspaceFeatureStore l = Panic msg)
     ↔ firstBlock (λ b, hasString "computer_spark_runtime_version" b
                        && hasString "offline_connection_name" b
                        && hasString "online_connection_name" b) l = false)
  ∧ ((∃ msg, expandMachineLearningWorkspaceManagedNetwork l = Panic msg)
     ↔ firstBlock (hasString "isolation_mode") l = false)
  ∧ ((∃ msg, expandMachineLearningWorkspaceServerlessCompute l = Panic msg)
     ↔ firstBlock (hasBool "public_ip_enabled") l = false).
Proof.
  destruct l as [|[raw|] rest];
    [repeat split; first [by intros [? ?] | done] |
    | repeat split; first [by intros [? ?] | done]].
  unfold firstBlock, hasString, hasBool.
  repeat split.
  - unfold expandMachineLearningWorkspaceEncryption, mbind, Res_bind, assertString.
    intros [msg Hp]. revert Hp.
    destruct (raw !! "key_vault_id") as [[]|]; try done;
    destruct (raw !! "key_id") as [[]|]; try done;
    destruct (raw !! "user_assigned_identity_id") as [[]|]; done.
  - unfold expandMachineLearningWorkspaceEncryption, mbind, Res_bind, assertString.
    destruct (raw !! "key_vault_id") as [[]|]; eauto;
    destruct (raw !! "key_id") as [[]|]; eauto;
    destruct (raw !! "user_assigned_identity_id") as [[]|]; eauto; done.
  - unfold expandMachineLearningWorkspaceFeatureStore, mbind, Res_bind, assertString.
    intros [msg Hp]. revert Hp.
    destruct (raw !! "computer_spark_runtime_version") as [[]|]; try done;
    destruct (raw !! "offline_connection_name") as [[]|]; try done;
    destruct (raw !! "online_connection_name") as [[]|]; done.
  - unfold expandMachineLearningWorkspaceFeatureStore, mbind, Res_bind, assertString.
    destruct (raw !! "computer_spark_runtime_version") as [[]|]; eauto;
    destruct (raw !! "offline_connection_name") as [[]|]; eauto;
    destruct (raw !! "online_connection_name") as [[]|]; eauto; done.
  - unfold expandMachineLearningWorkspaceManagedNetwork, mbind, Res_bind, assertString.
    intros [msg Hp]. revert Hp.
    destruct (raw !! "isolation_mode") as [[]|]; done.
  - unfold expandMachineLearningWorkspaceManagedNetwork, mbind, Res_bind, assertString.
    destruct (raw !! "isolation_mode") as [[]|]; eauto; done.
  - unfold expandMachineLearningWorkspaceServerlessCompute, mbind, Res_bind, assertBool.
    intros [msg Hp]. revert Hp.
    destruct (raw !! "public_ip_enabled") as [[]|]; try done;
    destruct (tryString (raw !! "subnet_id")) as [subnet ok];
    destruct (ok && negb (isEmpty subnet)); done.
  - unfold expandMachineLearningWorkspaceServerlessCompute, mbind, Res_bind, assertBool.
    destruct (raw !! "public_ip_enabled") as [[]|]; eauto; done.
Qed.

(** X6 (custom subnet). A serverless_compute block with a boolean
    public_ip_enabled always expands, whatever it holds at subnet_id: the
    settings carry a custom subnet exactly when subnet_id is a string that
    is not empty, and that string is the subnet. *)
Theorem serverless_custom_subnet v rest (b : bool) :
  v !! "public_ip_enabled" = Some (SBool b) →
  ∃ settings,
    expandMachineLearningWorkspaceServerlessCompute (Some v :: rest)
      = Ret (Some settings)
    ∧ ServerlessComputeNoPublicIP settings = Some (negb b)
    ∧ ∀ subnet,
        ServerlessComputeCustomSubnet settings = Some subnet
        ↔ v !! "subnet_id" = Some (SString subnet) ∧ subnet ≠ "".
Proof.
  intros Hb. unfold expandMachineLearningWorkspaceServerlessCompute.
  rewrite Hb. cbn [assertBool mbind Res_bind]. unfold tryString, isEmpty.
  destruct (v !! "subnet_id") as [[| |sub|]|]; cbn [andb];
    try (eexists; split; [reflexivity|]; split; [reflexivity|];
         intros subnet; split; [done | by intros [? _]]).
  destruct (String.eqb_spec sub "") as [->|Hne]; cbn [negb];
    (eexists; split; [reflexivity|]; split; [reflexivity|]);
    intros subnet; cbn [ServerlessComputeCustomSubnet].
  - split; [done|]. by intros [[= <-] ?].
  - split; [by intros [= <-] | by intros [[= <-] _]].
Qed.

(** X7 (identity expansion). expandMachineLearningWorkspaceIdentity passes
    on the error of identity.ExpandSystemAndUserAssignedMap; otherwise it
    keeps the type and the keys of the user assigned identities, replaces
    the details of each by empty ones, and leaves the map nil, never empty,
    when there is no user assigned identity. *)
Theorem expand_identity_keeps_keys (input : list (option (gmap string Scalar))) :
  match ExpandSystemAndUserAssignedMap input with
  | inr err => expandMachineLearningWorkspaceIdentity input = inr err
  | inl expanded =>
      ∃ out,
        expandMachineLearningWorkspaceIdentity input = inl out
        ∧ id_Type out = id_Type expanded
        ∧ id_IdentityIds out ≠ Some ∅
        ∧ ∀ k, id_IdentityIds out ≫= (.!! k)
               = (λ _, {| ClientId := None; PrincipalId := None |})
                 <$> (id_IdentityIds expanded ≫= (.!! k))
  end.
Proof.
  unfold expandMachineLearningWorkspaceIdentity.
  destruct (ExpandSystemAndUserAssignedMap input) as [expanded|err]; [|done].
  eexists. split; [reflexivity|]. split; [reflexivity|].
  cbn [id_IdentityIds].
  destruct (id_IdentityIds expanded) as [ids|]; unfold default, from_option, id.
  - destruct (decide (ids = ∅)) as [->|Hne].
    + rewrite map_size_empty. cbn. split; [done|]. intros k. by rewrite lookup_empty.
    + assert (0 < size ids)%nat as Hs.
      { destruct (size ids) eqn:E; [by apply map_size_empty_inv in E | lia]. }
      apply Nat.ltb_lt in Hs. rewrite Hs. split.
      * intros [= Hm]. apply fmap_empty_inv in Hm. done.
      * intros k. cbn. by rewrite lookup_fmap.
  - rewrite map_size_empty. cbn. done.
Qed.

(** X8 (identity flattening). flattenMachineLearningWorkspaceIdentity does
    not tell the type spelled without a space after the comma from the one
    spelled with it, nor a nil map of user assigned identities from an empty
    one. *)
Theorem flatten_identity_spellings
    (ids : option (gmap string UserAssignedIdentityDetails))
    (principal tenant type : string) :
  flattenMachineLearningWorkspaceIdentity
    (Some (identityOf "SystemAssigned,UserAssigned" ids principal tenant))
  = flattenMachineLearningWorkspaceIdentity
      (Some (identityOf TypeSystemAssignedUserAssigned ids principal tenant))
  ∧ flattenMachineLearningWorkspaceIdentity
      (Some (identityOf type None principal tenant))
    = flattenMachineLearningWorkspaceIdentity
        (Some (identityOf type (Some ∅) principal tenant)).
Proof.
  unfold flattenMachineLearningWorkspaceIdentity, identityOf.
  cbn [id_Type id_PrincipalId id_TenantId id_IdentityIds].
  split; [done|]. by rewrite fmap_empty.
Qed.

End BlockRoundTrips.

Section BlockWitnesses.
Import MachineLearning.

Lemma feature_store_roundtrip_witness :
  sampleFeatureStoreBlock !! "computer_spark_runtime_version" = Some (SString "3.3")
  ∧ sampleFeatureStoreBlock !! "offline_connection_name" = Some (SString "offline")
  ∧ sampleFeatureStoreBlock !! "online_connection_name" = Some (SString "")
  ∧ ∃ settings,
      expandMachineLearningWorkspaceFeatureStore [Some sampleFeatureStoreBlock]
        = Ret (Some settings)
      ∧ flattenMachineLearningWorkspaceFeatureStore (Some settings)
        = [Some (featureStoreBlock "3.3" "offline" "")].
Proof.
  assert (H1 : sampleFeatureStoreBlock !! "computer_spark_runtime_version"
               = Some (SString "3.3")) by (vm_compute; reflexivity).
  assert (H2 : sampleFeatureStoreBlock !! "offline_connection_name"
               = Some (SString "offline")) by (vm_compute; reflexivity).
  assert (H3 : sampleFeatureStoreBlock !! "online_connection_name"
               = Some (SString "")) by (vm_compute; reflexivity).
  split; [exact H1|]. split; [exact H2|]. split; [exact H3|].
  destruct (feature_store_roundtrip sampleFeatureStoreBlock [] _ _ _ H1 H2 H3)
    as (settings & He & _ & _ & _ & Hf).
  exists settings. split; [exact He | exact Hf].
Defined.

Lemma managed_network_roundtrip_witness :
  sampleManagedNetworkBlock !! "isolation_mode"
  = Some (SString "AllowInternetOutbound")
  ∧ ∃ settings,
      expandMachineLearningWorkspaceManagedNetwork [Some sampleManagedNetworkBlock]
        = Ret (Some settings)
      ∧ flattenMachineLearningWorkspaceManagedNetwork (Some settings)
        = [Some {[ "isolation_mode" := SIsolationMode "AllowInternetOutbound" ]}].
Proof.
  assert (H1 : sampleManagedNetworkBlock !! "isolation_mode"
               = Some (SString "AllowInternetOutbound"))
    by (vm_compute; reflexivity).
  split; [exact H1|].
  destruct (managed_network_roundtrip sampleManagedNetworkBlock [] _ H1)
    as (settings & He & _ & Hf & _).
  exists settings. split; [exact He | exact Hf].
Defined.

Lemma encryption_roundtrip_witness :
  sampleEncryptionBlock !! "key_vault_id"
  = Some (SString "/subscriptions/sub/resourceGroups/rg/providers/Microsoft.KeyVault/vaults/kv")
  ∧ sampleEncryptionBlock !! "key_id"
    = Some (SString "https://kv.vault.azure.net/keys/key/1")
  ∧ sampleEncryptionBlock !! "user_assigned_identity_id" = Some (SString "")
  ∧ ∃ enc,
      expandMachineLearningWorkspaceEncryption [Some sampleEncryptionBlock]
        = Ret (Some enc)
      ∧ @flattenMachineLearningWorkspaceEncryption sampleCollaborators (Some enc)
        = inl [Some (encryptionBlock ""
                 "/subscriptions/sub/resourceGroups/rg/providers/Microsoft.KeyVault/vaults/kv"
                 "https://kv.vault.azure.net/keys/key/1")].
Proof.
  assert (H1 : sampleEncryptionBlock !! "key_vault_id"
    = Some (SString "/subscriptions/sub/resourceGroups/rg/providers/Microsoft.KeyVault/vaults/kv"))
    by (vm_compute; reflexivity).
  assert (H2 : sampleEncryptionBlock !! "key_id"
    = Some (SString "https://kv.vault.azure.net/keys/key/1"))
    by (vm_compute; reflexivity).
  assert (H3 : sampleEncryptionBlock !! "user_assigned_identity_id"
               = Some (SString "")) by (vm_compute; reflexivity).
  split; [exact H1|]. split; [exact H2|]. split; [exact H3|].
  destruct (@encryption_roundtrip sampleCollaborators sampleEncryptionBlock []
              _ _ _ H1 H2 H3) as (enc & He & _ & Hf).
  exists enc. split; [exact He | exact Hf].
Defined.

Lemma no_block_expands_to_nil_witness :
  noBlock [None] = true
  ∧ (x ← expandMachineLearningWorkspaceFeatureStore [None];
     Ret (flattenMachineLearningWorkspaceFeatureStore x)) = Ret [].
Proof.
  assert (H1 : noBlock [None] = true) by reflexivity.
  split; [exact H1|].
  exact (proj1 (proj2 (proj2 (@no_block_expands_to_nil sampleCollaborators
                                 [None] H1)))).
Defined.

Lemma serverless_custom_subnet_witness :
  sampleServerlessBlock !! "public_ip_enabled" = Some (SBool true)
  ∧ ∃ settings,
      expandMachineLearningWorkspaceServerlessCompute [Some sampleServerlessBlock]
        = Ret (Some settings)
      ∧ ServerlessComputeNoPublicIP settings = Some false.
Proof.
  assert (H1 : sampleServerlessBlock !! "public_ip_enabled" = Some (SBool true))
    by (vm_compute; reflexivity).
  split; [exact H1|].
  destruct (serverless_custom_subnet sampleServerlessBlock [] true H1)
    as (settings & He & Hip & _).
  exists settings. split; [exact He | exact Hip].
Defined.

(** An identity with a user assigned identity: the expansion keeps its key
    and drops its details. *)
Example expand_identity_sample :
  @expandMachineLearningWorkspaceIdentity
     (withExpandIdentity (λ _, inl sampleIdentity) sampleCollaborators) []
  = inl (identityOf "SystemAssigned, UserAssigned"
           (Some {[ "uai" := {| ClientId := None; PrincipalId := None |} ]})
           "" "").
Proof. vm_compute. reflexivity. Qed.
End BlockWitnesses.

(** ** Runs of the Relay namespace *)

Section RelayRuns.
Import Relay.
Context `{!Collaborators}.
Implicit Types (s : Run).

Ltac sends_walk :=
  lazymatch goal with
  | |- sendsOnly _ (mbind _ _) => apply sendsOnly_bind; [|intros ?]
  | |- sendsOnly _ (match ?x with _ => _ end) => destruct x
  | |- sendsOnly _ _ => solve [auto with sends]
  end.

Lemma relay_bind_deriveContext {B} f parent (k : Context → M Run B) s :
  (deriveContext f parent ≫= k) s = k (f parent (st_d s) (st_clock s)) s.
Proof. reflexivity. Qed.

Lemma relay_requestsOf_app s run (added : list (Time * Request)) :
  st_trace run = st_trace s ++ added → requestsOf s run = snd <$> added.
Proof.
  intros Ht. unfold requestsOf. rewrite Ht. by rewrite drop_app_length.
Qed.

Lemma relay_counts_sent_get id s :
  numGets (sent (ReqGet id) s) = S (numGets s)
  ∧ numCreates (sent (ReqGet id) s) = numCreates s
  ∧ numListKeys (sent (ReqGet id) s) = numListKeys s.
Proof.
  unfold numGets, numCreates, numListKeys, sent; simpl.
  rewrite !countReq_snoc; simpl. lia.
Qed.

Lemma relay_counts_sent_create id p s :
  numGets (sent (ReqCreateOrUpdateThenPoll id p) s) = numGets s
  ∧ numCreates (sent (ReqCreateOrUpdateThenPoll id p) s) = S (numCreates s).
Proof.
  unfold numGets, numCreates, sent; simpl. rewrite !countReq_snoc; simpl. lia.
Qed.

Lemma relay_counts_afterGuard meta s :
  numCreates (afterGuard meta s) = numCreates s
  ∧ st_d (afterGuard meta s) = st_d s
  ∧ numGets (afterGuard meta s)
    = (numGets s + (if rd_IsNewResource (st_d s) then 1 else 0))%nat.
Proof.
  unfold afterGuard. destruct (rd_IsNewResource (st_d s)).
  - destruct (relay_counts_sent_get (createId meta (st_d s)) s) as (-> & -> & _).
    repeat split; lia.
  - repeat split; lia.
Qed.

(** A read whose Get succeeds lists the keys of the root rule; what follows
    only writes attributes. *)
Lemma relay_read_unfold meta s id :
  let c := Relay_NamespacesClient meta in
  let a := onGet c (numGets s) in
  let k := onListKeys c (numListKeys s) in
  let s2 := sent (ReqListKeys (rootRule id)) (sent (ReqGet id) s) in
  let run := resourceRelayNamespaceRead meta s in
  ParseNamespaceID (rd_Id (st_d s)) = inl id →
  a.2 = None →
  st_trace run.2 = st_trace s2
  ∧ (∀ e, k.2 = Some e →
       run = (Ret (Some (Errorf "listing keys for %s: %+v" [ArgNamespaceId id] e)),
              s2)).
Proof.
  intros c a k s2 run Hid Ha. subst run.
  unfold resourceRelayNamespaceRead.
  rewrite relay_bind_deriveContext, bind_getData, Hid.
  unfold client_Get. rewrite bind_send. fold c. fold (numGets s). fold a.
  fold (sent (ReqGet id) s).
  destruct a as [resp [e|]]; cbn [fst snd] in *; [done|].
  unfold client_ListKeys. rewrite bind_send. fold (rootRule id).
  fold (numListKeys (sent (ReqGet id) s)).
  destruct (relay_counts_sent_get id s) as (_ & _ & ->). fold c k.
  fold (sent (ReqListKeys (rootRule id)) (sent (ReqGet id) s)). fold s2.
  destruct k as [keysResp [e|]]; cbn [fst snd].
  - split; [done|]. by intros e' [= ->].
  - split; [|done].
    match goal with |- st_trace (?m s2).2 = _ =>
      rewrite (sendsOnly_nothing m) end; [done|].
    repeat sends_walk.
Qed.

(** X21 (requests of a read). A read of a namespace sends nothing for a
    stored id that does not parse; otherwise it sends one Get of the parsed
    id, followed, exactly when the Get succeeds, by one ListKeys of the rule
    RootManageSharedAccessKey of that namespace. *)
Theorem relay_read_requests meta s :
  let run := resourceRelayNamespaceRead meta s in
  requestsOf s run.2
  = match ParseNamespaceID (rd_Id (st_d s)) with
    | inl id =>
        if reportsExists (onGet (Relay_NamespacesClient meta) (numGets s))
        then [ReqGet id; ReqListKeys (rootRule id)]
        else [ReqGet id]
    | inr _ => []
    end.
Proof.
  intros run.
  destruct (ParseNamespaceID (rd_Id (st_d s))) as [id|err] eqn:Hid.
  2:{ subst run. unfold resourceRelayNamespaceRead.
      rewrite relay_bind_deriveContext, bind_getData, Hid.
      apply (relay_requestsOf_app s _ []). cbn. by rewrite app_nil_r. }
  unfold reportsExists.
  destruct (onGet (Relay_NamespacesClient meta) (numGets s)) as [resp [e|]] eqn:Ha;
    cbn [snd].
  - destruct (relay_read_failed_get meta s id Hid) as [Hnf Hfail].
    rewrite Ha in Hnf, Hfail. unfold reportsNotFound, reportsFailure in *.
    cbn [fst snd] in *. fold run in Hnf, Hfail.
    apply (relay_requestsOf_app s _ [(st_clock s, ReqGet id)]).
    destruct (WasNotFound (get_HttpResponse resp)).
    + by destruct (Hnf eq_refl) as (_ & _ & ->).
    + destruct (Hfail eq_refl) as (e' & _ & ->). done.
  - destruct (relay_read_unfold meta s id Hid) as [Ht _]; [by rewrite Ha|].
    fold run in Ht.
    apply (relay_requestsOf_app s _
             [(st_clock s, ReqGet id); (st_clock s, ReqListKeys (rootRule id))]).
    rewrite Ht. cbn [sent st_trace st_clock]. by rewrite <- app_assoc.
Qed.

(** X22 (keys that cannot be listed). When the Get of a read succeeds and
    ListKeys fails, the read returns the cause wrapped as the listing-keys
    error with the identity, after these two requests and without any
    change to the resource data. *)
Theorem relay_read_list_keys_failure meta s (id : NamespaceId) (e : error) :
  let c := Relay_NamespacesClient meta in
  let run := resourceRelayNamespaceRead meta s in
  ParseNamespaceID (rd_Id (st_d s)) = inl id →
  (onGet c (numGets s)).2 = None →
  (onListKeys c (numListKeys s)).2 = Some e →
  run = (Ret (Some (Errorf "listing keys for %s: %+v" [ArgNamespaceId id] e)),
         sent (ReqListKeys (rootRule id)) (sent (ReqGet id) s)).
Proof.
  intros c run Hid Ha Hk.
  by destruct (relay_read_unfold meta s id Hid Ha) as [_ Hfail]; apply Hfail.
Qed.

(** X23 (response without model). When the Get and ListKeys of a read succeed
    and the Get response carries no model, the read returns nil: it keeps
    the stored id, stores name and resource_group_name from the id, leaves
    location, sku_name, metric_id and tags as they were, and stores the four
    keys of the ListKeys model, or leaves them as they were when that model
    is missing. *)
Theorem relay_read_without_model meta s (id : NamespaceId) :
  let c := Relay_NamespacesClient meta in
  let a := onGet c (numGets s) in
  let k := onListKeys c (numListKeys s) in
  let run := resourceRelayNamespaceRead meta s in
  ParseNamespaceID (rd_Id (st_d s)) = inl id →
  a.2 = None →
  get_Model a.1 = None →
  k.2 = None →
  run.1 = Ret None
  ∧ rd_Id (st_d run.2) = rd_Id (st_d s)
  ∧ GetString (st_d run.2) "name" = ns_Name id
  ∧ GetString (st_d run.2) "resource_group_name" = ns_ResourceGroup id
  ∧ (∀ key, key ∈ modelAttributes →
       rd_attrs (st_d run.2) !! key = rd_attrs (st_d s) !! key)
  ∧ match keys_Model k.1 with
    | Some keys =>
        rd_attrs (st_d run.2) !! "primary_connection_string"
          = Some (ofStringPtr (PrimaryConnectionString keys))
        ∧ rd_attrs (st_d run.2) !! "primary_key"
          = Some (ofStringPtr (PrimaryKey keys))
        ∧ rd_attrs (st_d run.2) !! "secondary_connection_string"
          = Some (ofStringPtr (SecondaryConnectionString keys))
        ∧ rd_attrs (st_d run.2) !! "secondary_key"
          = Some (ofStringPtr (SecondaryKey keys))
    | None =>
        ∀ key, key ∈ keyAttributes →
          rd_attrs (st_d run.2) !! key = rd_attrs (st_d s) !! key
    end.
Proof.
  intros c a k run Hid Ha Hm Hk. subst run.
  cbv beta iota delta
    [resourceRelayNamespaceRead deriveContext getData now client_Get
     client_ListKeys send mbind M_bind mret M_ret modifyData].
  cbn [st_d st_clock st_trace]. rewrite Hid. fold c. fold (numGets s). fold a.
  destruct a as [resp [e|]]; cbn [fst snd] in *; [done|].
  cbn [st_d st_clock st_trace]. rewrite countReq_snoc. cbn [snd isListKeys]. rewrite Nat.add_0_r.
  fold (numListKeys s). fold k.
  destruct k as [keysResp [e|]]; cbn [fst snd] in *; [done|].
  rewrite Hm. cbn [st_d st_clock st_trace fst snd].
  unfold modelAttributes, keyAttributes, GetString.
  destruct (keys_Model keysResp) as [keys|];
    cbn [st_d st_clock st_trace fst snd rd_attrs rd_Id Set_];
    repeat split;
    try (intros key Hin;
         repeat (apply elem_of_cons in Hin as [-> | Hin]);
         [.. | by apply elem_of_nil in Hin]);
    by simplify_map_eq.
Qed.


(** *** Create and update *)

(** A create or update whose guard passes sends the namespace, and reads it
    back once the request is accepted. *)
Lemma relay_create_unfold meta s :
  let d := st_d s in
  let id := createId meta d in
  let s2 := sent (ReqCreateOrUpdateThenPoll id (createParameters d))
                 (afterGuard meta s) in
  guardPasses meta s = true →
  resourceRelayNamespaceCreateUpdate meta s =
    match onCreateOrUpdateThenPoll (Relay_NamespacesClient meta) (numCreates s) with
    | Some e =>
        (Ret (Some (Errorf "creating/updating %s: %+v" [ArgNamespaceId id] e)), s2)
    | None =>
        resourceRelayNamespaceRead meta (withData (SetId (NamespaceId_ID id)) s2)
    end.
Proof.
  intros d id s2. subst s2.
  destruct (relay_counts_afterGuard meta s) as (Hn & _ & _). revert Hn.
  unfold guardPasses, afterGuard, numCreates, createParameters, withData, sent.
  cbv beta iota zeta delta
    [resourceRelayNamespaceCreateUpdate deriveContext getData now client_Get
     client_CreateOrUpdateThenPoll send mbind M_bind mret M_ret modifyData].
  cbn [st_d st_clock st_trace]. fold d. fold (createId meta d). fold id.
  fold (numGets s).
  destruct (rd_IsNewResource d); cbn [negb orb st_d st_clock st_trace].
  - intros Hn. destruct (onGet _ _) as [existing [err|]]; cbn [fst snd];
      intros ->; cbn [negb st_d st_clock st_trace]; rewrite Hn;
      by destruct (onCreateOrUpdateThenPoll _ _).
  - intros _ _. by destruct (onCreateOrUpdateThenPoll _ _).
Qed.

(** X24 (failed create). When the guard on new resources passes and
    CreateOrUpdateThenPoll fails, the create-or-update returns the cause
    wrapped as the creating/updating error, leaves the resource data (and
    so the stored id) unchanged, and has sent the up-front Get, for a new
    resource only, and the one request with the configured location and
    sku. *)
Theorem relay_create_request_failure meta s (e : error) :
  let d := st_d s in
  let id := createId meta d in
  let run := resourceRelayNamespaceCreateUpdate meta s in
  guardPasses meta s = true →
  onCreateOrUpdateThenPoll (Relay_NamespacesClient meta) (numCreates s) = Some e →
  run.1 = Ret (Some (Errorf "creating/updating %s: %+v" [ArgNamespaceId id] e))
  ∧ st_d run.2 = d
  ∧ requestsOf s run.2
    = (if rd_IsNewResource d then [ReqGet id] else [])
      ++ [ReqCreateOrUpdateThenPoll id (createParameters d)].
Proof.
  intros d id run Hg He. subst run.
  rewrite (relay_create_unfold meta s Hg). fold d id. rewrite He.
  cbn [fst snd sent st_d st_trace].
  destruct (relay_counts_afterGuard meta s) as (_ & Hd & _).
  split; [done|]. split; [exact Hd|].
  unfold afterGuard. fold d id.
  destruct (rd_IsNewResource d); cbn [sent st_trace st_clock].
  - apply (relay_requestsOf_app s _
             [(st_clock s, ReqGet id);
              (st_clock s, ReqCreateOrUpdateThenPoll id (createParameters d))]).
    unfold sent. cbn [st_trace st_clock]. by rewrite <- app_assoc.
  - by apply (relay_requestsOf_app s _
             [(st_clock s, ReqCreateOrUpdateThenPoll id (createParameters d))]).
Qed.

(** X25 (create, then read). After an accepted CreateOrUpdateThenPoll the id
    is stored and the read runs on it (the id is taken to parse back to
    itself). When its Get reports NotFound the create returns nil with the
    stored id cleared; when its Get fails otherwise the create returns the
    retrieving error while the stored id stays set. *)
Theorem relay_create_then_read meta s :
  let d := st_d s in
  let id := createId meta d in
  let c := Relay_NamespacesClient meta in
  let g := onGet c (numGets (afterGuard meta s)) in
  let run := resourceRelayNamespaceCreateUpdate meta s in
  guardPasses meta s = true →
  onCreateOrUpdateThenPoll c (numCreates s) = None →
  ParseNamespaceID (NamespaceId_ID id) = inl id →
  (reportsNotFound g = true →
     run.1 = Ret None ∧ rd_Id (st_d run.2) = "")
  ∧ (reportsFailure g = true →
     ∃ e, g.2 = Some e
          ∧ run.1 = Ret (Some (Errorf "retrieving %s: %+v" [ArgNamespaceId id] e))
          ∧ rd_Id (st_d run.2) = NamespaceId_ID id).
Proof.
  intros d id c g run Hg Hc Hid. subst run.
  rewrite (relay_create_unfold meta s Hg). fold d id c. rewrite Hc.
  set (s3 := withData (SetId (NamespaceId_ID id))
               (sent (ReqCreateOrUpdateThenPoll id (createParameters d))
                     (afterGuard meta s))).
  assert (Hn : numGets s3 = numGets (afterGuard meta s)).
  { subst s3. unfold withData, numGets. cbn [st_trace].
    apply (relay_counts_sent_create id (createParameters d) (afterGuard meta s)). }
  destruct (relay_read_failed_get meta s3 id Hid) as [Hnf Hfail].
  fold c in Hnf, Hfail. rewrite Hn in Hnf, Hfail. fold g in Hnf, Hfail.
  split.
  - intros Hr. destruct (Hnf Hr) as (Hres & Hdata & _).
    split; [exact Hres|]. by rewrite Hdata.
  - intros Hr. destruct (Hfail Hr) as (e & He & Hrun).
    exists e. split; [exact He|]. rewrite Hrun. by split.
Qed.

(** *** Delete *)

(** X26 (rejected delete request). When the API rejects the delete request,
    with whatever response, the delete returns the cause wrapped as the
    deleting error with the identity; the request is the only one sent, no
    probe follows, and the resource data is unchanged. *)
Theorem relay_delete_request_rejected meta s (id : NamespaceId) (e : error) :
  ParseNamespaceID (rd_Id (st_d s)) = inl id →
  (onDelete (Relay_NamespacesClient meta) (numDeletes s)).2 = Some e →
  resourceRelayNamespaceDelete meta s
  = (Ret (Some (Errorf "deleting %s: %+v" [ArgNamespaceId id] e)),
     sent (ReqDelete id) s).
Proof.
  intros Hid He. rewrite delete_unfold, Hid. by rewrite He.
Qed.

End RelayRuns.

Section RelayRunWitnesses.
Import Relay.

Lemma relay_read_list_keys_failure_witness :
  sampleParse (rd_Id (st_d hourStart)) = inl sampleNamespace
  ∧ sampleRead (scriptedClient None keysDenied deleteAccepted [] answerExists)
               hourStart
    = (Ret (Some (Errorf "listing keys for %s: %+v"
                         [ArgNamespaceId sampleNamespace]
                         (SdkError "AuthorizationFailed"))),
       sent (ReqListKeys (rootRule sampleNamespace))
            (sent (ReqGet sampleNamespace) hourStart)).
Proof.
  assert (H1 : sampleParse (rd_Id (st_d hourStart)) = inl sampleNamespace)
    by (vm_compute; reflexivity).
  split; [exact H1|].
  exact (@relay_read_list_keys_failure sampleCollaborators
           (scriptedClient None keysDenied deleteAccepted [] answerExists)
           hourStart sampleNamespace (SdkError "AuthorizationFailed")
           H1 eq_refl eq_refl).
Defined.

Lemma relay_read_without_model_witness :
  sampleParse (rd_Id (st_d hourStart)) = inl sampleNamespace
  ∧ (sampleRead (scriptedClient None keysListed deleteAccepted [] answerExists)
                hourStart).1 = Ret None
  ∧ rd_attrs (st_d (sampleRead
        (scriptedClient None keysListed deleteAccepted [] answerExists)
        hourStart).2) !! "primary_key" = Some (VString "primary").
Proof.
  assert (H1 : sampleParse (rd_Id (st_d hourStart)) = inl sampleNamespace)
    by (vm_compute; reflexivity).
  split; [exact H1|].
  destruct (@relay_read_without_model sampleCollaborators
              (scriptedClient None keysListed deleteAccepted [] answerExists)
              hourStart sampleNamespace H1 eq_refl eq_refl eq_refl)
    as (Hr & _ & _ & _ & _ & Hkeys).
  split; [exact Hr|]. exact (proj1 (proj2 Hkeys)).
Defined.

Lemma relay_create_request_failure_witness :
  guardPasses
    (scriptedClient (Some (SdkError "Conflict")) keysListed deleteAccepted []
                    answerNotFound) newStart = true
  ∧ (sampleCreate
       (scriptedClient (Some (SdkError "Conflict")) keysListed deleteAccepted []
                       answerNotFound) newStart).1
    = Ret (Some (Errorf "creating/updating %s: %+v"
                        [ArgNamespaceId sampleNamespace] (SdkError "Conflict")))
  ∧ st_d (sampleCreate
       (scriptedClient (Some (SdkError "Conflict")) keysListed deleteAccepted []
                       answerNotFound) newStart).2 = st_d newStart.
Proof.
  assert (H1 : guardPasses
    (scriptedClient (Some (SdkError "Conflict")) keysListed deleteAccepted []
                    answerNotFound) newStart = true) by (vm_compute; reflexivity).
  split; [exact H1|].
  destruct (@relay_create_request_failure sampleCollaborators
              (scriptedClient (Some (SdkError "Conflict")) keysListed
                              deleteAccepted [] answerNotFound)
              newStart (SdkError "Conflict") H1 eq_refl) as (Hr & Hd & _).
  split; [exact Hr | exact Hd].
Defined.

Lemma relay_create_then_read_witness :
  guardPasses goneApi newStart = true
  ∧ sampleParse (sampleID (createId goneApi (st_d newStart)))
    = inl (createId goneApi (st_d newStart))
  ∧ (sampleCreate goneApi newStart).1 = Ret None
  ∧ rd_Id (st_d (sampleCreate goneApi newStart).2) = "".
Proof.
  assert (H1 : guardPasses goneApi newStart = true) by (vm_compute; reflexivity).
  assert (H2 : sampleParse (sampleID (createId goneApi (st_d newStart)))
               = inl (createId goneApi (st_d newStart)))
    by (vm_compute; reflexivity).
  split; [exact H1|]. split; [exact H2|].
  exact (proj1 (@relay_create_then_read sampleCollaborators goneApi newStart
                  H1 eq_refl H2) eq_refl).
Defined.

Lemma relay_delete_request_rejected_witness :
  sampleParse (rd_Id (st_d hourStart)) = inl sampleNamespace
  ∧ sampleDelete (sampleClient deleteRejected [] answerNotFound) hourStart
    = (Ret (Some (Errorf "deleting %s: %+v" [ArgNamespaceId sampleNamespace]
                         (SdkError "ResourceNotFound"))),
       sent (ReqDelete sampleNamespace) hourStart).
Proof.
  assert (H1 : sampleParse (rd_Id (st_d hourStart)) = inl sampleNamespace)
    by (vm_compute; reflexivity).
  split; [exact H1|].
  exact (@relay_delete_request_rejected sampleCollaborators
           (sampleClient deleteRejected [] answerNotFound) hourStart
           sampleNamespace (SdkError "ResourceNotFound") H1 eq_refl).
Defined.
End RelayRunWitnesses.

Section UnparsableIds.
Context `{!Relay.Collaborators} `{!MachineLearning.Collaborators}.

(** X27 (stored id that does not parse). The read and the delete of a
    namespace return the parser's error as it is, those of a workspace
    return it wrapped with the stored id; none of them sends a request or
    changes the state. *)
Theorem unparsable_id_sends_nothing :
  (∀ meta (s : Relay.Run) err,
     Relay.ParseNamespaceID (rd_Id (st_d s)) = inr err →
     Relay.resourceRelayNamespaceRead meta s = (Ret (Some err), s)
     ∧ Relay.resourceRelayNamespaceDelete meta s = (Ret (Some err), s))
  ∧ (∀ meta (s : MachineLearning.Run) err,
       MachineLearning.ParseWorkspaceID (rd_Id (st_d s)) = inr err →
       let wrapped :=
         Errorf "parsing Machine Learning Workspace ID `%q`: %+v"
                [ArgString (rd_Id (st_d s))] err in
       MachineLearning.resourceMachineLearningWorkspaceRead meta s
       = (Ret (Some wrapped), s)
       ∧ MachineLearning.resourceMachineLearningWorkspaceDelete meta s
         = (Ret (Some wrapped), s)).
Proof.
  split.
  - intros meta s err Hid. split.
    + unfold Relay.resourceRelayNamespaceRead.
      by rewrite relay_bind_deriveContext, bind_getData, Hid.
    + by rewrite delete_unfold, Hid.
  - intros meta s err Hid wrapped. split.
    + unfold MachineLearning.resourceMachineLearningWorkspaceRead.
      by rewrite bind_deriveContext, bind_getData, Hid.
    + unfold MachineLearning.resourceMachineLearningWorkspaceDelete.
      by rewrite bind_deriveContext, bind_getData, Hid.
Qed.
End UnparsableIds.

Section UnparsableWitness.
Lemma unparsable_id_sends_nothing_witness :
  Relay.sampleParse "relay-ns" = inr (SdkError "parsing the Namespace ID")
  ∧ Relay.sampleRead Relay.goneApi
      (withData (SetId "relay-ns") Relay.hourStart)
    = (Ret (Some (SdkError "parsing the Namespace ID")),
       withData (SetId "relay-ns") Relay.hourStart).
Proof.
  assert (H1 : Relay.sampleParse "relay-ns"
               = inr (SdkError "parsing the Namespace ID"))
    by (vm_compute; reflexivity).
  split; [exact H1|].
  exact (proj1 (proj1 (@unparsable_id_sends_nothing Relay.sampleCollaborators
                         MachineLearning.sampleCollaborators)
                  Relay.goneApi (withData (SetId "relay-ns") Relay.hourStart)
                  _ H1)).
Defined.
End UnparsableWitness.
